(** * File storage over a relational table: the [Database] helper of sql.py

    The development embeds the [Database] class of [sql.py] (configuration
    loading, connection handling, placeholder translation and the operations
    on the [files] table) together with the parts of [sql_app.py] that call
    it, and proves the properties stated for them.

    Python strings are byte strings here (their UTF-8 encoding); Python
    integers are [Z]; a [bytes] object is a list of bytes; a [dict] with
    string keys is a [gmap string _]. *)

From Stdlib Require Import ZArith Lia Ascii.
From Stdlib.Strings Require Import Byte.
From stdpp Require Import gmap strings list fin_maps sorting pretty.

Local Open Scope Z_scope.

(** ** Python string primitives *)

Module PyStr.

(** [str.lower()] on the ASCII letters; no character outside ASCII lower-cases
    to a letter of an engine name. *)
Definition lower_char (c : ascii) : ascii :=
  let n := N_of_ascii c in
  if ((65 <=? n) && (n <=? 90))%N then ascii_of_N (n + 32) else c.

Fixpoint lower (s : string) : string :=
  match s with
  | EmptyString => EmptyString
  | String c s' => String (lower_char c) (lower s')
  end.

Fixpoint startswith (p s : string) : bool :=
  match p, s with
  | EmptyString, _ => true
  | String a p', String b s' => bool_decide (a = b) && startswith p' s'
  | String _ _, EmptyString => false
  end.

(** [s.replace(old, new)] for a non-empty [old]: the occurrences of [old]
    are taken from left to right and do not overlap.  [skip] counts the
    characters of a matched occurrence still to be dropped. *)
Fixpoint replace_from (old new : string) (skip : nat) (s : string) : string :=
  match s with
  | EmptyString => EmptyString
  | String c s' =>
      match skip with
      | S k => replace_from old new k s'
      | O =>
          if startswith old s
          then new +:+ replace_from old new (Nat.pred (String.length old)) s'
          else String c (replace_from old new O s')
      end
  end.

Definition replace (old new s : string) : string := replace_from old new O s.

(** [sep.join(parts)] *)
Fixpoint join (sep : string) (parts : list string) : string :=
  match parts with
  | [] => EmptyString
  | [p] => p
  | p :: ps => p +:+ sep +:+ join sep ps
  end.

(** [old in s] *)
Fixpoint contains (old s : string) : bool :=
  startswith old s ||
  match s with
  | EmptyString => false
  | String _ s' => contains old s'
  end.

(** [repr] of a string without quotes or escapes, and of a list of such. *)
Definition repr_str (s : string) : string := "'" +:+ s +:+ "'".
Definition repr_list (l : list string) : string :=
  "[" +:+ join ", " (repr_str <$> l) +:+ "]".

End PyStr.

(** ** [hashlib.sha256(data).hexdigest()]

    The digest the callers compute before an insert and after an export
    (FIPS 180-4), on 32-bit words kept in [Z] with the wrap-around written
    out. *)

Module Hashlib.

Definition w32 (x : Z) : Z := x mod 2 ^ 32.
Definition add32 (x y : Z) : Z := w32 (x + y).
Definition rotr (n x : Z) : Z := Z.lor (Z.shiftr x n) (w32 (Z.shiftl x (32 - n))).
Definition not32 (x : Z) : Z := Z.lxor x 0xffffffff.

Definition Ch (x y z : Z) : Z := Z.lxor (Z.land x y) (Z.land (not32 x) z).
Definition Maj (x y z : Z) : Z :=
  Z.lxor (Z.lxor (Z.land x y) (Z.land x z)) (Z.land y z).
Definition Sigma0 (x : Z) : Z := Z.lxor (Z.lxor (rotr 2 x) (rotr 13 x)) (rotr 22 x).
Definition Sigma1 (x : Z) : Z := Z.lxor (Z.lxor (rotr 6 x) (rotr 11 x)) (rotr 25 x).
Definition sigma0 (x : Z) : Z := Z.lxor (Z.lxor (rotr 7 x) (rotr 18 x)) (Z.shiftr x 3).
Definition sigma1 (x : Z) : Z := Z.lxor (Z.lxor (rotr 17 x) (rotr 19 x)) (Z.shiftr x 10).

(** The first [n] primes, by trial division from [c] on ([fuel] candidates). *)
Fixpoint primes_from (fuel n : nat) (c : Z) (found : list Z) : list Z :=
  match fuel, n with
  | O, _ | _, O => reverse found
  | S fuel', S n' =>
      if forallb (λ p, negb (c mod p =? 0)) found
      then primes_from fuel' n' (c + 1) (c :: found)
      else primes_from fuel' n (c + 1) found
  end.

(** The largest [r] below [2 ^ bits] with [r ^ e <= x], bit by bit. *)
Fixpoint iroot (e : Z) (bits : nat) (x r : Z) : Z :=
  match bits with
  | O => r
  | S b =>
      let r' := Z.lor r (Z.shiftl 1 (Z.of_nat b)) in
      iroot e b x (if r' ^ e <=? x then r' else r)
  end.

(** The first 32 bits of the fractional part of the [e]-th root of [p]. *)
Definition frac_root (e p : Z) : Z := w32 (iroot e 40 (p * 2 ^ (32 * e)) 0).

(** The round constants (cube roots of the first 64 primes) and the initial
    hash value (square roots of the first 8 primes). *)
Definition K : list Z :=
  Eval vm_compute in frac_root 3 <$> primes_from 400 64 2 [].

Definition H0 : list Z :=
  Eval vm_compute in frac_root 2 <$> primes_from 400 8 2 [].

Definition byte_val (b : byte) : Z := Z.of_N (Byte.to_N b).

(** The big-endian bytes of [x], [n] of them. *)
Fixpoint be_bytes (n : nat) (x : Z) : list Z :=
  match n with
  | O => []
  | S n' => be_bytes n' (Z.shiftr x 8) ++ [x mod 256]
  end.

(** The message followed by the bit 1, zeros up to 56 modulo 64 bytes, and
    its length in bits on 8 bytes. *)
Definition pad (msg : list Z) : list Z :=
  let len := Z.of_nat (length msg) in
  let zeros := Z.to_nat ((55 - len) mod 64) in
  msg ++ [0x80] ++ replicate zeros 0 ++ be_bytes 8 (8 * len).

Fixpoint be_word (bs : list Z) : Z :=
  match bs with
  | [] => 0
  | b :: bs' => b * 256 ^ Z.of_nat (length bs') + be_word bs'
  end.

(** Cut a list into pieces of [n] elements; [fuel] bounds the number of
    pieces and is the length of the list where it is used. *)
Fixpoint chunks {A} (fuel n : nat) (l : list A) : list (list A) :=
  match fuel, l with
  | O, _ | _, [] => []
  | S fuel', _ => take n l :: chunks fuel' n (drop n l)
  end.

(** The message schedule, newest word first: [ws] holds W(t-1), W(t-2), ... *)
Fixpoint schedule (n : nat) (ws : list Z) : list Z :=
  match n with
  | O => ws
  | S n' =>
      let w := add32 (add32 (sigma1 (ws !!! 1%nat)) (ws !!! 6%nat))
                     (add32 (sigma0 (ws !!! 14%nat)) (ws !!! 15%nat)) in
      schedule n' (w :: ws)
  end.

Definition round (s : list Z) (kw : Z * Z) : list Z :=
  match s with
  | [a; b; c; d; e; f; g; h] =>
      let t1 := add32 (add32 (add32 h (Sigma1 e)) (add32 (Ch e f g) kw.1)) kw.2 in
      let t2 := add32 (Sigma0 a) (Maj a b c) in
      [add32 t1 t2; a; b; c; add32 d t1; e; f; g]
  | _ => s
  end.

Definition compress (h : list Z) (block : list Z) : list Z :=
  let w16 := be_word <$> chunks 16 4 block in
  let w := reverse (schedule 48 (reverse w16)) in
  zip_with add32 h (foldl round h (zip K w)).

Definition hex_digit (x : Z) : ascii :=
  ascii_of_N (Z.to_N (if x <? 10 then 48 + x else 87 + x)).

Fixpoint hex (n : nat) (x : Z) (acc : string) : string :=
  match n with
  | O => acc
  | S n' => hex n' (Z.shiftr x 4) (String (hex_digit (x mod 16)) acc)
  end.

Definition sha256_hexdigest (data : list byte) : string :=
  let padded := pad (byte_val <$> data) in
  let blocks := chunks (length padded) 64 padded in
  foldr (λ x acc, hex 8 x acc) EmptyString (foldl compress H0 blocks).

End Hashlib.

(** ** Python values found in a decoded configuration *)

(** A value of the decoded JSON object.  The code observes such a value only
    through its truth value ([not v]) and its [str(v)]; a float, an array or
    a nested object is kept as these two observations. *)
Inductive pyval :=
| PNone
| PBool (b : bool)
| PInt (n : Z)
| PStr (s : string)
| PObj (truth : bool) (text : string).

Definition truthy (v : pyval) : bool :=
  match v with
  | PNone => false
  | PBool b => b
  | PInt n => negb (n =? 0)
  | PStr s => negb (bool_decide (s = EmptyString))
  | PObj t _ => t
  end.

Definition py_str (v : pyval) : string :=
  match v with
  | PNone => "None"
  | PBool true => "True"
  | PBool false => "False"
  | PInt n => pretty n
  | PStr s => s
  | PObj _ t => t
  end.

(** [d.get(k)] and [d.get(k, dflt)] *)
Definition dict_get (d : gmap string pyval) (k : string) : pyval :=
  default PNone (d !! k).
Definition dict_get_default (d : gmap string pyval) (k : string) (dflt : pyval) : pyval :=
  default dflt (d !! k).

(** ** Exceptions, the outside world and the monad of the methods *)

Inductive exn :=
| FileNotFoundError (msg : string)
| JSONDecodeError
| AttributeError
| TypeError
| KeyError (key : string)
| ValueError (msg : string)
| DriverError (msg : string).

(** What is found at the path of a configuration file: text that is not
    JSON, JSON that is not an object, or an object. *)
Inductive config_file :=
| Garbled
| NotAnObject
| Object (data : gmap string pyval).

(** A value bound to a statement or read from a column. *)
Inductive sqlval :=
| VInt (n : Z)
| VText (s : string)
| VBlob (b : list byte).

(** A row of [files] without its key. *)
Record stored := Stored {
  st_filename : string;
  st_mime_type : string;
  st_file_size : Z;
  st_file_data : list byte;
  st_sha256 : string
}.

(** The table [files]: its rows by primary key, the largest key the
    autoincrement counter has handed out, and the number of row slots that
    deletions released and no compaction has reclaimed yet. *)
Record table := Table {
  rows : gmap Z stored;
  seq : Z;
  freed : nat
}.

Definition empty_table : table := Table ∅ 0 0.

(** The world a [Database] object acts on: the configuration files by path,
    whether the configured database accepts connections, the table [files]
    of that database (absent until created), every statement handed to a
    cursor so far (oldest first) and the number of connections now open. *)
Record world := World {
  disk : gmap string config_file;
  server_up : bool;
  files_table : option table;
  statements : list string;
  handles : nat
}.

Inductive outcome (A : Type) :=
| Return (a : A) (w : world)
| Raise (e : exn) (w : world).
Arguments Return {A} a w.
Arguments Raise {A} e w.

Definition M (A : Type) : Type := world → outcome A.

Definition ret {A} (a : A) : M A := λ w, Return a w.
Definition raise {A} (e : exn) : M A := λ w, Raise e w.
Definition bind {A B} (m : M A) (k : A → M B) : M B := λ w,
  match m w with
  | Return a w' => k a w'
  | Raise e w' => Raise e w'
  end.

Global Instance M_ret : MRet M := @ret.
Global Instance M_bind : MBind M := λ A B k m, bind m k.

(** [try: body finally: fin] *)
Definition try_finally {A} (body : M A) (fin : M unit) : M A := λ w,
  match body w with
  | Return a w' =>
      match fin w' with
      | Return _ w'' => Return a w''
      | Raise e w'' => Raise e w''
      end
  | Raise e w' =>
      match fin w' with
      | Return _ w'' => Raise e w''
      | Raise e' w'' => Raise e' w''
      end
  end.

(** [try: body except Exception: handler] *)
Definition try_except {A} (body : M A) (handler : exn → M A) : M A := λ w,
  match body w with
  | Return a w' => Return a w'
  | Raise e w' => handler e w'
  end.

(** [try: m except Exception: pass] *)
Definition quietly (m : M unit) : M unit := try_except m (λ _, ret tt).

(** ** The database engines

    The two drivers ([mysql.connector] and [sqlite3]) and the engines behind
    them are outside the repository.  They are modelled by what they do with
    the statements that [sql.py] sends: a statement is recognised up to
    white space, in the placeholder style of the driver, and run on the
    table. *)

Module Engine.

Inductive conn_kind := MySQLConnection | SqliteConnection.

Global Instance conn_kind_eq_dec : EqDecision conn_kind.
Proof. solve_decision. Defined.

(** The parameter marker a driver substitutes: [%s] for [mysql.connector],
    [?] for [sqlite3]. *)
Definition placeholder (k : conn_kind) : string :=
  match k with
  | MySQLConnection => "%s"
  | SqliteConnection => "?"
  end.

(** The autoincrement keyword of each dialect. *)
Definition autoincrement_keyword (k : conn_kind) : string :=
  match k with
  | MySQLConnection => "AUTO_INCREMENT"
  | SqliteConnection => "AUTOINCREMENT"
  end.

Inductive selection :=
| ById
| NewestFirst (limit_one : bool).

Inductive statement :=
| CreateTable
| Insert
| Select (cols : list string) (sel : selection)
| Delete
| Vacuum.

(** The result side of a cursor after [execute]. *)
Record cursor := Cursor {
  fetchall : list (list (string * sqlval));
  lastrowid : option Z;
  rowcount : Z
}.

Definition column_names : list string :=
  ["id"; "filename"; "mime_type"; "file_size"; "file_data"; "sha256"].

(** A row with all its columns, in the order of the schema. *)
Definition full_row (id : Z) (r : stored) : list (string * sqlval) :=
  [("id", VInt id);
   ("filename", VText (st_filename r));
   ("mime_type", VText (st_mime_type r));
   ("file_size", VInt (st_file_size r));
   ("file_data", VBlob (st_file_data r));
   ("sha256", VText (st_sha256 r))].

Fixpoint assoc (c : string) (l : list (string * sqlval)) : option sqlval :=
  match l with
  | [] => None
  | (c', v) :: l' => if decide (c = c') then Some v else assoc c l'
  end.

(** The columns [cols] of a row, in the order they are asked for. *)
Definition project (cols : list string) (id : Z) (r : stored) : list (string * sqlval) :=
  omap (λ c, (λ v, (c, v)) <$> assoc c (full_row id r)) cols.

Fixpoint strip_comma (s : string) : string :=
  match s with
  | EmptyString => EmptyString
  | String c EmptyString => if decide (c = ","%char) then EmptyString else s
  | String c s' => String c (strip_comma s')
  end.

(** The column list of a SELECT: the words before FROM, and what follows. *)
Fixpoint until_from (ws : list string) : option (list string * list string) :=
  match ws with
  | [] => None
  | w :: ws' =>
      if decide (w = "FROM") then Some ([], ws')
      else match until_from ws' with
           | Some (cs, tl) => Some (strip_comma w :: cs, tl)
           | None => None
           end
  end.

Definition insert_words (ph : string) : list string :=
  ["INSERT"; "INTO"; "files";
   "(filename,"; "mime_type,"; "file_size,"; "file_data,"; "sha256)";
   "VALUES";
   "(" +:+ ph +:+ ","; ph +:+ ","; ph +:+ ","; ph +:+ ","; ph +:+ ")"].

Definition delete_words (ph : string) : list string :=
  ["DELETE"; "FROM"; "files"; "WHERE"; "id"; "="; ph].

Definition create_prefix : list string :=
  ["CREATE"; "TABLE"; "IF"; "NOT"; "EXISTS"; "files"; "("].

Definition parse_select (ph : string) (ws : list string) : option statement :=
  match until_from ws with
  | Some (cols, tbl :: tl) =>
      if bool_decide (tbl = "files" ∧ cols ≠ [] ∧ Forall (λ c, c ∈ column_names) cols)
      then
        if decide (tl = ["WHERE"; "id"; "="; ph]) then Some (Select cols ById)
        else if decide (tl = ["ORDER"; "BY"; "id"; "DESC"])
             then Some (Select cols (NewestFirst false))
        else if decide (tl = ["ORDER"; "BY"; "id"; "DESC"; "LIMIT"; "1"])
             then Some (Select cols (NewestFirst true))
        else None
      else None
  | _ => None
  end.

Definition parse (k : conn_kind) (sql : string) : option statement :=
  let ph := placeholder k in
  let ws := String.words sql in
  match ws with
  | [] => None
  | w :: ws' =>
      if decide (w = "SELECT") then parse_select ph ws'
      else if decide (ws = insert_words ph) then Some Insert
      else if decide (ws = delete_words ph) then Some Delete
      else if bool_decide (take 7 ws = create_prefix
                          ∧ autoincrement_keyword k ∈ strip_comma <$> ws)
           then Some CreateTable
      else if bool_decide (ws = ["VACUUM"] ∧ k = SqliteConnection) then Some Vacuum
      else None
  end.

(** The key an autoincrement column gives the next row: one more than the
    largest key handed out or present. *)
Definition max_key (m : gmap Z stored) : Z := foldr Z.max 0 ((map_to_list m).*1).
Definition next_id (t : table) : Z := Z.max (seq t) (max_key (rows t)) + 1.

(** [ORDER BY id DESC] *)
Definition newer (a b : Z * stored) : Prop := b.1 ≤ a.1.

Global Instance newer_dec : RelDecision newer.
Proof. intros a b. unfold newer. apply _. Defined.

Definition newest_first (m : gmap Z stored) : list (Z * stored) :=
  merge_sort newer (map_to_list m).

Definition no_result : cursor := Cursor [] None (-1).

Definition run (st : statement) (ps : list sqlval) (t : option table)
  : exn + (option table * cursor) :=
  match st, t, ps with
  | CreateTable, _, [] => inr (Some (default empty_table t), no_result)
  | Insert, Some t, [VText f; VText m; VInt n; VBlob d; VText h] =>
      let id := next_id t in
      inr (Some (Table (<[id := Stored f m n d h]> (rows t)) id (freed t)),
           Cursor [] (Some id) 1)
  | Select cols ById, Some t, [VInt x] =>
      inr (Some t,
           Cursor (match rows t !! x with
                   | Some r => [project cols x r]
                   | None => []
                   end) None (-1))
  | Select cols (NewestFirst lim), Some t, [] =>
      let all := (λ kr, project cols kr.1 kr.2) <$> newest_first (rows t) in
      inr (Some t, Cursor (if lim then take 1 all else all) None (-1))
  | Delete, Some t, [VInt x] =>
      match rows t !! x with
      | Some _ =>
          inr (Some (Table (delete x (rows t)) (seq t) (S (freed t))),
               Cursor [] None 1)
      | None => inr (Some t, Cursor [] None 0)
      end
  | Vacuum, Some t, [] =>
      inr (Some (Table (rows t) (seq t) O), no_result)
  | _, None, _ => inl (DriverError "no such table: files")
  | _, _, _ => inl (DriverError "incorrect number or type of bindings")
  end.

End Engine.

(** ** The drivers' connection interface *)

Definition set_table (t : option table) (w : world) : world :=
  World (disk w) (server_up w) t (statements w) (handles w).
Definition log_statement (sql : string) (w : world) : world :=
  World (disk w) (server_up w) (files_table w) (statements w ++ [sql]) (handles w).
Definition set_handles (n : nat) (w : world) : world :=
  World (disk w) (server_up w) (files_table w) (statements w) n.

(** [mysql.connector.connect(...)] and [sqlite3.connect(path)] *)
Definition driver_connect (k : Engine.conn_kind) : M Engine.conn_kind := λ w,
  if server_up w then Return k (set_handles (S (handles w)) w)
  else Raise (DriverError "cannot open the database") w.

(** [conn.close()], [cursor.close()], [conn.commit()].  A statement takes
    effect on the table when it is executed; the commit that follows it in
    every method is not a separate step of the model. *)
Definition conn_close (conn : Engine.conn_kind) : M unit := λ w,
  Return tt (set_handles (Nat.pred (handles w)) w).
Definition cursor_close : M unit := ret tt.
Definition conn_commit (conn : Engine.conn_kind) : M unit := ret tt.

(** [cursor.execute(sql, params)] *)
Definition cursor_execute (conn : Engine.conn_kind) (sql : string) (ps : list sqlval)
  : M Engine.cursor := λ w,
  let w1 := log_statement sql w in
  match Engine.parse conn sql with
  | None => Raise (DriverError "syntax error") w1
  | Some st =>
      match Engine.run st ps (files_table w1) with
      | inl e => Raise e w1
      | inr (t', cur) => Return cur (set_table t' w1)
      end
  end.

(** ** The class [Database] of sql.py *)

Definition CONFIG_PATH : string := "db_param.json".

Record Database := {
  config_path : string;
  params : gmap string pyval;
  engine : string
}.

(** [d[k]] *)
Definition subscript (d : gmap string pyval) (k : string) : M pyval :=
  match d !! k with
  | Some v => ret v
  | None => raise (KeyError k)
  end.

Definition required_keys : list string := ["host"; "user"; "password"; "database"].

(** [Database._load_params] (sql.py, lines 35-64): the configuration file
    is read, decoded and validated; nothing else in the world is touched. *)
Definition _load_params (config_path : string) : M (gmap string pyval) := λ w,
  match disk w !! config_path with
  | None => Raise (FileNotFoundError ("Config file not found: " +:+ config_path)) w
  | Some Garbled => Raise JSONDecodeError w
  | Some NotAnObject => Raise AttributeError w
  | Some (Object data) =>
      let engine := PyStr.lower (py_str (dict_get_default data "engine" (PStr "mysql"))) in
      if negb (bool_decide (engine ∈ ["mysql"; "sqlite"]))
      then Raise (ValueError "db_param.json 'engine' must be either 'mysql' or 'sqlite'") w
      else if bool_decide (engine = "mysql") then
        let missing := filter (λ k, negb (truthy (dict_get data k)) = true) required_keys in
        if negb (bool_decide (missing = []))
        then Raise (ValueError ("Missing required MySQL fields in db_param.json: "
                                +:+ PyStr.repr_list missing)) w
        else
          if negb (bool_decide (is_Some (data !! "port")))
             || negb (truthy (dict_get data "port"))
          then Return (<["port" := PInt 3306]> data) w
          else Return data w
      else
        if negb (truthy (dict_get data "database"))
        then Raise (ValueError "For SQLite, db_param.json must contain 'database' (file name/path)") w
        else Return data w
  end.

(** [Database._sqlite_path] (sql.py, lines 66-73).  [Path(raw)] accepts a
    string only; the resolution against the directory
    of the configuration file and the creation of the parent directories do
    not touch the modelled world. *)
Definition _sqlite_path (self : Database) : M string :=
  raw ← subscript (params self) "database";
  match raw with
  | PStr p => ret p
  | _ => raise TypeError
  end.

(** [Database.get_connection] (sql.py, lines 75-89). *)
Definition get_connection (self : Database) : M Engine.conn_kind :=
  let engine := engine self in
  if bool_decide (engine = "mysql") then
    _ ← subscript (params self) "host";
    _ ← subscript (params self) "port";
    _ ← subscript (params self) "user";
    _ ← subscript (params self) "password";
    _ ← subscript (params self) "database";
    driver_connect Engine.MySQLConnection
  else if bool_decide (engine = "sqlite") then
    _ ← _sqlite_path self;
    driver_connect Engine.SqliteConnection
  else raise (ValueError ("Unsupported engine: " +:+ engine)).

(** [Database.check_connection] (sql.py, lines 91-104); the message printed on
    failure is left out. *)
Definition check_connection (self : Database) : M bool :=
  try_except
    (conn ← get_connection self;
     conn_close conn;;
     ret true)
    (λ _, ret false).

(** [Database._prepare_sql] (sql.py, lines 108-117). *)
Definition _prepare_sql (self : Database) (sql : string) : string :=
  if bool_decide (engine self = "sqlite") then PyStr.replace "%s" "?" sql
  else sql.

(** [Database.execute] (sql.py, lines 119-139); [params or ()] is the list of
    parameters, empty for None. *)
Definition execute (self : Database) (sql : string) (ps : list sqlval) : M unit :=
  conn ← get_connection self;
  try_finally
    (let sql_to_run := _prepare_sql self sql in
     _ ← cursor_execute conn sql_to_run ps;
     conn_commit conn)
    (cursor_close;; conn_close conn).

(** A fetched row as the [dict] both branches of [query] deliver: the
    dictionary cursor of MySQL builds it, and [dict(row)] does for SQLite. *)
Definition row_dict (r : list (string * sqlval)) : gmap string sqlval := list_to_map r.

(** [Database.query] (sql.py, lines 141-172). *)
Definition query (self : Database) (sql : string) (ps : list sqlval)
  : M (list (gmap string sqlval)) :=
  conn ← get_connection self;
  try_finally
    (let sql_to_run := _prepare_sql self sql in
     cur ← cursor_execute conn sql_to_run ps;
     let rows := Engine.fetchall cur in
     ret (row_dict <$> rows))
    (cursor_close;; conn_close conn).

(** [Database.insert_file] (sql.py, lines 176-205). *)
Definition insert_file (self : Database)
    (filename mime_type : string) (file_size : Z) (file_data : list byte) (sha256 : string)
  : M Z :=
  conn ← get_connection self;
  try_finally
    (let sql := "
                INSERT INTO files (filename, mime_type, file_size, file_data, sha256)
                VALUES (%s, %s, %s, %s, %s)
            " in
     let sql_to_run := _prepare_sql self sql in
     cur ← cursor_execute conn sql_to_run
             [VText filename; VText mime_type; VInt file_size; VBlob file_data; VText sha256];
     conn_commit conn;;
     match Engine.lastrowid cur with
     | Some id => ret id
     | None => raise TypeError
     end)
    (cursor_close;; conn_close conn).

(** [Database.get_all_files] (sql.py, lines 207-220). *)
Definition get_all_files (self : Database) : M (list (gmap string sqlval)) :=
  query self "
            SELECT id, filename, mime_type, file_size, sha256
            FROM files
            ORDER BY id DESC
            " [].

(** [Database.get_file_by_id] (sql.py, lines 222-240); [rows[0] if rows else
    None] is the head of the list. *)
Definition get_file_by_id (self : Database) (file_id : Z) : M (option (gmap string sqlval)) :=
  rows ← query self "
            SELECT id, filename, mime_type, file_size, file_data, sha256
            FROM files
            WHERE id = %s
            " [VInt file_id];
  ret (head rows).

(** [Database.get_file_for_export] (sql.py, lines 242-260). *)
Definition get_file_for_export (self : Database) (file_id : Z)
  : M (option (gmap string sqlval)) :=
  rows ← query self "
            SELECT filename, file_data, sha256
            FROM files
            WHERE id = %s
            " [VInt file_id];
  ret (head rows).

(** [Database.get_last_file] (sql.py, lines 262-277). *)
Definition get_last_file (self : Database) : M (option (gmap string sqlval)) :=
  rows ← query self "
            SELECT id, filename, mime_type, file_size, file_data, sha256
            FROM files
            ORDER BY id DESC
            LIMIT 1
            " [];
  ret (head rows).

(** [Database.vacuum] (sql.py, lines 279-294). *)
Definition vacuum (self : Database) : M unit :=
  if negb (bool_decide (engine self = "sqlite")) then ret tt
  else
    conn ← get_connection self;
    try_finally
      (_ ← cursor_execute conn "VACUUM" [];
       conn_commit conn)
      (cursor_close;; conn_close conn).

(** [Database.delete_file] (sql.py, lines 296-342).  The local flag
    [connection_closed] is False in the first block and True
    after it, so the handler closes the handles for an exception of the
    first block only; the first block yields [Some False] where the method
    returns early. *)
Definition delete_file (self : Database) (file_id : Z) (vacuum_after : bool) : M bool :=
  conn ← get_connection self;
  early ← try_except
    (let sql := "DELETE FROM files WHERE id = %s" in
     let sql_to_run := _prepare_sql self sql in
     cur ← cursor_execute conn sql_to_run [VInt file_id];
     let rows_affected := Engine.rowcount cur in
     conn_commit conn;;
     if rows_affected =? 0 then
       cursor_close;; conn_close conn;; ret (Some false)
     else
       cursor_close;; conn_close conn;; ret None)
    (λ e, quietly cursor_close;; quietly (conn_close conn);; raise e);
  match early with
  | Some b => ret b
  | None =>
      try_except
        ((if vacuum_after && bool_decide (engine self = "sqlite")
          then vacuum self else ret tt);;
         ret true)
        (λ e, raise e)
  end.

(** [Database._ensure_files_table] (sql.py, lines 346-383). *)
Definition _ensure_files_table (self : Database) : M unit :=
  conn ← get_connection self;
  try_finally
    ((if bool_decide (engine self = "mysql") then
        _ ← cursor_execute conn "
                    CREATE TABLE IF NOT EXISTS files (
                        id INT AUTO_INCREMENT PRIMARY KEY,
                        filename VARCHAR(255) NOT NULL,
                        mime_type VARCHAR(255) NOT NULL,
                        file_size BIGINT NOT NULL,
                        file_data LONGBLOB NOT NULL,
                        sha256 CHAR(64) NOT NULL
                    )
                    " [];
        ret tt
      else if bool_decide (engine self = "sqlite") then
        _ ← cursor_execute conn "
                    CREATE TABLE IF NOT EXISTS files (
                        id INTEGER PRIMARY KEY AUTOINCREMENT,
                        filename TEXT NOT NULL,
                        mime_type TEXT NOT NULL,
                        file_size INTEGER NOT NULL,
                        file_data BLOB NOT NULL,
                        sha256 TEXT NOT NULL
                    )
                    " [];
        ret tt
      else ret tt);;
     conn_commit conn)
    (cursor_close;; conn_close conn).

(** [Database.__init__] (sql.py, lines 27-31); [None] stands for the default
    argument. *)
Definition __init__ (config_path : option string) : M Database :=
  let config_path := default CONFIG_PATH config_path in
  params ← _load_params config_path;
  engine ← match dict_get_default params "engine" (PStr "mysql") with
           | PStr s => ret (PyStr.lower s)
           | _ => raise AttributeError
           end;
  let self := {| config_path := config_path; params := params; engine := engine |} in
  _ensure_files_table self;;
  ret self.

(** ** The callers in sql_app.py *)

(** [compute_file_metadata] (sql_app.py, lines 28-36): [file_name] is the
    name of the path and [guessed] what [mimetypes.guess_type] found for
    it. *)
Definition compute_file_metadata
    (file_name : string) (guessed : option string) (file_contents : list byte)
  : string * string * Z * list byte * string :=
  let mime_type :=
    match guessed with
    | Some m => if bool_decide (m = EmptyString) then "application/octet-stream" else m
    | None => "application/octet-stream"
    end in
  let file_size := Z.of_nat (length file_contents) in
  let sha256 := Hashlib.sha256_hexdigest file_contents in
  (file_name, mime_type, file_size, file_contents, sha256).



(** ** Vocabulary of the properties *)

(** The driver a constructed object connects through, and what the
    connection needs from the parameters. *)
Definition usable (self : Database) (k : Engine.conn_kind) : Prop :=
  match k with
  | Engine.MySQLConnection =>
      engine self = "mysql" ∧
      Forall (λ key, is_Some (params self !! key))
             ["host"; "port"; "user"; "password"; "database"]
  | Engine.SqliteConnection =>
      engine self = "sqlite" ∧ ∃ p, params self !! "database" = Some (PStr p)
  end.

(** The database answers and the table exists. *)
Definition available (w : world) : Prop :=
  server_up w = true ∧ is_Some (files_table w).

(** The rows of the table in a world (none while the table is absent). *)
Definition table_rows (w : world) : gmap Z stored :=
  match files_table w with
  | Some t => rows t
  | None => ∅
  end.

(** The [dict] a query over all six columns delivers for a stored row, and
    the one the listing delivers. *)
Definition full_dict (id : Z) (r : stored) : gmap string sqlval :=
  {[ "id" := VInt id;
     "filename" := VText (st_filename r);
     "mime_type" := VText (st_mime_type r);
     "file_size" := VInt (st_file_size r);
     "file_data" := VBlob (st_file_data r);
     "sha256" := VText (st_sha256 r) ]}.

Definition meta_columns : list string :=
  ["id"; "filename"; "mime_type"; "file_size"; "sha256"].

Definition meta_dict (id : Z) (r : stored) : gmap string sqlval :=
  {[ "id" := VInt id;
     "filename" := VText (st_filename r);
     "mime_type" := VText (st_mime_type r);
     "file_size" := VInt (st_file_size r);
     "sha256" := VText (st_sha256 r) ]}.

(** The world after one statement [sql] that left the table as [t']: the
    statement is logged and every handle opened for it is closed again. *)
Definition after (sql : string) (t' : option table) (w : world) : world :=
  World (disk w) (server_up w) t' (statements w ++ [sql]) (handles w).

(** The statement text a driver receives for the text [sql] of the code. *)
Definition native (k : Engine.conn_kind) (sql : string) : string :=
  match k with
  | Engine.MySQLConnection => sql
  | Engine.SqliteConnection => PyStr.replace "%s" "?" sql
  end.

(** The taxonomy of the errors: a configuration error is one raised while
    the configuration is read and validated. *)
Definition configuration_error (e : exn) : bool :=
  match e with
  | FileNotFoundError _ | JSONDecodeError | AttributeError | ValueError _ => true
  | TypeError | KeyError _ | DriverError _ => false
  end.

(** The engine name the validation works with: [str(data.get("engine",
    "mysql")).lower()]. *)
Definition engine_name (data : gmap string pyval) : string :=
  PyStr.lower (py_str (dict_get_default data "engine" (PStr "mysql"))).

(** What an outcome returned or raised. *)
Definition returned {A} (o : outcome A) : option A :=
  match o with
  | Return a _ => Some a
  | Raise _ _ => None
  end.
Definition raised {A} (o : outcome A) : option exn :=
  match o with
  | Return _ _ => None
  | Raise e _ => Some e
  end.
Definition world_of {A} (o : outcome A) : world :=
  match o with
  | Return _ w | Raise _ w => w
  end.

(** The required keys that [_load_params] reports for [data]. *)
Definition missing_keys (data : gmap string pyval) : list string :=
  filter (λ k, negb (truthy (dict_get data k)) = true) required_keys.

Definition missing_message (missing : list string) : string :=
  "Missing required MySQL fields in db_param.json: " +:+ PyStr.repr_list missing.

(** The world [w] with the configuration file at [path] replaced. *)
Definition with_config (path : string) (c : config_file) (w : world) : world :=
  World (<[path := c]> (disk w)) (server_up w) (files_table w) (statements w) (handles w).

(** An object that some construction returned. *)
Definition constructed (self : Database) : Prop :=
  ∃ cp w0 w1, __init__ cp w0 = Return self w1.

(** ** Histories of calls *)




(** The [id] a returned row carries. *)
Definition row_id (d : gmap string sqlval) : Z :=
  match d !! "id" with
  | Some (VInt i) => i
  | _ => 0
  end.


(** ** Sample configurations *)

Definition mysql_config : gmap string pyval :=
  {[ "engine" := PStr "mysql"; "host" := PStr "localhost"; "user" := PStr "root";
     "password" := PStr "secret"; "database" := PStr "storage" ]}.

Definition sqlite_config : gmap string pyval :=
  {[ "engine" := PStr "sqlite"; "database" := PStr "files.db" ]}.

(** A fresh installation: the configuration file at the default path, no
    table yet, nothing run. *)
Definition fresh (data : gmap string pyval) (up : bool) : world :=
  World {[ CONFIG_PATH := Object data ]} up None [] 0.

(** The objects these configurations construct, the world right after such
    a construction, and that world with one file stored. *)
Definition sqlite_store : Database :=
  {| config_path := CONFIG_PATH; params := sqlite_config; engine := "sqlite" |}.

Definition mysql_store : Database :=
  {| config_path := CONFIG_PATH;
     params := <["port" := PInt 3306]> mysql_config;
     engine := "mysql" |}.

Definition opened (data : gmap string pyval) : world :=
  world_of (__init__ None (fresh data true)).

Definition abc : list byte := ["a"; "b"; "c"]%byte.

Definition with_abc (self : Database) (w : world) : world :=
  world_of (insert_file self "abc.txt" "text/plain" 3 abc (Hashlib.sha256_hexdigest abc) w).

(** ** The backup copy of sql_app.py *)







(** The characters of a hexadecimal digest. *)
Definition hex_char (c : ascii) : bool :=
  let n := N_of_ascii c in
  ((48 <=? n) && (n <=? 57) || (97 <=? n) && (n <=? 102))%N.

Fixpoint all_chars (p : ascii → bool) (s : string) : bool :=
  match s with
  | EmptyString => true
  | String c s' => p c && all_chars p s'
  end.

(** ** random_data.py *)

(** [data[:n]] *)
Fixpoint take_chars (n : nat) (s : string) : string :=
  match n, s with
  | S n', String c s' => String c (take_chars n' s')
  | _, _ => EmptyString
  end.

Definition numbers_per_chunk : nat := Z.to_nat 10000.

(** The text of one chunk (random_data.py, lines 30-32): 10000 numbers, each
    the next value that [random.randint(0, 9)] returns, with a space between
    them and a newline at the end.  [draws] is the sequence of these values
    and [base] the number of values already used. *)
Definition chunk_text (draws : nat → Z) (base : nat) : string :=
  let numbers := (λ j, pretty (draws (base + j)%nat)) <$> List.seq 0 numbers_per_chunk in
  PyStr.join " " numbers +:+ String "010"%char EmptyString.

(** The loop of [create_random_file] (random_data.py, lines 26-38), with
    the text written so far; [None] when [fuel] iterations did not bring it
    to its end. *)
Fixpoint write_chunks (fuel : nat) (draws : nat → Z) (total_bytes : Z)
    (bytes_written : Z) (base : nat) (file : string) : option string :=
  match fuel with
  | O => None
  | S fuel' =>
      if bytes_written <? total_bytes then
        let remaining := total_bytes - bytes_written in
        let chunk_size := 1024 * 1024 in
        let data := chunk_text draws base in
        let data :=
          if Z.of_nat (String.length data) >? Z.min chunk_size remaining
          then take_chars (Z.to_nat (Z.min chunk_size remaining)) data
          else data in
        write_chunks fuel' draws total_bytes
          (bytes_written + Z.of_nat (String.length data)) (base + numbers_per_chunk)%nat
          (file +:+ data)
      else Some file
  end.

(** [create_random_file] (random_data.py, lines 14-40): the content of the
    file it writes, or the exception it raises; the lines it prints are left
    out. *)
Definition create_random_file (fuel : nat) (size_mb : Z) (draws : nat → Z)
  : option (exn + string) :=
  if size_mb <=? 0 then Some (inl (ValueError "size_mb must be a positive integer"))
  else
    let total_bytes := size_mb * 1024 * 1024 in
    inr <$> write_chunks fuel draws total_bytes 0 O EmptyString.

(** The characters of the generated text: digits, space and newline. *)
Definition data_char (c : ascii) : bool :=
  let n := N_of_ascii c in
  ((48 <=? n) && (n <=? 57) || (n =? 32) || (n =? 10))%N.

(** * gui_app.py *)

Module gui_app.

(** ** The helpers at the head of the file *)

(** [f"{x:.1f}"] for a quotient [x = num / den] that is not negative: the
    tenths nearest to [x], the even one of two at the same distance, as the
    correctly rounded conversion of the exact value gives them. *)
Definition round_half_even (num den : Z) : Z :=
  let q := num / den in
  let r := num mod den in
  if 2 * r <? den then q
  else if den <? 2 * r then q + 1
  else if Z.even q then q else q + 1.

Definition fixed1 (num den : Z) : string :=
  let tenths := round_half_even (10 * num) den in
  pretty (tenths / 10) +:+ "." +:+ pretty (tenths mod 10).

(** The loop of [format_file_size] (gui_app.py, lines 18-24).  From the
    first division on [size_bytes] is a float; it is kept as the quotient
    [num / den], which is its exact value: a size below [2 ^ 53] is a float
    as it stands, and a division by 1024.0 only changes the exponent. *)
Fixpoint format_units (units : list string) (num den : Z) : string :=
  match units with
  | [] => fixed1 num den +:+ " PB"
  | unit :: units' =>
      if num <? 1024 * den then
        if bool_decide (unit = "B") then pretty (num ÷ den) +:+ " " +:+ unit
        else fixed1 num den +:+ " " +:+ unit
      else format_units units' num (den * 1024)
  end.

(** [format_file_size] (gui_app.py, lines 13-24). *)
Definition format_file_size (size_bytes : Z) : string :=
  if size_bytes =? 0 then "0 B"
  else format_units ["B"; "KB"; "MB"; "GB"; "TB"] size_bytes 1.

(** [get_file_icon] (gui_app.py, lines 27-57).  Text is kept as its UTF-8
    bytes, an icon as the bytes of its characters; [lower] changes the ASCII
    letters, and no other character lower-cases to a letter of one of the
    words looked for. *)
Definition get_file_icon (mime_type : string) : string :=
  if bool_decide (mime_type = EmptyString) then "📄"
  else
    let mime_lower := PyStr.lower mime_type in
    let has word := PyStr.contains word mime_lower in
    if has "pdf" then "📕"
    else if has "image" then "🖼️"
    else if has "video" then "🎬"
    else if has "audio" then "🎵"
    else if has "text" || has "json" || has "xml" then "📝"
    else if has "zip" || has "archive" || has "tar" then "📦"
    else if has "sql" || has "database" then "🗄️"
    else if has "excel" || has "spreadsheet" then "📊"
    else if has "powerpoint" || has "presentation" then "📽️"
    else if has "word" || has "document" then "📄"
    else if has "code" || has "script" then "💻"
    else "📄".

(** [str.upper()] on the ASCII letters, which the letters of an engine name
    are. *)
Definition upper_char (c : ascii) : ascii :=
  let n := N_of_ascii c in
  if ((97 <=? n) && (n <=? 122))%N then ascii_of_N (n - 32) else c.

Fixpoint upper (s : string) : string :=
  match s with
  | EmptyString => EmptyString
  | String c s' => String (upper_char c) (upper s')
  end.

Definition nl : string := String "010"%char EmptyString.

(** [b.hex(" ")]: two hexadecimal digits a byte, a space between bytes. *)
Definition bytes_hex (b : list byte) : string :=
  PyStr.join " " ((λ x, Hashlib.hex 2 (Hashlib.byte_val x) EmptyString) <$> b).

(** The preview of [_show_details] (gui_app.py, lines 525-526), or the
    exception these two lines raise. *)
Definition preview_hex (row : gmap string sqlval) : exn + string :=
  match row !! "file_data" with
  | None => inr (take_chars 128 (bytes_hex []))
  | Some (VBlob file_data) =>
      let preview_bytes :=
        if bool_decide (file_data = []) then [] else take 64 file_data in
      inr (take_chars 128 (bytes_hex preview_bytes))
  | Some (VText s) =>
      if bool_decide (s = EmptyString) then inr (take_chars 128 (bytes_hex []))
      else inl AttributeError
  | Some (VInt n) =>
      if n =? 0 then inr (take_chars 128 (bytes_hex [])) else inl TypeError
  end.

(** [repr] of a [bytes] value. *)
Definition bytes_repr (b : list byte) : string :=
  let chars := ascii_of_byte <$> b in
  let quote : ascii :=
    if bool_decide ("'"%char ∈ chars) && negb (bool_decide ("034"%char ∈ chars))
    then "034"%char else "'"%char in
  let escape (c : ascii) : string :=
    let n := N_of_ascii c in
    if bool_decide (c = quote) || bool_decide (c = "\"%char)
    then String "\"%char (String c EmptyString)
    else if bool_decide (c = "009"%char) then "\t"
    else if bool_decide (c = "010"%char) then "\n"
    else if bool_decide (c = "013"%char) then "\r"
    else if ((n <? 32) || (127 <=? n))%N
    then "\x" +:+ Hashlib.hex 2 (Z.of_N n) EmptyString
    else String c EmptyString in
  String "b" (String quote
    (foldr (λ c acc, escape c +:+ acc) (String quote EmptyString) chars)).

(** [str(v)] of a value read from a column. *)
Definition sql_str (v : sqlval) : string :=
  match v with
  | VInt n => pretty n
  | VText s => s
  | VBlob b => bytes_repr b
  end.

(** [int(s)] of a text: white space around an optional sign and decimal
    digits, which single underscores may separate; [None] stands for the
    ValueError.  (Digits and white space outside ASCII are left out: the
    text comes from a [str] of a number.) *)
Definition is_space (c : ascii) : bool :=
  let n := N_of_ascii c in
  ((9 <=? n) && (n <=? 13) || (28 <=? n) && (n <=? 32))%N.

Definition is_digit (c : ascii) : bool :=
  let n := N_of_ascii c in
  ((48 <=? n) && (n <=? 57))%N.

Fixpoint lstrip (s : string) : string :=
  match s with
  | EmptyString => EmptyString
  | String c s' => if is_space c then lstrip s' else s
  end.

Fixpoint rstrip (s : string) : string :=
  match s with
  | EmptyString => EmptyString
  | String c s' =>
      let r := rstrip s' in
      if is_space c && bool_decide (r = EmptyString) then EmptyString else String c r
  end.

Fixpoint digits_value (acc : Z) (after_digit : bool) (s : string) : option Z :=
  match s with
  | EmptyString => if after_digit then Some acc else None
  | String c s' =>
      if is_digit c then digits_value (10 * acc + (Z.of_N (N_of_ascii c) - 48)) true s'
      else if bool_decide (c = "_"%char) && after_digit then digits_value acc false s'
      else None
  end.

Definition py_int (s : string) : option Z :=
  match rstrip (lstrip s) with
  | String "-" s' => Z.opp <$> digits_value 0 false s'
  | String "+" s' => digits_value 0 false s'
  | s' => digits_value 0 false s'
  end.

(** ** The window *)

Inductive box_kind := showinfo | showwarning | showerror.

(** The message of a box: a text, or a text built around [str(exc)] for the
    exception caught. *)
Inductive message :=
| Says (text : string)
| Quotes (exc : exn).

Record box := Box {
  kind : box_kind;
  box_title : string;
  box_message : message
}.

(** A line of the list: the [iid] and the [values] handed to
    [tree.insert]. *)
Record tree_item := TreeItem {
  iid : string;
  col_id : sqlval;
  col_filename : string;
  col_mime_type : sqlval;
  col_file_size : string;
  col_sha256 : string
}.

(** The window: the attributes its methods read and set (the text of a
    widget stands for the widget), and with them what it has put before the
    user: the message boxes shown, latest first, and the files saved.  The
    details panel and the layout are left out. *)
Record FileStorageGUI := GUI {
  db_param_path : string;
  db : option Database;
  title : string;
  db_combo : string;
  status_label : string;
  tree : list tree_item;
  boxes : list box;
  saved : gmap string (list byte)
}.

Definition set_db (d : option Database) (self : FileStorageGUI) : FileStorageGUI :=
  GUI (db_param_path self) d (title self) (db_combo self) (status_label self)
      (tree self) (boxes self) (saved self).
Definition set_title (t : string) (self : FileStorageGUI) : FileStorageGUI :=
  GUI (db_param_path self) (db self) t (db_combo self) (status_label self)
      (tree self) (boxes self) (saved self).
Definition set_db_combo (e : string) (self : FileStorageGUI) : FileStorageGUI :=
  GUI (db_param_path self) (db self) (title self) e (status_label self)
      (tree self) (boxes self) (saved self).
Definition set_status_label (t : string) (self : FileStorageGUI) : FileStorageGUI :=
  GUI (db_param_path self) (db self) (title self) (db_combo self) t
      (tree self) (boxes self) (saved self).
Definition set_tree (l : list tree_item) (self : FileStorageGUI) : FileStorageGUI :=
  GUI (db_param_path self) (db self) (title self) (db_combo self) (status_label self)
      l (boxes self) (saved self).
Definition show (b : box) (self : FileStorageGUI) : FileStorageGUI :=
  GUI (db_param_path self) (db self) (title self) (db_combo self) (status_label self)
      (tree self) (b :: boxes self) (saved self).
Definition save (path : string) (data : list byte) (self : FileStorageGUI)
  : FileStorageGUI :=
  GUI (db_param_path self) (db self) (title self) (db_combo self) (status_label self)
      (tree self) (boxes self) (<[path := data]> (saved self)).

(** A method of the window acts on the object and on the world; an
    exception leaves both as they are when it is raised. *)
Inductive result (A : Type) :=
| Done (a : A) (self : FileStorageGUI) (w : world)
| Failed (e : exn) (self : FileStorageGUI) (w : world).
Arguments Done {A} a self w.
Arguments Failed {A} e self w.

Definition Handler (A : Type) : Type := FileStorageGUI → world → result A.

Global Instance Handler_ret : MRet Handler := λ A a self w, Done a self w.
Global Instance Handler_bind : MBind Handler := λ A B k m self w,
  match m self w with
  | Done a self' w' => k a self' w'
  | Failed e self' w' => Failed e self' w'
  end.

Definition fail {A} (e : exn) : Handler A := λ self w, Failed e self w.
Definition get : Handler FileStorageGUI := λ self w, Done self self w.
Definition modify (f : FileStorageGUI → FileStorageGUI) : Handler unit :=
  λ self w, Done tt (f self) w.

(** A call of a method of [Database], or of another function that leaves
    the window alone. *)
Definition lift {A} (m : M A) : Handler A := λ self w,
  match m w with
  | Return a w' => Done a self w'
  | Raise e w' => Failed e self w'
  end.

(** [try: body except Exception as exc: handler] *)
Definition attempt {A} (body : Handler A) (handler : exn → Handler A) : Handler A :=
  λ self w,
  match body self w with
  | Done a self' w' => Done a self' w'
  | Failed e self' w' => handler e self' w'
  end.

Definition messagebox (k : box_kind) (title : string) (m : message) : Handler unit :=
  modify (show (Box k title m)).

Fixpoint for_each {A} (l : list A) (body : A → Handler unit) : Handler unit :=
  match l with
  | [] => mret tt
  | x :: l' => body x;; for_each l' body
  end.

(** [row[k]] *)
Definition item (row : gmap string sqlval) (k : string) : Handler sqlval :=
  match row !! k with
  | Some v => mret v
  | None => fail (KeyError k)
  end.

(** The exception of the widget library. *)
Definition TclError : exn := DriverError "TclError".

(** ** Database management *)

(** [_load_database] (gui_app.py, lines 94-103). *)
Definition _load_database : Handler unit :=
  attempt
    (self ← get;
     d ← lift (__init__ (Some (db_param_path self)));
     modify (set_db (Some d)))
    (λ exc,
     messagebox showerror "Database error" (Quotes exc);;
     modify (set_db None)).

(** [_get_current_engine] (gui_app.py, lines 105-113). *)
Definition _get_current_engine : Handler string :=
  attempt
    (self ← get;
     lift (λ w,
       match disk w !! db_param_path self with
       | None => Return "mysql" w
       | Some Garbled => Raise JSONDecodeError w
       | Some NotAnObject => Raise AttributeError w
       | Some (Object data) =>
           Return (PyStr.lower (py_str (dict_get_default data "engine" (PStr "mysql")))) w
       end))
    (λ _, mret "mysql").

(** [_get_file_count] (gui_app.py, lines 115-123). *)
Definition _get_file_count : Handler nat :=
  self ← get;
  match db self with
  | None => mret O
  | Some d =>
      attempt
        (files ← lift (get_all_files d);
         mret (length files))
        (λ _, mret O)
  end.

(** What [_switch_database] writes into the configuration file (gui_app.py,
    lines 129-145) for what it finds at the path, or the exception that
    takes it to its handler with nothing written. *)
Definition _switch_database_config (engine : string) (found : option config_file)
  : exn + gmap string pyval :=
  match found with
  | Some Garbled => inl JSONDecodeError
  | Some NotAnObject => inl TypeError
  | Some (Object _) | None =>
      let data := match found with Some (Object data) => data | _ => ∅ end in
      let data := <["engine" := PStr (PyStr.lower engine)]> data in
      let data :=
        if bool_decide (PyStr.lower engine = "sqlite") then
          if negb (bool_decide (is_Some (data !! "database")))
             || negb (truthy (dict_get data "database"))
          then <["database" := PStr "file_storage.db"]> data
          else data
        else data in
      inr data
  end.

(** The first half of [_switch_database] (gui_app.py, lines 128-145): the
    configuration file is rewritten.  The reconnection that follows is left
    out: it talks to the database of the new configuration, and the world
    holds one database. *)
Definition _switch_database_write (path : string) (engine : string) : M unit := λ w,
  match _switch_database_config engine (disk w !! path) with
  | inl e => Raise e w
  | inr data => Return tt (with_config path (Object data) w)
  end.

(** ** The status bar and the list *)

(** [_update_status_bar] (gui_app.py, lines 420-429). *)
Definition _update_status_bar : Handler unit :=
  self ← get;
  match db self with
  | None => modify (set_status_label "No database connection")
  | Some d =>
      let engine := upper (engine d) in
      file_count ← _get_file_count;
      let count_text :=
        pretty file_count +:+ " file"
        +:+ (if bool_decide (file_count ≠ 1%nat) then "s" else EmptyString)
        +:+ " stored" in
      modify (set_status_label (engine +:+ " • " +:+ count_text))
  end.

(** [tree.insert("", tk.END, iid=..., values=...)]: the item goes to the end
    of the list; an [iid] already there is refused. *)
Definition tree_insert (it : tree_item) : Handler unit :=
  self ← get;
  if bool_decide (iid it ∈ iid <$> tree self) then fail TclError
  else modify (set_tree (tree self ++ [it])).

(** The body of the loop of [refresh_files] (gui_app.py, lines 464-480),
    with the exceptions of values that are not of the types of the
    columns. *)
Definition show_row (row : gmap string sqlval) : Handler unit :=
  mime_type ← item row "mime_type";
  icon ← match mime_type with
         | VText s => mret (get_file_icon s)
         | VInt n => if n =? 0 then mret (get_file_icon EmptyString)
                     else fail AttributeError
         | VBlob b => if bool_decide (b = []) then mret (get_file_icon EmptyString)
                      else fail TypeError
         end;
  filename ← item row "filename";
  let filename_with_icon := icon +:+ " " +:+ sql_str filename in
  file_size ← item row "file_size";
  size_formatted ← match file_size with
                   | VInt n => mret (format_file_size n)
                   | _ => fail TypeError
                   end;
  sha256 ← item row "sha256";
  sha_short ← match sha256 with
              | VText s => mret (if bool_decide (s = EmptyString) then EmptyString
                                 else take_chars 16 s +:+ "...")
              | VInt n => if n =? 0 then mret EmptyString else fail TypeError
              | VBlob b => if bool_decide (b = []) then mret EmptyString
                           else fail TypeError
              end;
  id ← item row "id";
  tree_insert (TreeItem (sql_str id) id filename_with_icon mime_type
                        size_formatted sha_short).

(** [refresh_files] (gui_app.py, lines 448-483). *)
Definition refresh_files : Handler unit :=
  self ← get;
  match db self with
  | None => mret tt
  | Some d =>
      modify (set_tree []);;
      rows ← attempt
        (rows ← lift (get_all_files d);
         mret (Some rows))
        (λ exc,
         messagebox showerror "Database error" (Quotes exc);;
         mret None);
      match rows with
      | None => mret tt
      | Some rows =>
          for_each rows show_row;;
          _update_status_bar
      end
  end.

(** ** Actions *)

(** What the user and the file system answer to [add_file]: the path the
    dialog returns (empty when it is cancelled), [str(path)], whether the
    path exists, what reading the file gives, the name of the path and the
    type [mimetypes.guess_type] finds for it. *)
Record chosen_file := {
  file_path : string;
  path_str : string;
  path_exists : bool;
  read_bytes : exn + list byte;
  path_name : string;
  guessed : option string
}.

(** [add_file] (gui_app.py, lines 545-591). *)
Definition add_file (chosen : chosen_file) : Handler unit :=
  self ← get;
  match db self with
  | None =>
      messagebox showerror "No database" (Says "Database connection not available.")
  | Some d =>
      if bool_decide (file_path chosen = EmptyString) then mret tt
      else if negb (path_exists chosen) then
        messagebox showerror "File not found"
          (Says ("File does not exist:" +:+ nl +:+ path_str chosen))
      else
        attempt
          (file_contents ← match read_bytes chosen with
                           | inr b => mret b
                           | inl e => fail e
                           end;
           let file_name := path_name chosen in
           let mime_type :=
             match guessed chosen with
             | Some m => if bool_decide (m = EmptyString)
                         then "application/octet-stream" else m
             | None => "application/octet-stream"
             end in
           let file_size := Z.of_nat (length file_contents) in
           let sha256 := Hashlib.sha256_hexdigest file_contents in
           file_id ← lift (insert_file d file_name mime_type file_size
                                       file_contents sha256);
           messagebox showinfo "File added"
             (Says ("File added to database successfully." +:+ nl +:+ nl
                    +:+ "ID: " +:+ pretty file_id +:+ nl
                    +:+ "Filename: " +:+ file_name +:+ nl
                    +:+ "Size: " +:+ format_file_size file_size +:+ nl));;
           refresh_files)
          (λ exc, messagebox showerror "Error" (Quotes exc))
  end.

Section selection.

(** [int(self.tree.set(item_id, "id"))] for an item of the list: the number
    the widget gives back for the value of its column [id], or [None] where
    the conversion raises ValueError or TypeError. *)
Variable tree_set_id : tree_item → option Z.

(** [_get_selected_file_id] (gui_app.py, lines 593-608); [selection] is what
    [tree.selection()] returns, as the items selected. *)
Definition _get_selected_file_id (selection : list tree_item) : Handler (option Z) :=
  match selection with
  | [] =>
      messagebox showinfo "No selection" (Says "Please select a file in the list.");;
      mret None
  | it :: _ =>
      let item_id := iid it in
      match py_int item_id with
      | Some file_id => mret (Some file_id)
      | None =>
          match tree_set_id it with
          | Some file_id => mret (Some file_id)
          | None =>
              messagebox showerror "Error"
                (Says "Could not determine file ID from selection.");;
              mret None
          end
      end
  end.

(** [delete_selected] (gui_app.py, lines 610-654); [confirmed] is the answer
    to the question of [askyesno]. *)
Definition delete_selected (selection : list tree_item) (confirmed : bool)
  : Handler unit :=
  self ← get;
  match db self with
  | None =>
      messagebox showerror "No database" (Says "Database connection not available.")
  | Some d =>
      file_id ← _get_selected_file_id selection;
      match file_id with
      | None => mret tt
      | Some file_id =>
          if negb confirmed then mret tt
          else
            returned_early ← attempt
              (deleted ← lift (delete_file d file_id true);
               if negb deleted then
                 messagebox showwarning "Delete failed"
                   (Says ("File with ID " +:+ pretty file_id
                          +:+ " was not found in the database." +:+ nl +:+ nl
                          +:+ "It may have already been deleted."));;
                 refresh_files;;
                 mret true
               else mret false)
              (λ exc,
               messagebox showerror "Database error" (Quotes exc);;
               mret true);
            if returned_early : bool then mret tt
            else
              refresh_files;;
              if bool_decide (engine d = "sqlite") then
                messagebox showinfo "File deleted"
                  (Says ("File with ID " +:+ pretty file_id +:+ " deleted." +:+ nl +:+ nl
                         +:+ "SQLite database has been compacted to reclaim space."))
              else
                messagebox showinfo "File deleted"
                  (Says ("File with ID " +:+ pretty file_id
                         +:+ " deleted successfully."))
      end
  end.

(** What the user and the file system answer to [export_selected]: the path
    the dialog returns (empty when it is cancelled), [str(out_path)] and the
    exception of opening that path for writing, if it cannot be opened. *)
Record chosen_target := {
  save_path : string;
  out_path : string;
  open_error : option exn
}.

(** [export_selected] (gui_app.py, lines 656-709).  The file is created
    empty when it is opened, before [row["file_data"]] is looked up and
    written, and it is read back as written.  [default_name] only goes into
    the dialog; the look-up of [row["filename"]] for it can raise. *)
Definition export_selected (selection : list tree_item) (target : chosen_target)
  : Handler unit :=
  self ← get;
  match db self with
  | None =>
      messagebox showerror "No database" (Says "Database connection not available.")
  | Some d =>
      file_id ← _get_selected_file_id selection;
      match file_id with
      | None => mret tt
      | Some file_id =>
          row ← attempt
            (row ← lift (get_file_for_export d file_id);
             mret (Some row))
            (λ exc,
             messagebox showerror "Database error" (Quotes exc);;
             mret None);
          match row with
          | None => mret tt
          | Some row =>
              match row with
              | Some row =>
                  if bool_decide (size row = O) then
                    messagebox showerror "Not found" (Says "File not found in database.")
                  else
                    _ ← item row "filename";
                    if bool_decide (save_path target = EmptyString) then mret tt
                    else
                      written ← attempt
                        (match open_error target return Handler unit with
                         | Some e => fail e
                         | None => modify (save (out_path target) [])
                         end;;
                         file_data ← item row "file_data";
                         match file_data with
                         | VBlob b =>
                             modify (save (out_path target) b);;
                             mret (Some b)
                         | _ => fail TypeError
                         end)
                        (λ exc,
                         messagebox showerror "File error" (Quotes exc);;
                         mret None);
                      match written with
                      | None => mret tt
                      | Some data =>
                          let sha := Hashlib.sha256_hexdigest data in
                          sha256 ← item row "sha256";
                          if match sha256 with
                             | VText stored_sha => bool_decide (sha = stored_sha)
                             | _ => false
                             end
                          then
                            messagebox showinfo "Export complete"
                              (Says ("File saved to:" +:+ nl +:+ out_path target
                                     +:+ nl +:+ nl +:+ "SHA256 verified OK."))
                          else
                            messagebox showwarning "Export complete (hash mismatch)"
                              (Says ("File saved to:" +:+ nl +:+ out_path target
                                     +:+ nl +:+ nl
                                     +:+ "WARNING: SHA256 of saved file does not match value from DB."))
                      end
              | None =>
                  messagebox showerror "Not found" (Says "File not found in database.")
              end
          end
      end
  end.

End selection.

(** ** Construction *)

(** The object before [__init__] has set anything but its path, its title
    and its [db]; the widgets come up empty. *)
Definition blank (path : string) : FileStorageGUI :=
  GUI path None "File Storage" EmptyString EmptyString [] [] ∅.

(** What [_build_widgets] (gui_app.py, lines 170-418) does beyond the
    layout: the combo box shows the engine of the configuration file. *)
Definition _build_widgets : Handler unit :=
  current ← _get_current_engine;
  modify (set_db_combo current).

(** [FileStorageGUI.__init__] (gui_app.py, lines 71-90), on [blank]. *)
Definition __init__ : Handler unit :=
  _load_database;;
  self ← get;
  match db self with
  | Some d => modify (set_title ("File Storage (" +:+ upper (engine d) +:+ ")"))
  | None => mret tt
  end;;
  _build_widgets;;
  refresh_files.

(** ** Vocabulary of the properties of the window *)

(** The object and the world a method left behind. *)
Definition window {A} (r : result A) : FileStorageGUI :=
  match r with
  | Done _ self _ | Failed _ self _ => self
  end.
Definition world_after {A} (r : result A) : world :=
  match r with
  | Done _ _ w | Failed _ _ w => w
  end.

(** The line of the list for the row [r] stored under [id]. *)
Definition listed (id : Z) (r : stored) : tree_item :=
  TreeItem (pretty id) (VInt id)
    (get_file_icon (st_mime_type r) +:+ " " +:+ st_filename r)
    (VText (st_mime_type r))
    (format_file_size (st_file_size r))
    (if bool_decide (st_sha256 r = EmptyString) then EmptyString
     else take_chars 16 (st_sha256 r) +:+ "...").

Definition listing (m : gmap Z stored) : list tree_item :=
  (λ kr, listed kr.1 kr.2) <$> Engine.newest_first m.

(** The status text for [n] files in the database of [d]. *)
Definition status_text (d : Database) (n : nat) : string :=
  upper (engine d) +:+ " • " +:+ pretty n +:+ " file"
  +:+ (if bool_decide (n ≠ 1%nat) then "s" else EmptyString) +:+ " stored".

(** Kind and title of the box shown last. *)
Definition last_box (self : FileStorageGUI) : option (box_kind * string) :=
  (λ b, (kind b, box_title b)) <$> head (boxes self).

(** A method that, run on a window connected to [d], leaves it connected
    to [d] and the status bar either as it was or with a status text. *)
Definition keeps_status {A} (d : Database) (h : Handler A) : Prop :=
  ∀ self w, db self = Some d →
    db (window (h self w)) = Some d
    ∧ (status_label (window (h self w)) = status_label self
       ∨ ∃ n, status_label (window (h self w)) = status_text d n).

(** A method that leaves the status bar as it was or with a status text. *)
Definition shows_status {A} (h : Handler A) : Prop :=
  ∀ self w,
    status_label (window (h self w)) = status_label self
    ∨ ∃ d n, status_label (window (h self w)) = status_text d n.

End gui_app.

(** ** Vocabulary of the further properties *)

(** A computation that leaves as many connections open as it found, whether
    it returns or raises. *)
Definition steady {A} (m : M A) : Prop :=
  ∀ w, handles (world_of (m w)) = handles w.


(** * Properties *)

(** ** The monad *)

Lemma bind_Return {A B} (m : M A) (k : A → M B) w a w' :
  m w = Return a w' → (m ≫= k) w = k a w'.
Proof. intros H. unfold mbind, M_bind, bind. by rewrite H. Qed.

Lemma bind_Raise {A B} (m : M A) (k : A → M B) w e w' :
  m w = Raise e w' → (m ≫= k) w = Raise e w'.
Proof. intros H. unfold mbind, M_bind, bind. by rewrite H. Qed.

Lemma try_except_Return {A} (body : M A) (h : exn → M A) w a w' :
  body w = Return a w' → try_except body h w = Return a w'.
Proof. intros H. unfold try_except. by rewrite H. Qed.

Lemma bind_Return_inv {A B} (m : M A) (k : A → M B) w b w2 :
  (m ≫= k) w = Return b w2 → ∃ a w1, m w = Return a w1 ∧ k a w1 = Return b w2.
Proof.
  unfold mbind, M_bind, bind. destruct (m w) as [a w1|e w1]; [eauto|done].
Qed.

(** ** Connections *)

Lemma usable_engine self k :
  usable self k →
  engine self = match k with
                | Engine.MySQLConnection => "mysql"
                | Engine.SqliteConnection => "sqlite"
                end.
Proof. destruct k; intros [? _]; done. Qed.

Lemma get_connection_ok self k w :
  usable self k → server_up w = true →
  get_connection self w = Return k (set_handles (S (handles w)) w).
Proof.
  intros Hu Hup. unfold get_connection.
  destruct k; destruct Hu as [He Hp]; rewrite He; simpl.
  - rewrite !Forall_cons in Hp.
    destruct Hp as ([? H1] & [? H2] & [? H3] & [? H4] & [? H5] & _).
    unfold subscript, mbind, M_bind, bind. rewrite H1, H2, H3, H4, H5. simpl. unfold driver_connect. by rewrite Hup.
  - destruct Hp as [p Hp].
    unfold _sqlite_path, subscript, mbind, M_bind, bind. rewrite Hp. simpl.
    unfold driver_connect. by rewrite Hup.
Qed.

Lemma get_connection_inv self k w w' :
  get_connection self w = Return k w' →
  usable self k ∧ server_up w = true ∧ w' = set_handles (S (handles w)) w.
Proof.
  unfold get_connection. intros H.
  destruct (bool_decide (engine self = "mysql")) eqn:Hm.
  - apply bool_decide_eq_true in Hm.
    unfold subscript, mbind, M_bind, bind, raise, ret in H.
    destruct (params self !! "host") eqn:H1; [|done].
    destruct (params self !! "port") eqn:H2; [|done].
    destruct (params self !! "user") eqn:H3; [|done].
    destruct (params self !! "password") eqn:H4; [|done].
    destruct (params self !! "database") eqn:H5; [|done].
    unfold driver_connect in H. destruct (server_up w) eqn:Hup; [|done].
    injection H as <- <-. split; [|done]. split; [done|].
    repeat (apply Forall_cons; split; [eauto|]). apply Forall_nil_2.
  - destruct (bool_decide (engine self = "sqlite")) eqn:Hs; [|done].
    apply bool_decide_eq_true in Hs.
    unfold _sqlite_path, subscript, mbind, M_bind, bind, raise, ret in H.
    destruct (params self !! "database") as [[]|] eqn:H1; try done.
    unfold driver_connect in H. destruct (server_up w) eqn:Hup; [|done].
    injection H as <- <-. split; [|done]. split; eauto.
Qed.

Lemma _prepare_sql_native self k sql :
  usable self k → _prepare_sql self sql = native k sql.
Proof.
  intros Hu. unfold _prepare_sql. rewrite (usable_engine _ _ Hu). by destruct k.
Qed.

(** One statement through a cursor, between opening and closing. *)
Lemma cursor_execute_ok k sql ps w st t' cur :
  Engine.parse k sql = Some st →
  Engine.run st ps (files_table w) = inr (t', cur) →
  cursor_execute k sql ps w = Return cur (set_table t' (log_statement sql w)).
Proof.
  intros Hp Hr. unfold cursor_execute. rewrite Hp. simpl. by rewrite Hr.
Qed.

Lemma query_ok self k sql ps w st t' cur :
  usable self k → server_up w = true →
  Engine.parse k (native k sql) = Some st →
  Engine.run st ps (files_table w) = inr (t', cur) →
  query self sql ps w
  = Return (row_dict <$> Engine.fetchall cur) (after (native k sql) t' w).
Proof.
  intros Hu Hup Hp Hr. unfold query.
  erewrite bind_Return by (by apply get_connection_ok).
  unfold try_finally. rewrite (_prepare_sql_native _ _ _ Hu).
  erewrite bind_Return by (eapply cursor_execute_ok; [exact Hp|exact Hr]).
  reflexivity.
Qed.

(** ** The operations, one statement each *)

(** The statement of the method in the goal is recognised by the driver as
    [st] in its native form. *)
Ltac recognised k st :=
  let go sql :=
    assert (Engine.parse k (native k sql) = Some st)
      by (destruct k; vm_compute; reflexivity) in
  match goal with
  | |- context [native k ?sql] => go sql
  | |- context [query _ ?sql _] => go sql
  end.

Lemma project_all id r : Engine.project Engine.column_names id r = Engine.full_row id r.
Proof. reflexivity. Qed.

Lemma insert_file_ok self k f m n d h w t :
  usable self k → server_up w = true → files_table w = Some t →
  ∃ sql, Engine.parse k sql = Some Engine.Insert ∧
    insert_file self f m n d h w
    = Return (Engine.next_id t)
        (after sql
           (Some (Table (<[Engine.next_id t := Stored f m n d h]> (rows t))
                        (Engine.next_id t) (freed t))) w).
Proof.
  intros Hu Hup Ht. unfold insert_file.
  erewrite bind_Return by (by apply get_connection_ok).
  unfold try_finally. rewrite (_prepare_sql_native _ _ _ Hu).
  recognised k Engine.Insert.
  eexists. split; [eassumption|].
  erewrite bind_Return;
    [|eapply cursor_execute_ok; [eassumption|simpl; rewrite Ht; reflexivity]].
  reflexivity.
Qed.

Lemma get_file_by_id_ok self k x w t :
  usable self k → server_up w = true → files_table w = Some t →
  ∃ sql, Engine.parse k sql = Some (Engine.Select Engine.column_names Engine.ById) ∧
    get_file_by_id self x w
    = Return (full_dict x <$> rows t !! x) (after sql (Some t) w).
Proof.
  intros Hu Hup Ht. unfold get_file_by_id.
  recognised k (Engine.Select Engine.column_names Engine.ById).
  eexists. split; [eassumption|].
  erewrite bind_Return;
    [|eapply query_ok; [done|done|eassumption|rewrite Ht; reflexivity]].
  simpl. unfold ret. f_equal. by destruct (rows t !! x).
Qed.

Lemma get_file_for_export_ok self k x w t :
  usable self k → server_up w = true → files_table w = Some t →
  ∃ sql, Engine.parse k sql
         = Some (Engine.Select ["filename"; "file_data"; "sha256"] Engine.ById) ∧
    get_file_for_export self x w
    = Return ((λ r, row_dict (Engine.project ["filename"; "file_data"; "sha256"] x r))
                <$> rows t !! x)
        (after sql (Some t) w).
Proof.
  intros Hu Hup Ht. unfold get_file_for_export.
  recognised k (Engine.Select ["filename"; "file_data"; "sha256"] Engine.ById).
  eexists. split; [eassumption|].
  erewrite bind_Return;
    [|eapply query_ok; [done|done|eassumption|rewrite Ht; reflexivity]].
  simpl. unfold ret. f_equal. by destruct (rows t !! x).
Qed.

Lemma get_all_files_ok self k w t :
  usable self k → server_up w = true → files_table w = Some t →
  ∃ sql, Engine.parse k sql
         = Some (Engine.Select meta_columns (Engine.NewestFirst false)) ∧
    get_all_files self w
    = Return ((λ kr, meta_dict kr.1 kr.2) <$> Engine.newest_first (rows t))
        (after sql (Some t) w).
Proof.
  intros Hu Hup Ht. unfold get_all_files.
  recognised k (Engine.Select meta_columns (Engine.NewestFirst false)).
  eexists. split; [eassumption|].
  erewrite query_ok; [|done|done|eassumption|rewrite Ht; reflexivity].
  simpl. f_equal. by rewrite <- list_fmap_compose.
Qed.

Lemma get_last_file_ok self k w t :
  usable self k → server_up w = true → files_table w = Some t →
  ∃ sql, Engine.parse k sql
         = Some (Engine.Select Engine.column_names (Engine.NewestFirst true)) ∧
    get_last_file self w
    = Return ((λ kr, full_dict kr.1 kr.2) <$> head (Engine.newest_first (rows t)))
        (after sql (Some t) w).
Proof.
  intros Hu Hup Ht. unfold get_last_file.
  recognised k (Engine.Select Engine.column_names (Engine.NewestFirst true)).
  eexists. split; [eassumption|].
  erewrite bind_Return;
    [|eapply query_ok; [done|done|eassumption|rewrite Ht; reflexivity]].
  simpl. unfold ret. f_equal. by destruct (Engine.newest_first (rows t)).
Qed.

Lemma vacuum_ok self k w t :
  usable self k → server_up w = true → files_table w = Some t →
  vacuum self w
  = match k with
    | Engine.MySQLConnection => Return tt w
    | Engine.SqliteConnection =>
        Return tt (after "VACUUM" (Some (Table (rows t) (seq t) O)) w)
    end.
Proof.
  intros Hu Hup Ht. unfold vacuum. rewrite (usable_engine _ _ Hu).
  destruct k; simpl; [done|].
  erewrite bind_Return by (by apply get_connection_ok).
  unfold try_finally.
  erewrite bind_Return;
    [|eapply cursor_execute_ok; [by vm_compute|simpl; rewrite Ht; reflexivity]].
  reflexivity.
Qed.

Lemma delete_file_ok self k x va w t :
  usable self k → server_up w = true → files_table w = Some t →
  let sql := _prepare_sql self "DELETE FROM files WHERE id = %s" in
  delete_file self x va w
  = match rows t !! x with
    | None => Return false (after sql (Some t) w)
    | Some _ =>
        let t1 := Table (delete x (rows t)) (seq t) (S (freed t)) in
        if va && bool_decide (k = Engine.SqliteConnection)
        then Return true
               (after "VACUUM" (Some (Table (rows t1) (seq t1) O))
                  (after sql (Some t1) w))
        else Return true (after sql (Some t1) w)
    end.
Proof.
  intros Hu Hup Ht sql. unfold sql, delete_file.
  erewrite bind_Return by (by apply get_connection_ok).
  rewrite (_prepare_sql_native _ _ _ Hu).
  recognised k Engine.Delete.
  destruct (rows t !! x) as [r|] eqn:Hx.
  - erewrite bind_Return;
      [|apply try_except_Return; erewrite bind_Return;
          [|eapply cursor_execute_ok;
              [eassumption|simpl; rewrite Ht; simpl; rewrite Hx; reflexivity]];
        reflexivity].
    simpl. rewrite (usable_engine _ _ Hu).
    destruct va, k; simpl; try reflexivity.
    apply try_except_Return.
    erewrite bind_Return; [reflexivity|].
    erewrite (vacuum_ok _ Engine.SqliteConnection); [|done|done|reflexivity].
    reflexivity.
  - erewrite bind_Return;
      [|apply try_except_Return; erewrite bind_Return;
          [|eapply cursor_execute_ok;
              [eassumption|simpl; rewrite Ht; simpl; rewrite Hx; reflexivity]];
        reflexivity].
    reflexivity.
Qed.

(** ** Construction *)

Lemma run_create t :
  Engine.run Engine.CreateTable [] t
  = inr (Some (default empty_table t), Engine.no_result).
Proof. by destruct t. Qed.

Lemma _ensure_files_table_ok self k w :
  usable self k → server_up w = true →
  ∃ sql, Engine.parse k sql = Some Engine.CreateTable ∧
    _ensure_files_table self w
    = Return tt (after sql (Some (default empty_table (files_table w))) w).
Proof.
  intros Hu Hup. unfold _ensure_files_table.
  erewrite bind_Return by (by apply get_connection_ok).
  unfold try_finally. rewrite (usable_engine _ _ Hu).
  destruct k; simpl.
  - eexists. split; [|erewrite bind_Return;
      [|erewrite bind_Return;
          [|eapply cursor_execute_ok; [by vm_compute|apply run_create]]; reflexivity];
      reflexivity].
    by vm_compute.
  - eexists. split; [|erewrite bind_Return;
      [|erewrite bind_Return;
          [|eapply cursor_execute_ok; [by vm_compute|apply run_create]]; reflexivity];
      reflexivity].
    by vm_compute.
Qed.

Lemma _load_params_inv path w data' w' :
  _load_params path w = Return data' w' →
  w' = w ∧ ∃ data,
    disk w !! path = Some (Object data) ∧
    engine_name data ∈ ["mysql"; "sqlite"] ∧
    data' !! "engine" = data !! "engine".
Proof.
  unfold _load_params. intros H.
  destruct (disk w !! path) as [[| |data]|]; try done.
  fold (engine_name data) in H.
  destruct (bool_decide (engine_name data ∈ ["mysql"; "sqlite"])) eqn:He; [|done].
  apply bool_decide_eq_true in He. simpl in H.
  assert (∃ d, Return d w = Return data' w' ∧ d !! "engine" = data !! "engine")
    as (d & Hd & Hde).
  { repeat case_match; try done; eexists; (split; [exact H|]);
      by rewrite ?lookup_insert_ne. }
  injection Hd as -> ->. eauto.
Qed.

Lemma __init___inv cp w0 self w1 :
  __init__ cp w0 = Return self w1 →
  ∃ data k,
    disk w0 !! default CONFIG_PATH cp = Some (Object data) ∧
    _load_params (default CONFIG_PATH cp) w0 = Return (params self) w0 ∧
    engine_name data ∈ ["mysql"; "sqlite"] ∧
    engine self = engine_name data ∧
    usable self k ∧ available w1.
Proof.
  unfold __init__. intros H.
  apply bind_Return_inv in H as (ps & wa & Hload & H).
  destruct (_load_params_inv _ _ _ _ Hload) as (-> & data & Hdisk & Hname & Heng).
  apply bind_Return_inv in H as (eng & wb & He & H).
  apply bind_Return_inv in H as ([] & wc & Hens & H).
  injection H as <- <-. simpl.
  assert (wb = w0 ∧ eng = engine_name data) as [-> ->].
  { unfold engine_name, dict_get_default in *. rewrite Heng in He.
    destruct (default (PStr "mysql") (data !! "engine")); try done.
    by injection He as <- <-. }
  pose proof Hens as Hens'. unfold _ensure_files_table in Hens'.
  apply bind_Return_inv in Hens' as (k & wd & Hconn & _).
  apply get_connection_inv in Hconn as (Hu & Hup & _).
  destruct (_ensure_files_table_ok _ _ _ Hu Hup) as (sql & _ & Hok).
  rewrite Hok in Hens. injection Hens as <-.
  exists data, k. repeat split; eauto.
Qed.

(** ** Validation of the configuration *)

Lemma _load_params_mysql path w data :
  disk w !! path = Some (Object data) →
  engine_name data = "mysql" →
  _load_params path w
  = if negb (bool_decide (missing_keys data = []))
    then Raise (ValueError (missing_message (missing_keys data))) w
    else if negb (bool_decide (is_Some (data !! "port")))
            || negb (truthy (dict_get data "port"))
         then Return (<["port" := PInt 3306]> data) w
         else Return data w.
Proof.
  intros Hd He. unfold _load_params. rewrite Hd.
  fold (engine_name data). rewrite He. reflexivity.
Qed.

Lemma __init___load_raise cp w e :
  _load_params (default CONFIG_PATH cp) w = Raise e w →
  __init__ cp w = Raise e w.
Proof. intros H. unfold __init__. by erewrite bind_Raise. Qed.

Lemma absent_is_missing data k :
  k ∈ required_keys → data !! k = None → k ∈ missing_keys data.
Proof.
  intros Hk Hn. unfold missing_keys. apply list_elem_of_filter. split; [|done].
  unfold dict_get. by rewrite Hn.
Qed.

Lemma falsy_is_missing data k v :
  k ∈ required_keys → data !! k = Some v → truthy v = false → k ∈ missing_keys data.
Proof.
  intros Hk Hn Hv. unfold missing_keys. apply list_elem_of_filter. split; [|done].
  unfold dict_get. by rewrite Hn; simpl; rewrite Hv.
Qed.

Lemma missing_named data k :
  k ∈ missing_keys data →
  PyStr.contains (PyStr.repr_str k) (missing_message (missing_keys data)) = true.
Proof.
  unfold missing_keys, required_keys. rewrite !filter_cons, filter_nil.
  repeat case_decide; intros Hk; set_unfold;
    repeat (destruct Hk as [->|Hk]; [by vm_compute|]); done.
Qed.

(** C5 (as amended).  Construction reads the engine through
    [str(data.get("engine", "mysql")).lower()]: the key is optional and an
    absent key means mysql.  Construction fails with a configuration error
    when the configuration file is missing (FileNotFoundError) and when that
    name is neither mysql nor sqlite (ValueError), in both cases before any
    connection is tried; an object that is constructed has that name as its
    engine. *)
Theorem C5_engine_of_the_configuration cp w :
  let path := default CONFIG_PATH cp in
  (disk w !! path = None →
     __init__ cp w = Raise (FileNotFoundError ("Config file not found: " +:+ path)) w
     ∧ configuration_error (FileNotFoundError ("Config file not found: " +:+ path)) = true)
  ∧ (∀ data, disk w !! path = Some (Object data) →
       engine_name data ∉ ["mysql"; "sqlite"] →
       __init__ cp w
       = Raise (ValueError "db_param.json 'engine' must be either 'mysql' or 'sqlite'") w)
  ∧ (∀ data, data !! "engine" = None → engine_name data = "mysql")
  ∧ (∀ self w', __init__ cp w = Return self w' →
       ∃ data, disk w !! path = Some (Object data)
               ∧ engine_name data ∈ ["mysql"; "sqlite"]
               ∧ engine self = engine_name data).
Proof.
  intros path. split; [|split; [|split]].
  - intros Hd. split; [|done].
    apply __init___load_raise. unfold _load_params. fold path. by rewrite Hd.
  - intros data Hd He. apply __init___load_raise. unfold _load_params. fold path.
    rewrite Hd. fold (engine_name data).
    by rewrite (bool_decide_eq_false_2 _ He).
  - intros data Hn. unfold engine_name, dict_get_default. by rewrite Hn.
  - intros self w' H.
    apply __init___inv in H as (data & k & ? & _ & ? & ? & _). eauto.
Qed.

Lemma C5_engine_of_the_configuration_witness :
  __init__ None (World ∅ true None [] 0)
  = Raise (FileNotFoundError "Config file not found: db_param.json")
      (World ∅ true None [] 0)
  ∧ __init__ None (fresh {[ "engine" := PStr "postgres" ]} true)
    = Raise (ValueError "db_param.json 'engine' must be either 'mysql' or 'sqlite'")
        (fresh {[ "engine" := PStr "postgres" ]} true).
Proof.
  split.
  - apply (C5_engine_of_the_configuration None (World ∅ true None [] 0)).
    reflexivity.
  - destruct (C5_engine_of_the_configuration None
                (fresh {[ "engine" := PStr "postgres" ]} true)) as (_ & H & _).
    apply (H {[ "engine" := PStr "postgres" ]}).
    + reflexivity.
    + vm_compute. intros Hin.
      repeat (inversion Hin as [|? ? ? Hin']; clear Hin; rename Hin' into Hin).
Defined.

(** C5 as stated fails: a configuration without the [engine] key, and one
    that spells the engine [SQLite], both construct a store. *)
Lemma C5_counterexample :
  delete "engine" mysql_config !! "engine" = None
  ∧ engine <$> returned (__init__ None (fresh (delete "engine" mysql_config) true))
    = Some "mysql"
  ∧ <["engine" := PStr "SQLite"]> sqlite_config !! "engine" = Some (PStr "SQLite")
  ∧ engine <$> returned
      (__init__ None (fresh (<["engine" := PStr "SQLite"]> sqlite_config) true))
    = Some "sqlite".
Proof. repeat split; by vm_compute. Qed.

Lemma missing_keys_nil data :
  missing_keys data = [] ↔ ∀ k, k ∈ required_keys → truthy (dict_get data k) = true.
Proof.
  unfold missing_keys. split.
  - intros Hnil k Hk. destruct (truthy (dict_get data k)) eqn:Ht; [done|].
    exfalso. eapply (filter_nil_not_elem_of _ _ k); [exact Hnil| |exact Hk].
    simpl. by rewrite Ht.
  - intros Hall. apply elem_of_nil_inv. intros k [Hk Hin]%list_elem_of_filter.
    rewrite (Hall k Hin) in Hk. done.
Qed.

Lemma __init___params cp w data' self w' :
  _load_params (default CONFIG_PATH cp) w = Return data' w →
  __init__ cp w = Return self w' → params self = data'.
Proof.
  intros Hl Hi. apply __init___inv in Hi as (_ & _ & _ & Hl' & _). congruence.
Qed.

(** C6 (as amended).  With the mysql engine, a required key (host, user,
    password, database) that is absent makes construction fail with the
    ValueError whose message lists the missing keys, that key among them;
    the world is left as it was, so no connection was tried.  When all four
    keys have truthy values and [port] is absent, validation returns the
    configuration with [port] set to 3306, and these are the parameters of
    every store constructed from it. *)
Theorem C6_required_keys_of_mysql cp w data :
  disk w !! default CONFIG_PATH cp = Some (Object data) →
  engine_name data = "mysql" →
  (∀ k, k ∈ required_keys → data !! k = None →
     __init__ cp w = Raise (ValueError (missing_message (missing_keys data))) w
     ∧ configuration_error (ValueError (missing_message (missing_keys data))) = true
     ∧ k ∈ missing_keys data
     ∧ PyStr.contains (PyStr.repr_str k) (missing_message (missing_keys data)) = true)
  ∧ ((∀ k, k ∈ required_keys → truthy (dict_get data k) = true) →
     data !! "port" = None →
     _load_params (default CONFIG_PATH cp) w = Return (<["port" := PInt 3306]> data) w
     ∧ ∀ self w', __init__ cp w = Return self w' →
         params self = <["port" := PInt 3306]> data).
Proof.
  intros Hd He. split.
  - intros k Hk Hn. pose proof (absent_is_missing _ _ Hk Hn) as Hm.
    split; [|split; [done|split; [done|by apply missing_named]]].
    apply __init___load_raise. rewrite (_load_params_mysql _ _ _ Hd He).
    rewrite bool_decide_eq_false_2; [done|].
    intros Hnil. rewrite Hnil in Hm. by apply not_elem_of_nil in Hm.
  - intros Hall Hport.
    assert (_load_params (default CONFIG_PATH cp) w
            = Return (<["port" := PInt 3306]> data) w) as Hl.
    { rewrite (_load_params_mysql _ _ _ Hd He).
      rewrite bool_decide_eq_true_2 by (by apply missing_keys_nil).
      by rewrite Hport. }
    split; [done|]. intros self w'. by apply __init___params.
Qed.

Lemma C6_required_keys_of_mysql_witness :
  __init__ None (fresh (delete "password" mysql_config) false)
  = Raise (ValueError "Missing required MySQL fields in db_param.json: ['password']")
      (fresh (delete "password" mysql_config) false)
  ∧ _load_params CONFIG_PATH (fresh mysql_config true)
    = Return (<["port" := PInt 3306]> mysql_config) (fresh mysql_config true).
Proof.
  split.
  - destruct (C6_required_keys_of_mysql None
                (fresh (delete "password" mysql_config) false)
                (delete "password" mysql_config)) as [H _];
      [reflexivity|reflexivity|].
    destruct (H "password") as [Hr _];
      [do 2 right; left|reflexivity|exact Hr].
  - destruct (C6_required_keys_of_mysql None (fresh mysql_config true) mysql_config)
      as [_ H]; [reflexivity|reflexivity|].
    apply H; [|reflexivity].
    intros k Hk. unfold required_keys in Hk.
    repeat (apply elem_of_cons in Hk as [->|Hk]; [reflexivity|]).
    by apply elem_of_nil in Hk.
Defined.

(** C6 as stated fails in its second half: all four required keys are
    present and [port] is absent, yet construction raises (the host is the
    empty string) instead of defaulting the port. *)
Lemma C6_counterexample :
  Forall (λ k, <["host" := PStr EmptyString]> mysql_config !! k ≠ None) required_keys
  ∧ <["host" := PStr EmptyString]> mysql_config !! "port" = None
  ∧ __init__ None (fresh (<["host" := PStr EmptyString]> mysql_config) true)
    = Raise (ValueError "Missing required MySQL fields in db_param.json: ['host']")
        (fresh (<["host" := PStr EmptyString]> mysql_config) true).
Proof.
  split; [|split; by vm_compute].
  repeat constructor; by vm_compute.
Qed.

Lemma missing_keys_delete_falsy data k v :
  data !! k = Some v → truthy v = false →
  missing_keys (delete k data) = missing_keys data.
Proof.
  intros Hkv Hv. unfold missing_keys. apply list_filter_iff. intros k'.
  unfold dict_get. destruct (decide (k' = k)) as [->|Hkk].
  - rewrite lookup_delete_eq, Hkv. simpl. by rewrite Hv.
  - by rewrite lookup_delete_ne.
Qed.

Lemma engine_name_delete data k :
  k ≠ "engine" → engine_name (delete k data) = engine_name data.
Proof.
  intros Hk. unfold engine_name, dict_get_default. by rewrite lookup_delete_ne.
Qed.

(** C10.  With the mysql engine, a required key that is present with a
    falsy value is reported exactly as if it were absent: construction raises
    the same ValueError, naming the key, as for the configuration without
    the key.  A [port] that is present with a falsy value is handled exactly
    as an absent one: validation returns or raises the same as for the
    configuration without [port], and where it returns, the port is 3306. *)
Theorem C10_falsy_values cp w data :
  disk w !! default CONFIG_PATH cp = Some (Object data) →
  engine_name data = "mysql" →
  (∀ k v, k ∈ required_keys → data !! k = Some v → truthy v = false →
     __init__ cp w = Raise (ValueError (missing_message (missing_keys data))) w
     ∧ k ∈ missing_keys data
     ∧ PyStr.contains (PyStr.repr_str k) (missing_message (missing_keys data)) = true
     ∧ raised (__init__ cp
                 (with_config (default CONFIG_PATH cp) (Object (delete k data)) w))
       = raised (__init__ cp w))
  ∧ (∀ v, data !! "port" = Some v → truthy v = false →
     let w' := with_config (default CONFIG_PATH cp) (Object (delete "port" data)) w in
     returned (_load_params (default CONFIG_PATH cp) w')
     = returned (_load_params (default CONFIG_PATH cp) w)
     ∧ raised (_load_params (default CONFIG_PATH cp) w')
       = raised (_load_params (default CONFIG_PATH cp) w)
     ∧ (missing_keys data = [] →
        _load_params (default CONFIG_PATH cp) w
        = Return (<["port" := PInt 3306]> data) w
        ∧ ∀ self w1, __init__ cp w = Return self w1 →
            params self = <["port" := PInt 3306]> data)).
Proof.
  intros Hd He. split.
  - intros k v Hk Hkv Hv. pose proof (falsy_is_missing _ _ _ Hk Hkv Hv) as Hm.
    assert (missing_keys data ≠ []) as Hne.
    { intros Hnil. rewrite Hnil in Hm. by apply not_elem_of_nil in Hm. }
    assert (__init__ cp w = Raise (ValueError (missing_message (missing_keys data))) w)
      as Hr.
    { apply __init___load_raise. rewrite (_load_params_mysql _ _ _ Hd He).
      by rewrite bool_decide_eq_false_2. }
    split; [done|split; [done|split; [by apply missing_named|]]].
    assert (k ≠ "engine") as Hke.
    { intros ->. unfold required_keys in Hk.
      repeat (apply elem_of_cons in Hk as [Hk|Hk]; [done|]).
      by apply elem_of_nil in Hk. }
    rewrite Hr. simpl.
    erewrite __init___load_raise; [reflexivity|].
    erewrite _load_params_mysql.
    + rewrite (missing_keys_delete_falsy _ _ _ Hkv Hv).
      rewrite bool_decide_eq_false_2 by done. reflexivity.
    + simpl. apply lookup_insert_eq.
    + rewrite engine_name_delete by done. exact He.
  - intros v Hport Hv w'.
    assert (_load_params (default CONFIG_PATH cp) w
            = if negb (bool_decide (missing_keys data = []))
              then Raise (ValueError (missing_message (missing_keys data))) w
              else Return (<["port" := PInt 3306]> data) w) as Hl.
    { rewrite (_load_params_mysql _ _ _ Hd He).
      unfold dict_get. rewrite Hport. simpl. rewrite Hv. simpl.
      reflexivity. }
    assert (_load_params (default CONFIG_PATH cp) w'
            = if negb (bool_decide (missing_keys data = []))
              then Raise (ValueError (missing_message (missing_keys data))) w'
              else Return (<["port" := PInt 3306]> data) w') as Hl'.
    { erewrite _load_params_mysql.
      - rewrite (missing_keys_delete_falsy _ _ _ Hport Hv).
        rewrite lookup_delete_eq. simpl. by rewrite insert_delete_eq.
      - simpl. apply lookup_insert_eq.
      - rewrite engine_name_delete by done. exact He. }
    rewrite Hl, Hl'.
    split; [by destruct (bool_decide (missing_keys data = []))|].
    split; [by destruct (bool_decide (missing_keys data = []))|].
    intros Hnil. rewrite (bool_decide_eq_true_2 _ Hnil). simpl.
    split; [done|]. intros self w1. apply __init___params.
    rewrite Hl. by rewrite (bool_decide_eq_true_2 _ Hnil).
Qed.

Lemma C10_falsy_values_witness :
  __init__ None (fresh (<["user" := PStr EmptyString]> mysql_config) true)
  = Raise (ValueError "Missing required MySQL fields in db_param.json: ['user']")
      (fresh (<["user" := PStr EmptyString]> mysql_config) true)
  ∧ _load_params CONFIG_PATH (fresh (<["port" := PInt 0]> mysql_config) true)
    = Return (<["port" := PInt 3306]> mysql_config)
        (fresh (<["port" := PInt 0]> mysql_config) true).
Proof.
  split.
  - destruct (C10_falsy_values None
                (fresh (<["user" := PStr EmptyString]> mysql_config) true)
                (<["user" := PStr EmptyString]> mysql_config)) as [H _];
      [reflexivity|reflexivity|].
    destruct (H "user" (PStr EmptyString)) as [Hr _];
      [right; left|reflexivity|reflexivity|exact Hr].
  - destruct (C10_falsy_values None
                (fresh (<["port" := PInt 0]> mysql_config) true)
                (<["port" := PInt 0]> mysql_config)) as [_ H];
      [reflexivity|reflexivity|].
    destruct (H (PInt 0)) as (_ & _ & Hr); [reflexivity|reflexivity|].
    destruct Hr as [Hr _]; [reflexivity|].
    etrans; [exact Hr|reflexivity].
Defined.

(** ** Placeholder translation *)

Local Abbreviation tr := (PyStr.replace "%s" "?").
Local Abbreviation free p := (PyStr.contains "%s" p = false).

Lemma tr_hit r : tr ("%s" +:+ r) = "?" +:+ tr r.
Proof. reflexivity. Qed.

Lemma tr_miss c s :
  PyStr.startswith "%s" (String c s) = false → tr (String c s) = String c (tr s).
Proof. intros H. unfold PyStr.replace. simpl in *. by rewrite H. Qed.

Lemma free_cons c p :
  free (String c p) → PyStr.startswith "%s" (String c p) = false ∧ free p.
Proof. simpl. intros H. apply orb_false_elim in H as [H1 H2]. by destruct p. Qed.

Lemma tr_free p : free p → tr p = p.
Proof.
  induction p as [|c p IH]; [done|].
  intros [Hs Hf]%free_cons. rewrite tr_miss by done. by rewrite IH.
Qed.

Lemma startswith_before_hit c p r :
  PyStr.startswith "%s" (String c p) = false →
  PyStr.startswith "%s" (String c (p +:+ "%s" +:+ r)) = false.
Proof.
  simpl. destruct (bool_decide ("%"%char = c)); [|done]. simpl.
  destruct p as [|d p]; [done|]. simpl.
  by destruct (bool_decide ("s"%char = d)).
Qed.

Lemma tr_piece p r : free p → tr (p +:+ "%s" +:+ r) = p +:+ "?" +:+ tr r.
Proof.
  induction p as [|c p IH]; [intros _; apply tr_hit|].
  intros [Hs Hf]%free_cons.
  change (String c p +:+ "%s" +:+ r) with (String c (p +:+ "%s" +:+ r)).
  rewrite tr_miss by (by apply startswith_before_hit).
  rewrite IH by done. reflexivity.
Qed.

Lemma tr_join ps :
  Forall (λ p, free p) ps → tr (PyStr.join "%s" ps) = PyStr.join "?" ps.
Proof.
  induction ps as [|p [|q qs] IH]; intros Hf.
  - reflexivity.
  - apply Forall_cons in Hf as [Hp _]. by apply tr_free.
  - apply Forall_cons in Hf as [Hp Hf].
    change (PyStr.join "%s" (p :: q :: qs))
      with (p +:+ "%s" +:+ PyStr.join "%s" (q :: qs)).
    rewrite tr_piece by done. rewrite IH by done. reflexivity.
Qed.

Lemma free_piece p r : free p → free r → free (p +:+ "?" +:+ r).
Proof.
  intros Hp Hr. induction p as [|c p IH]; [done|].
  apply free_cons in Hp as [Hs Hp].
  change (String c p +:+ "?" +:+ r) with (String c (p +:+ "?" +:+ r)).
  cbn [PyStr.contains]. rewrite (IH Hp), orb_false_r.
  simpl in *. destruct (bool_decide ("%"%char = c)); [|done]. simpl in *.
  destruct p as [|d p]; [done|]. simpl in *.
  by destruct (bool_decide ("s"%char = d)).
Qed.

Lemma free_join ps : Forall (λ p, free p) ps → free (PyStr.join "?" ps).
Proof.
  induction ps as [|p [|q qs] IH]; intros Hf.
  - reflexivity.
  - by apply Forall_cons in Hf as [Hp _].
  - apply Forall_cons in Hf as [Hp Hf].
    change (PyStr.join "?" (p :: q :: qs))
      with (p +:+ "?" +:+ PyStr.join "?" (q :: qs)).
    apply free_piece; [done|by apply IH].
Qed.

(** Every string is pieces free of [%s] joined by [%s]. *)
Lemma pieces_exist s :
  ∃ p ps, s = PyStr.join "%s" (p :: ps) ∧ Forall (λ p, free p) (p :: ps).
Proof.
  remember (String.length s) as n eqn:Hn.
  revert s Hn. induction (lt_wf n) as [n _ IH]. intros s Hn.
  destruct s as [|c s].
  { exists EmptyString, []. split; [done|]. by repeat constructor. }
  destruct (PyStr.startswith "%s" (String c s)) eqn:Hs.
  - simpl in Hs. destruct (bool_decide ("%"%char = c)) eqn:Hc; [|done].
    apply bool_decide_eq_true in Hc as <-.
    destruct s as [|d s]; [done|]. simpl in Hs.
    destruct (bool_decide ("s"%char = d)) eqn:Hd; [|done].
    apply bool_decide_eq_true in Hd as <-.
    destruct (IH (String.length s)) with (s := s) as (p & ps & Hj & Hf);
      [simpl in Hn; lia|done|].
    exists EmptyString, (p :: ps). split.
    + change (PyStr.join "%s" (EmptyString :: p :: ps))
        with ("%s" +:+ PyStr.join "%s" (p :: ps)).
      by rewrite <- Hj.
    + by constructor.
  - destruct (IH (String.length s)) with (s := s) as (p & ps & Hj & Hf);
      [simpl in Hn; lia|done|].
    apply Forall_cons in Hf as [Hp Hf].
    exists (String c p), ps. split.
    + rewrite Hj. by destruct ps.
    + constructor; [|done]. simpl. rewrite Hp, orb_false_r.
      simpl in Hs. destruct (bool_decide ("%"%char = c)); [|done]. simpl in *.
      rewrite Hj in Hs. destruct p as [|e p]; [done|].
      by destruct ps.
Qed.

(** C7.  With the sqlite engine [_prepare_sql] replaces every occurrence of
    [%s] by [?]: however [s] is cut into pieces free of [%s] with [%s]
    between them (and it always can be), the result is the same pieces with
    [?] between them, and no [%s] is left in it.  With any other engine,
    mysql in particular, [s] is returned unchanged. *)
Theorem C7_placeholder_translation self s :
  (engine self = "sqlite" →
     (∀ ps, Forall (λ p, free p) ps → s = PyStr.join "%s" ps →
        _prepare_sql self s = PyStr.join "?" ps)
     ∧ (∃ p ps, s = PyStr.join "%s" (p :: ps) ∧ Forall (λ p, free p) (p :: ps)
                ∧ _prepare_sql self s = PyStr.join "?" (p :: ps))
     ∧ PyStr.contains "%s" (_prepare_sql self s) = false)
  ∧ (engine self = "mysql" → _prepare_sql self s = s)
  ∧ (engine self ≠ "sqlite" → _prepare_sql self s = s).
Proof.
  split; [|split].
  - intros He.
    assert (∀ ps, Forall (λ p, free p) ps → s = PyStr.join "%s" ps →
              _prepare_sql self s = PyStr.join "?" ps) as Hall.
    { intros ps Hf ->. unfold _prepare_sql. rewrite He. simpl. by apply tr_join. }
    destruct (pieces_exist s) as (p & ps & Hj & Hf).
    split; [done|]. split.
    + exists p, ps. split; [done|split; [done|by apply Hall]].
    + rewrite (Hall _ Hf Hj). by apply free_join.
  - intros He. unfold _prepare_sql. by rewrite He.
  - intros He. unfold _prepare_sql. by rewrite bool_decide_eq_false_2.
Qed.

Lemma C7_placeholder_translation_witness :
  _prepare_sql {| config_path := CONFIG_PATH; params := sqlite_config; engine := "sqlite" |}
    "DELETE FROM files WHERE id = %s"
  = "DELETE FROM files WHERE id = ?"
  ∧ _prepare_sql {| config_path := CONFIG_PATH; params := mysql_config; engine := "mysql" |}
      "DELETE FROM files WHERE id = %s"
    = "DELETE FROM files WHERE id = %s".
Proof.
  split.
  - destruct (C7_placeholder_translation
                {| config_path := CONFIG_PATH; params := sqlite_config; engine := "sqlite" |}
                "DELETE FROM files WHERE id = %s") as [H _].
    destruct (H eq_refl) as [Hall _].
    apply (Hall ["DELETE FROM files WHERE id = "; EmptyString]); [|reflexivity].
    repeat constructor.
  - destruct (C7_placeholder_translation
                {| config_path := CONFIG_PATH; params := mysql_config; engine := "mysql" |}
                "DELETE FROM files WHERE id = %s") as (_ & H & _).
    exact (H eq_refl).
Defined.

(** ** The table: keys and [ORDER BY id DESC] *)

Global Instance newer_trans : Transitive Engine.newer.
Proof. intros a b c. unfold Engine.newer. lia. Qed.

Global Instance newer_total : Total Engine.newer.
Proof. intros a b. unfold Engine.newer. lia. Qed.

Lemma foldr_max_ge (l : list Z) k : k ∈ l → k ≤ foldr Z.max 0 l.
Proof. induction 1; simpl; lia. Qed.

Lemma max_key_ge (m : gmap Z stored) k r : m !! k = Some r → k ≤ Engine.max_key m.
Proof.
  intros H. apply elem_of_map_to_list in H. apply foldr_max_ge.
  apply list_elem_of_fmap. by exists (k, r).
Qed.

Lemma next_id_above t k : is_Some (rows t !! k) → k < Engine.next_id t.
Proof.
  intros [r Hr]. apply max_key_ge in Hr. unfold Engine.next_id. lia.
Qed.

Lemma next_id_free t : rows t !! Engine.next_id t = None.
Proof.
  destruct (rows t !! Engine.next_id t) eqn:H; [|done].
  assert (Engine.next_id t < Engine.next_id t) by (by apply next_id_above). lia.
Qed.

Lemma newest_first_perm m : Engine.newest_first m ≡ₚ map_to_list m.
Proof. apply merge_sort_Permutation. Qed.

Lemma newest_first_sorted m : StronglySorted Engine.newer (Engine.newest_first m).
Proof. apply StronglySorted_merge_sort; apply _. Qed.

Lemma newest_first_lookup m k r : (k, r) ∈ Engine.newest_first m ↔ m !! k = Some r.
Proof. by rewrite newest_first_perm, elem_of_map_to_list. Qed.

Lemma newest_first_NoDup m : NoDup ((Engine.newest_first m).*1).
Proof. rewrite newest_first_perm. apply NoDup_fst_map_to_list. Qed.



Lemma newest_first_insert m id r :
  (∀ k, is_Some (m !! k) → k < id) →
  Engine.newest_first (<[id := r]> m) = (id, r) :: Engine.newest_first m.
Proof.
  intros Hid.
  assert (m !! id = None) as Hfree.
  { destruct (m !! id) eqn:H; [|done]. assert (id < id) by eauto. lia. }
  apply (StronglySorted_unique_strong Engine.newer).
  - intros [k1 r1] [k2 r2] H1 H2 H12 H21. unfold Engine.newer in *. simpl in *.
    assert (k1 = k2) as -> by lia.
    apply newest_first_lookup in H1.
    apply elem_of_cons in H2 as [H2|H2].
    + injection H2 as -> ->. rewrite lookup_insert_eq in H1. congruence.
    + apply newest_first_lookup in H2.
      assert (k2 ≠ id) by (intros ->; congruence).
      rewrite lookup_insert_ne in H1 by done. congruence.
  - apply newest_first_sorted.
  - constructor; [apply newest_first_sorted|].
    apply Forall_forall. intros [k s] Hk%newest_first_lookup.
    unfold Engine.newer. simpl. assert (k < id) by eauto. lia.
  - rewrite !newest_first_perm. by apply map_to_list_insert.
Qed.



(** ** What a returning operation tells about the world *)

Lemma constructed_usable self : constructed self → ∃ k, usable self k.
Proof.
  intros (cp & w0 & w1 & H). apply __init___inv in H as (_ & k & _ & _ & _ & _ & ? & _).
  eauto.
Qed.

Lemma run_no_table st ps :
  st ≠ Engine.CreateTable →
  Engine.run st ps None = inl (DriverError "no such table: files").
Proof. destruct st; [done|..]; intros _; simpl; repeat case_match; done. Qed.

Lemma cursor_execute_no_table k sql ps w st :
  Engine.parse k sql = Some st → st ≠ Engine.CreateTable → files_table w = None →
  cursor_execute k sql ps w
  = Raise (DriverError "no such table: files") (log_statement sql w).
Proof.
  intros Hp Hst Ht. unfold cursor_execute. rewrite Hp. simpl. rewrite Ht.
  by rewrite run_no_table.
Qed.

Lemma insert_file_inv self f m n d h w id w1 :
  insert_file self f m n d h w = Return id w1 →
  ∃ k t, usable self k ∧ server_up w = true ∧ files_table w = Some t.
Proof.
  intros H. unfold insert_file in H.
  apply bind_Return_inv in H as (k & w' & Hc & H).
  apply get_connection_inv in Hc as (Hu & Hup & ->).
  destruct (files_table w) as [t|] eqn:Ht; [eauto|].
  exfalso. revert H. unfold try_finally. rewrite (_prepare_sql_native _ _ _ Hu).
  recognised k Engine.Insert.
  erewrite bind_Raise; [|eapply cursor_execute_no_table; [eassumption|done|done]].
  done.
Qed.

Lemma delete_file_inv self x va w b w1 :
  delete_file self x va w = Return b w1 →
  ∃ k t, usable self k ∧ server_up w = true ∧ files_table w = Some t.
Proof.
  intros H. unfold delete_file in H.
  apply bind_Return_inv in H as (k & w' & Hc & H).
  apply get_connection_inv in Hc as (Hu & Hup & ->).
  destruct (files_table w) as [t|] eqn:Ht; [eauto|].
  exfalso. revert H. rewrite (_prepare_sql_native _ _ _ Hu).
  recognised k Engine.Delete.
  erewrite bind_Raise; [done|].
  unfold try_except.
  erewrite bind_Raise; [|eapply cursor_execute_no_table; [eassumption|done|done]].
  reflexivity.
Qed.

(** ** Calls keep the store available and the other rows in place *)




(** ** Where the model raises *)

Lemma sqlite_rejects_the_mysql_marker :
  Engine.parse Engine.SqliteConnection "DELETE FROM files WHERE id = %s" = None
  ∧ Engine.parse Engine.MySQLConnection "DELETE FROM files WHERE id = ?" = None
  ∧ Engine.parse Engine.MySQLConnection "VACUUM" = None.
Proof. by vm_compute. Qed.

Lemma unreachable_database_raises :
  raised (__init__ None (fresh sqlite_config false))
  = Some (DriverError "cannot open the database").
Proof. by vm_compute. Qed.

Lemma missing_table_raises :
  raised (delete_file sqlite_store 1 true (fresh sqlite_config true))
  = Some (DriverError "no such table: files")
  ∧ handles (world_of (delete_file sqlite_store 1 true (fresh sqlite_config true))) = O.
Proof. by vm_compute. Qed.

(** ** The round trip, deletion and listing *)


Lemma sha256_abc :
  Hashlib.sha256_hexdigest ["a"; "b"; "c"]%byte
  = "ba7816bf8f01cfea414140de5dae2223b00361a396177a9cb410ff61f20015ad".
Proof. by vm_compute. Qed.


(** C2.  When [delete_file] on an id returns True, [get_file_by_id] on that
    id then returns None. *)
Theorem C2_delete_then_fetch self x va w w1 :
  delete_file self x va w = Return true w1 →
  ∃ w2, get_file_by_id self x w1 = Return None w2.
Proof.
  intros Hdel.
  destruct (delete_file_inv _ _ _ _ _ _ Hdel) as (k & t & Hu & Hup & Ht).
  pose proof (delete_file_ok self k x va w t Hu Hup Ht) as Hok. simpl in Hok.
  rewrite Hok in Hdel. clear Hok.
  destruct (rows t !! x) as [r|] eqn:Hx; [|done].
  assert (∃ t2, server_up w1 = true ∧ files_table w1 = Some t2 ∧ rows t2 !! x = None)
    as (t2 & Hup1 & Ht1 & Hx1).
  { destruct (va && bool_decide (k = Engine.SqliteConnection));
      injection Hdel as <-; eexists;
      (split; [exact Hup|]); (split; [reflexivity|]); apply lookup_delete_eq. }
  destruct (get_file_by_id_ok self k x w1 t2 Hu Hup1 Ht1) as (sql & _ & Hget).
  rewrite Hx1 in Hget. eauto.
Qed.


Lemma meta_dict_fields id r :
  dom (meta_dict id r) = list_to_set meta_columns
  ∧ meta_dict id r !! "file_data" = None
  ∧ row_id (meta_dict id r) = id
  ∧ meta_dict id r !! "filename" = Some (VText (st_filename r))
  ∧ meta_dict id r !! "mime_type" = Some (VText (st_mime_type r))
  ∧ meta_dict id r !! "file_size" = Some (VInt (st_file_size r))
  ∧ meta_dict id r !! "sha256" = Some (VText (st_sha256 r)).
Proof. by repeat split. Qed.


Lemma next_id_positive t : 0 < Engine.next_id t.
Proof.
  unfold Engine.next_id, Engine.max_key.
  assert (0 ≤ foldr Z.max 0 ((map_to_list (rows t)).*1)).
  { induction ((map_to_list (rows t)).*1); simpl; lia. }
  lia.
Qed.






(** ** The sample stores *)

Lemma sqlite_store_constructed : constructed sqlite_store.
Proof. exists None, (fresh sqlite_config true), (opened sqlite_config). by vm_compute. Qed.

Lemma mysql_store_constructed : constructed mysql_store.
Proof. exists None, (fresh mysql_config true), (opened mysql_config). by vm_compute. Qed.

Lemma opened_sqlite_available : available (opened sqlite_config).
Proof. split; [by vm_compute|]. exists empty_table. by vm_compute. Qed.

Lemma opened_mysql_available : available (opened mysql_config).
Proof. split; [by vm_compute|]. exists empty_table. by vm_compute. Qed.

Lemma with_abc_available : available (with_abc sqlite_store (opened sqlite_config)).
Proof. split; [by vm_compute|]. eexists. by vm_compute. Qed.


Lemma C2_delete_then_fetch_witness :
  ∃ w2, get_file_by_id sqlite_store 1
          (world_of (delete_file sqlite_store 1 true
                       (with_abc sqlite_store (opened sqlite_config))))
        = Return None w2.
Proof.
  apply (C2_delete_then_fetch sqlite_store 1 true
           (with_abc sqlite_store (opened sqlite_config))).
  by vm_compute.
Defined.





(** * Further properties of sql.py *)

(** ** Every connection that is opened is closed again *)






Lemma steady_subscript d key : steady (subscript d key).
Proof. intros w. unfold subscript. by destruct (d !! key). Qed.

(** [get_connection] either opens one connection or raises and leaves the
    world as it was. *)
Lemma get_connection_cases self w :
  (∃ k, get_connection self w = Return k (set_handles (S (handles w)) w))
  ∨ (∃ e, get_connection self w = Raise e w).
Proof.
  destruct (get_connection self w) as [k w1|e w1] eqn:H.
  { left. exists k. by apply get_connection_inv in H as (_ & _ & ->). }
  right. exists e. f_equal. revert H. unfold get_connection.
  unfold _sqlite_path, subscript, mbind, M_bind, bind, raise, ret, driver_connect.
  repeat case_match; congruence.
Qed.













(** ** The liveness probe *)

Lemma check_connection_world self w :
  ∃ b, check_connection self w = Return b w.
Proof.
  unfold check_connection, try_except.
  unfold mbind at 1, M_bind at 1, bind at 1.
  destruct (get_connection_cases self w) as [[k ->]|[e ->]].
  - exists true. by destruct w.
  - by exists false.
Qed.

(** X2.  [check_connection] never raises and leaves the world exactly as it
    was: it returns True when a connection can be opened (and closes it
    again) and False when opening one raises, whatever the exception. *)
Theorem X2_check_connection_probes self w :
  ∃ b, check_connection self w = Return b w
       ∧ (b = true ↔ ∃ k w1, get_connection self w = Return k w1)
       ∧ (server_up w = false → b = false).
Proof.
  unfold check_connection, try_except.
  unfold mbind at 1, M_bind at 1, bind at 1.
  destruct (get_connection_cases self w) as [[k Hk]|[e He]].
  - exists true. rewrite Hk. split; [by destruct w|]. split; [split; eauto|].
    intros Hdown. apply get_connection_inv in Hk as (_ & Hup & _). congruence.
  - exists false. rewrite He. split; [done|]. split; [|done].
    split; [done|]. intros (k & w1 & Hk). congruence.
Qed.

(** ** The schema bootstrap *)

Lemma _load_params_same_disk path w w' :
  disk w' = disk w →
  _load_params path w'
  = match _load_params path w with
    | Return d _ => Return d w'
    | Raise e _ => Raise e w'
    end.
Proof. intros Hd. unfold _load_params. rewrite Hd. by repeat case_match. Qed.

Lemma __init___world cp w self w1 :
  __init__ cp w = Return self w1 →
  ∃ k sql, usable self k ∧ server_up w = true
    ∧ Engine.parse k sql = Some Engine.CreateTable
    ∧ w1 = after sql (Some (default empty_table (files_table w))) w.
Proof.
  intros H. pose proof (__init___inv _ _ _ _ H) as (data & k & _ & Hl & _ & _ & Hu & _).
  unfold __init__ in H.
  rewrite (bind_Return _ _ _ _ _ Hl) in H.
  apply bind_Return_inv in H as (eng & wb & He & H).
  assert (wb = w) as ->.
  { destruct (dict_get_default (params self) "engine" (PStr "mysql")); try done.
    by injection He as _ <-. }
  apply bind_Return_inv in H as ([] & wc & Hens & H).
  injection H as Hself <-. rewrite Hself in Hens.
  pose proof Hens as Hens'. unfold _ensure_files_table in Hens'.
  apply bind_Return_inv in Hens' as (k' & wd & Hconn & _).
  apply get_connection_inv in Hconn as (Hu' & Hup & _).
  destruct (_ensure_files_table_ok _ _ _ Hu' Hup) as (sql & Hp & Hok).
  rewrite Hok in Hens. injection Hens as <-. eauto 10.
Qed.

(** X3.  The schema bootstrap is idempotent.  A construction that returns
    leaves an existing table exactly as it found it (rows, counter and
    unreclaimed slots) and creates an empty table where there was none;
    constructing again in the world it leaves returns the same object and
    does not change the table. *)
Theorem X3_bootstrap_is_idempotent cp w self w1 :
  __init__ cp w = Return self w1 →
  files_table w1 = Some (default empty_table (files_table w))
  ∧ disk w1 = disk w
  ∧ ∃ w2, __init__ cp w1 = Return self w2 ∧ files_table w2 = files_table w1.
Proof.
  intros H.
  pose proof (__init___inv _ _ _ _ H) as (data & _ & _ & Hl & _ & _ & _ & _).
  destruct (__init___world _ _ _ _ H) as (k & sql & Hu & Hup & Hp & ->).
  split; [done|]. split; [done|].
  set (w1 := after sql (Some (default empty_table (files_table w))) w).
  assert (_load_params (default CONFIG_PATH cp) w1 = Return (params self) w1) as Hl1.
  { rewrite (_load_params_same_disk _ w w1) by done. by rewrite Hl. }
  destruct (_ensure_files_table_ok self k w1 Hu Hup) as (sql2 & _ & Hens).
  exists (after sql2 (Some (default empty_table (files_table w1))) w1).
  split; [|done].
  unfold __init__ in *. rewrite (bind_Return _ _ _ _ _ Hl) in H.
  rewrite (bind_Return _ _ _ _ _ Hl1).
  destruct (dict_get_default (params self) "engine" (PStr "mysql"))
    as [| | |s|]; try done.
  apply bind_Return_inv in H as (eng & wb & He & H). injection He as <- <-.
  apply bind_Return_inv in H as ([] & wc & _ & H). injection H as Hself _.
  erewrite bind_Return by reflexivity. rewrite Hself.
  by rewrite (bind_Return _ _ _ _ _ Hens).
Qed.

Lemma X3_bootstrap_is_idempotent_witness :
  files_table (with_abc sqlite_store (opened sqlite_config))
  = files_table (world_of (__init__ None (with_abc sqlite_store (opened sqlite_config)))).
Proof.
  destruct (X3_bootstrap_is_idempotent None
              (with_abc sqlite_store (opened sqlite_config)) sqlite_store
              (world_of (__init__ None (with_abc sqlite_store (opened sqlite_config)))))
    as (Ht & _); [by vm_compute|].
  rewrite Ht. by vm_compute.
Defined.

(** ** Validation of the configuration, continued *)

Lemma _load_params_sqlite path w data :
  disk w !! path = Some (Object data) →
  engine_name data = "sqlite" →
  _load_params path w
  = if negb (truthy (dict_get data "database"))
    then Raise (ValueError
                  "For SQLite, db_param.json must contain 'database' (file name/path)") w
    else Return data w.
Proof.
  intros Hd He. unfold _load_params. rewrite Hd.
  fold (engine_name data). rewrite He. reflexivity.
Qed.

(** X4.  With the sqlite engine the configuration needs a [database] path:
    when the key is absent or its value is falsy, construction raises the
    ValueError about it before any connection is tried; otherwise validation
    returns the configuration as it is (no port is added), and a store that
    is constructed has exactly these parameters, with a non-empty string as
    its database path. *)
Theorem X4_sqlite_needs_a_database_path cp w data :
  disk w !! default CONFIG_PATH cp = Some (Object data) →
  engine_name data = "sqlite" →
  (truthy (dict_get data "database") = false →
     __init__ cp w
     = Raise (ValueError
                "For SQLite, db_param.json must contain 'database' (file name/path)") w)
  ∧ (truthy (dict_get data "database") = true →
       _load_params (default CONFIG_PATH cp) w = Return data w)
  ∧ (∀ self w1, __init__ cp w = Return self w1 →
       params self = data
       ∧ engine self = "sqlite"
       ∧ ∃ p, data !! "database" = Some (PStr p) ∧ p ≠ EmptyString).
Proof.
  intros Hd He. pose proof (_load_params_sqlite _ _ _ Hd He) as Hl.
  split; [|split].
  - intros Hf. apply __init___load_raise. by rewrite Hl, Hf.
  - intros Ht. by rewrite Hl, Ht.
  - intros self w1 H.
    pose proof (__init___inv _ _ _ _ H) as (data' & k & Hd' & Hl' & _ & Heng & Hu & _).
    rewrite Hd in Hd'. injection Hd' as <-.
    rewrite Hl in Hl'. destruct (truthy (dict_get data "database")) eqn:Ht; [|done].
    injection Hl' as Hps. split; [done|]. split; [congruence|].
    rewrite He in Heng. destruct k; destruct Hu as [Hk Hp]; [congruence|].
    destruct Hp as [p Hp]. rewrite <- Hps in Hp. exists p. split; [done|].
    intros ->. unfold dict_get in Ht. by rewrite Hp in Ht.
Qed.

Lemma X4_sqlite_needs_a_database_path_witness :
  __init__ None (fresh {[ "engine" := PStr "sqlite" ]} true)
  = Raise (ValueError
             "For SQLite, db_param.json must contain 'database' (file name/path)")
      (fresh {[ "engine" := PStr "sqlite" ]} true)
  ∧ _load_params CONFIG_PATH (fresh sqlite_config true)
    = Return sqlite_config (fresh sqlite_config true).
Proof.
  split.
  - destruct (X4_sqlite_needs_a_database_path None
                (fresh {[ "engine" := PStr "sqlite" ]} true)
                {[ "engine" := PStr "sqlite" ]}) as (H & _);
      [reflexivity|reflexivity|].
    by apply H.
  - destruct (X4_sqlite_needs_a_database_path None (fresh sqlite_config true)
                sqlite_config) as (_ & H & _); [reflexivity|reflexivity|].
    by apply H.
Defined.

(** X5.  Validation changes nothing but the port: what [_load_params]
    returns agrees with the decoded file on every key other than [port], the
    world is left as it was, a truthy port is kept, and only the mysql
    engine gets the default 3306 (for an absent or falsy port). *)
Theorem X5_validation_only_touches_port path w d w1 :
  _load_params path w = Return d w1 →
  w1 = w
  ∧ ∃ data, disk w !! path = Some (Object data)
      ∧ (∀ k, k ≠ "port" → d !! k = data !! k)
      ∧ (engine_name data = "sqlite" → d = data)
      ∧ (engine_name data = "mysql" →
           d !! "port" = Some (if truthy (dict_get data "port")
                               then dict_get data "port" else PInt 3306)).
Proof.
  intros H. destruct (_load_params_inv _ _ _ _ H) as (-> & data & Hd & He & _).
  split; [done|]. exists data. split; [done|].
  apply elem_of_cons in He as [He|He%list_elem_of_singleton].
  - rewrite (_load_params_mysql _ _ _ Hd He) in H.
    destruct (negb (bool_decide (missing_keys data = []))); [done|].
    unfold dict_get in *.
    destruct (data !! "port") as [v|] eqn:Hp; simpl in *.
    + destruct (truthy v) eqn:Hv; simpl in *; injection H as <-.
      * split; [done|]. split; [by rewrite He|]. by rewrite Hp.
      * split; [by intros k Hk; rewrite lookup_insert_ne|].
        split; [by rewrite He|]. by rewrite lookup_insert_eq.
    + injection H as <-.
      split; [by intros k Hk; rewrite lookup_insert_ne|].
      split; [by rewrite He|]. by rewrite lookup_insert_eq.
  - rewrite (_load_params_sqlite _ _ _ Hd He) in H.
    destruct (negb (truthy (dict_get data "database"))); [done|].
    injection H as <-. split; [done|]. split; [done|]. by rewrite He.
Qed.

Lemma X5_validation_only_touches_port_witness :
  ∃ d, returned (_load_params CONFIG_PATH
                   (fresh (<["port" := PInt 3307]> mysql_config) true)) = Some d
       ∧ d !! "port" = Some (PInt 3307)
       ∧ d !! "host" = Some (PStr "localhost").
Proof.
  assert (raised (_load_params CONFIG_PATH
                    (fresh (<["port" := PInt 3307]> mysql_config) true)) = None) as Hr.
  { vm_cast_no_check (@eq_refl (option exn) None). }
  destruct (_load_params CONFIG_PATH (fresh (<["port" := PInt 3307]> mysql_config) true))
    as [d w1|e w1] eqn:H; [|discriminate Hr].
  destruct (X5_validation_only_touches_port _ _ _ _ H)
    as (_ & data & Hd & Hk & _ & Hp).
  injection Hd as <-. exists d. split; [done|]. split.
  - by apply Hp.
  - by rewrite Hk.
Defined.

(** ** Reading *)

Lemma run_select_frame cols sel ps t t' c :
  Engine.run (Engine.Select cols sel) ps t = inr (t', c) → t' = t.
Proof.
  destruct sel, t as [t|], ps as [|[] [|]]; simpl; intros H;
    try discriminate; by injection H as <- _.
Qed.

Lemma cursor_execute_select_frame k sql ps w cols sel :
  Engine.parse k sql = Some (Engine.Select cols sel) →
  files_table (world_of (cursor_execute k sql ps w)) = files_table w.
Proof.
  intros Hp. unfold cursor_execute. rewrite Hp.
  destruct (Engine.run (Engine.Select cols sel) ps (files_table (log_statement sql w)))
    as [e|[t' c]] eqn:Hr; [done|].
  by apply run_select_frame in Hr as ->.
Qed.

Lemma query_frame self sql ps w :
  (∀ k, ∃ cols sel, Engine.parse k (native k sql) = Some (Engine.Select cols sel)) →
  files_table (world_of (query self sql ps w)) = files_table w.
Proof.
  intros Hsel. unfold query.
  unfold mbind at 1, M_bind at 1, bind at 1.
  destruct (get_connection self w) as [k w1|e w1] eqn:Hc.
  2:{ destruct (get_connection_cases self w) as [[k Hk]|[e' He]]; [congruence|].
      rewrite He in Hc. by injection Hc as _ <-. }
  apply get_connection_inv in Hc as (Hu & _ & ->).
  unfold try_finally. rewrite (_prepare_sql_native _ _ _ Hu).
  destruct (Hsel k) as (cols & sel & Hp).
  unfold mbind at 1, M_bind at 1, bind at 1.
  pose proof (cursor_execute_select_frame k (native k sql) ps
                (set_handles (S (handles w)) w) cols sel Hp) as Hf.
  by destruct (cursor_execute k (native k sql) ps _) as [c w2|e w2].
Qed.

Ltac selects :=
  intros k; do 2 eexists; destruct k; vm_compute; reflexivity.

(** X6.  Reading never changes the table: after [get_all_files],
    [get_file_by_id], [get_file_for_export], [get_last_file] or
    [check_connection] the table is what it was, for every object and world,
    whether the call returns or raises. *)
Theorem X6_reads_leave_the_table self w :
  files_table (world_of (get_all_files self w)) = files_table w
  ∧ (∀ x, files_table (world_of (get_file_by_id self x w)) = files_table w)
  ∧ (∀ x, files_table (world_of (get_file_for_export self x w)) = files_table w)
  ∧ files_table (world_of (get_last_file self w)) = files_table w
  ∧ files_table (world_of (check_connection self w)) = files_table w.
Proof.
  assert (∀ A (f : list (gmap string sqlval) → A) sql ps,
            (∀ k, ∃ cols sel,
               Engine.parse k (native k sql) = Some (Engine.Select cols sel)) →
            files_table (world_of ((rows ← query self sql ps; ret (f rows)) w))
            = files_table w) as Hq.
  { intros A f sql ps Hsel. pose proof (query_frame self sql ps w Hsel) as H.
    unfold mbind, M_bind, bind. by destruct (query self sql ps w). }
  split; [|split; [|split; [|split]]].
  - unfold get_all_files. apply query_frame. selects.
  - intros x. unfold get_file_by_id. apply Hq. selects.
  - intros x. unfold get_file_for_export. apply Hq. selects.
  - unfold get_last_file. apply Hq. selects.
  - by destruct (check_connection_world self w) as (b & ->).
Qed.



(** ** Writing *)

(** X8.  [insert_file] adds exactly one row: when it returns an id, that id
    is positive and was not in use, the table afterwards is the table before
    with the new row under that id, every other row is untouched, and the
    row count has grown by one. *)
Theorem X8_insert_adds_one_row self f m n d h w id w1 :
  insert_file self f m n d h w = Return id w1 →
  0 < id
  ∧ table_rows w !! id = None
  ∧ table_rows w1 = <[id := Stored f m n d h]> (table_rows w)
  ∧ size (table_rows w1) = S (size (table_rows w)).
Proof.
  intros H.
  destruct (insert_file_inv _ _ _ _ _ _ _ _ _ H) as (k & t & Hu & Hup & Ht).
  destruct (insert_file_ok self k f m n d h w t Hu Hup Ht) as (sql & _ & Hok).
  rewrite Hok in H. injection H as <- <-.
  unfold table_rows. rewrite Ht. simpl.
  split; [apply next_id_positive|]. split; [apply next_id_free|].
  split; [done|]. apply map_size_insert_None, next_id_free.
Qed.

Lemma X8_insert_adds_one_row_witness :
  size (table_rows (with_abc sqlite_store (opened sqlite_config))) = 1%nat.
Proof.
  destruct (X8_insert_adds_one_row sqlite_store "abc.txt" "text/plain" 3 abc
              (Hashlib.sha256_hexdigest abc) (opened sqlite_config) 1
              (with_abc sqlite_store (opened sqlite_config)))
    as (_ & _ & _ & Hs); [by vm_compute|].
  rewrite Hs. by vm_compute.
Defined.







(** X11.  [vacuum_after] decides about compaction only: on an available
    store [delete_file] returns the same answer and leaves the same rows
    with either value of the flag. *)
Theorem X11_vacuum_flag_changes_no_row self x w :
  constructed self → available w →
  returned (delete_file self x true w) = returned (delete_file self x false w)
  ∧ table_rows (world_of (delete_file self x true w))
    = table_rows (world_of (delete_file self x false w)).
Proof.
  intros [k Hu]%constructed_usable [Hup [t Ht]].
  pose proof (delete_file_ok self k x true w t Hu Hup Ht) as H1.
  pose proof (delete_file_ok self k x false w t Hu Hup Ht) as H2.
  simpl in H1, H2. rewrite H1, H2.
  destruct (rows t !! x); [|done].
  by destruct (bool_decide (k = Engine.SqliteConnection)).
Qed.

Lemma X11_vacuum_flag_changes_no_row_witness :
  returned (delete_file sqlite_store 1 true (with_abc sqlite_store (opened sqlite_config)))
  = returned (delete_file sqlite_store 1 false
                (with_abc sqlite_store (opened sqlite_config))).
Proof.
  apply (X11_vacuum_flag_changes_no_row sqlite_store 1
           (with_abc sqlite_store (opened sqlite_config))
           sqlite_store_constructed with_abc_available).
Defined.

(** X12.  The generic [execute] with the DELETE statement does to the world
    what [delete_file] does without compaction, and raises exactly when it
    does: for every object and world the two leave the same world behind. *)
Theorem X12_execute_deletes_like_delete_file self x w :
  world_of (execute self "DELETE FROM files WHERE id = %s" [VInt x] w)
  = world_of (delete_file self x false w)
  ∧ raised (execute self "DELETE FROM files WHERE id = %s" [VInt x] w)
    = raised (delete_file self x false w).
Proof.
  unfold execute, delete_file, try_finally, try_except, quietly,
    mbind, M_bind, bind, ret, raise, conn_commit, cursor_close, conn_close.
  destruct (get_connection_cases self w) as [[k ->]|[e ->]]; [|done].
  cbv zeta.
  destruct (cursor_execute k _ _ _) as [c w1|e w1]; simpl; [|done].
  by destruct (Engine.rowcount c =? 0).
Qed.

(** ** The listing and the single-row reads agree *)

Lemma meta_is_full_without_data id r :
  meta_dict id r = delete "file_data" (full_dict id r).
Proof. reflexivity. Qed.

(** X13.  The listing and [get_file_by_id] agree: on an available store the
    ids listed by [get_all_files] are exactly the ids for which a row is
    stored, and fetching a listed id afterwards returns a row that, without
    its file_data, is the listed entry. *)
Theorem X13_listing_agrees_with_fetch self w :
  constructed self → available w →
  ∃ l w1, get_all_files self w = Return l w1
    ∧ (∀ x, x ∈ row_id <$> l ↔ is_Some (table_rows w !! x))
    ∧ ∀ d, d ∈ l →
        ∃ row w2, get_file_by_id self (row_id d) w1 = Return (Some row) w2
                  ∧ d = delete "file_data" row
                  ∧ is_Some (row !! "file_data").
Proof.
  intros [k Hu]%constructed_usable [Hup [t Ht]].
  destruct (get_all_files_ok self k w t Hu Hup Ht) as (sql & _ & Hl).
  do 2 eexists. split; [exact Hl|].
  unfold table_rows. rewrite Ht. split.
  - intros x. rewrite <- list_fmap_compose. split.
    + intros ([i r] & -> & Hin%newest_first_lookup)%list_elem_of_fmap.
      simpl. by eexists.
    + intros [r Hr]. apply list_elem_of_fmap. exists (x, r).
      split; [done|]. by apply newest_first_lookup.
  - intros d ([i r] & -> & Hin%newest_first_lookup)%list_elem_of_fmap. simpl.
    destruct (get_file_by_id_ok self k i (after sql (Some t) w) t Hu Hup eq_refl)
      as (s2 & _ & Hg).
    change (row_id (meta_dict i r)) with i.
    rewrite Hin in Hg. do 2 eexists. split; [exact Hg|].
    split; [apply meta_is_full_without_data|]. by eexists.
Qed.

Lemma X13_listing_agrees_with_fetch_witness :
  ∃ l, returned (get_all_files sqlite_store (with_abc sqlite_store (opened sqlite_config)))
       = Some l
       ∧ row_id <$> l = [1].
Proof.
  destruct (X13_listing_agrees_with_fetch sqlite_store
              (with_abc sqlite_store (opened sqlite_config))
              sqlite_store_constructed with_abc_available) as (l & w1 & H & _).
  exists l. rewrite H. split; [done|].
  assert (returned (get_all_files sqlite_store
                      (with_abc sqlite_store (opened sqlite_config)))
          = Some [meta_dict 1 (Stored "abc.txt" "text/plain" 3 abc
                                 (Hashlib.sha256_hexdigest abc))])
    as Hc.
  { vm_cast_no_check
      (@eq_refl _ (Some [meta_dict 1 (Stored "abc.txt" "text/plain" 3 abc
                                        (Hashlib.sha256_hexdigest abc))])). }
  rewrite H in Hc. by injection Hc as ->.
Defined.

(** X14.  [get_last_file] returns the row that heads the listing: on an
    available store its result, without file_data, is the first entry of
    [get_all_files], and it is None exactly when the listing is empty. *)
Theorem X14_last_file_heads_the_listing self w :
  constructed self → available w →
  ∃ l r w1 w2, get_all_files self w = Return l w1
    ∧ get_last_file self w = Return r w2
    ∧ delete "file_data" <$> r = head l
    ∧ (r = None ↔ l = []).
Proof.
  intros [k Hu]%constructed_usable [Hup [t Ht]].
  destruct (get_all_files_ok self k w t Hu Hup Ht) as (s1 & _ & H1).
  destruct (get_last_file_ok self k w t Hu Hup Ht) as (s2 & _ & H2).
  do 4 eexists. split; [exact H1|]. split; [exact H2|].
  by destruct (Engine.newest_first (rows t)) as [|[i r] l].
Qed.

Lemma X14_last_file_heads_the_listing_witness :
  ∃ l r, returned (get_all_files mysql_store (opened mysql_config)) = Some l
         ∧ returned (get_last_file mysql_store (opened mysql_config)) = Some r
         ∧ (r = None ↔ l = []).
Proof.
  destruct (X14_last_file_heads_the_listing mysql_store (opened mysql_config)
              mysql_store_constructed opened_mysql_available)
    as (l & r & w1 & w2 & H1 & H2 & _ & Hn).
  exists l, r. by rewrite H1, H2.
Defined.

(** * Further properties of sql_app.py *)

(** ** Strings *)

Lemma length_app_string (s t : string) :
  String.length (s +:+ t) = (String.length s + String.length t)%nat.
Proof. induction s as [|c s IH]; simpl; [done|]. by rewrite <- IH. Qed.

Lemma app_string_cons c (s t : string) : String c s +:+ t = String c (s +:+ t).
Proof. reflexivity. Qed.

Lemma app_string_assoc (s t u : string) : (s +:+ t) +:+ u = s +:+ t +:+ u.
Proof.
  induction s as [|c s IH]; [done|]. rewrite !app_string_cons. by rewrite IH.
Qed.





(** ** The name of the backup copy *)








(** ** The shape of a digest *)

Lemma round_length s kw : length (Hashlib.round s kw) = length s.
Proof.
  unfold Hashlib.round.
  by destruct s as [|a [|b [|c [|d [|e [|f [|g [|h [|]]]]]]]]].
Qed.

Lemma foldl_round_length l s : length (foldl Hashlib.round s l) = length s.
Proof.
  revert s. induction l as [|kw l IH]; intros s; simpl; [done|].
  by rewrite IH, round_length.
Qed.

Lemma compress_length h block : length (Hashlib.compress h block) = length h.
Proof.
  unfold Hashlib.compress. rewrite length_zip_with, foldl_round_length. lia.
Qed.

Lemma foldl_compress_length blocks h :
  length (foldl Hashlib.compress h blocks) = length h.
Proof.
  revert h. induction blocks as [|b bs IH]; intros h; simpl; [done|].
  by rewrite IH, compress_length.
Qed.

Lemma hex_length n x acc :
  String.length (Hashlib.hex n x acc) = (n + String.length acc)%nat.
Proof.
  revert x acc. induction n as [|n IH]; intros x acc; simpl; [done|].
  rewrite IH. simpl. lia.
Qed.

Lemma hex_digit_ok x : hex_char (Hashlib.hex_digit (x mod 16)) = true.
Proof.
  assert (0 ≤ x mod 16 < 16) as Hr by (apply Z.mod_pos_bound; lia).
  assert (∃ n : nat, x mod 16 = Z.of_nat n ∧ (n < 16)%nat) as (n & -> & Hn).
  { exists (Z.to_nat (x mod 16)). lia. }
  do 16 (destruct n as [|n]; [by vm_compute|]). lia.
Qed.

Lemma hex_chars n x acc :
  all_chars hex_char (Hashlib.hex n x acc) = all_chars hex_char acc.
Proof.
  revert x acc. induction n as [|n IH]; intros x acc; simpl; [done|].
  rewrite IH. simpl. by rewrite hex_digit_ok.
Qed.

Lemma hexdigest_shape data :
  String.length (Hashlib.sha256_hexdigest data) = 64%nat
  ∧ all_chars hex_char (Hashlib.sha256_hexdigest data) = true.
Proof.
  unfold Hashlib.sha256_hexdigest.
  match goal with
  | |- context [foldl Hashlib.compress Hashlib.H0 ?bs] =>
      pose proof (foldl_compress_length bs Hashlib.H0) as Hl;
      generalize dependent (foldl Hashlib.compress Hashlib.H0 bs)
  end.
  intros l Hl. change (length Hashlib.H0) with 8%nat in Hl.
  assert (∀ l : list Z,
            String.length (foldr (λ x acc, Hashlib.hex 8 x acc) EmptyString l)
            = (8 * length l)%nat
            ∧ all_chars hex_char (foldr (λ x acc, Hashlib.hex 8 x acc) EmptyString l)
              = true) as Hall.
  { clear. induction l as [|x l [IH1 IH2]]; [done|].
    cbn [foldr]. rewrite hex_length, hex_chars, IH1. split; [simpl; lia|done]. }
  destruct (Hall l) as [H1 H2]. rewrite H1, Hl. done.
Qed.

(** X17.  [compute_file_metadata] returns the contents unchanged with their
    length as the size, a MIME type that is never empty (the guess, or
    application/octet-stream when there is none), and as checksum the
    SHA-256 digest of the contents, which is always 64 characters out of
    0-9 and a-f. *)
Theorem X17_metadata_of_a_file name guessed contents :
  ∃ mime sha,
    compute_file_metadata name guessed contents
    = (name, mime, Z.of_nat (length contents), contents, sha)
    ∧ mime ≠ EmptyString
    ∧ (guessed = None ∨ guessed = Some EmptyString → mime = "application/octet-stream")
    ∧ (∀ g, guessed = Some g → g ≠ EmptyString → mime = g)
    ∧ sha = Hashlib.sha256_hexdigest contents
    ∧ String.length sha = 64%nat
    ∧ all_chars hex_char sha = true.
Proof.
  unfold compute_file_metadata. do 2 eexists. split; [reflexivity|].
  destruct (hexdigest_shape contents) as [Hl Hc].
  split; [|split; [|split; [|by repeat split]]].
  - destruct guessed as [g|]; [|done]. by case_bool_decide.
  - intros [->| ->]; done.
  - intros g -> Hg. by rewrite bool_decide_eq_false_2.
Qed.

Lemma X17_metadata_of_a_file_witness :
  ∃ sha, compute_file_metadata "abc.txt" (Some "text/plain") abc
         = ("abc.txt", "text/plain", 3, abc, sha)
         ∧ String.length sha = 64%nat.
Proof.
  destruct (X17_metadata_of_a_file "abc.txt" (Some "text/plain") abc)
    as (mime & sha & H & _ & _ & Hg & _ & Hl & _).
  exists sha. rewrite (Hg "text/plain") in H by done. by split.
Defined.

(** ** The backup copy and its check *)



(** * Properties of random_data.py *)

Lemma take_chars_length n s :
  String.length (take_chars n s) = Nat.min n (String.length s).
Proof.
  revert s. induction n as [|n IH]; intros [|c s]; simpl; try done.
  by rewrite IH.
Qed.

Lemma chunk_text_nonempty draws base : (0 < String.length (chunk_text draws base))%nat.
Proof.
  unfold chunk_text. cbv zeta. rewrite length_app_string.
  generalize (PyStr.join " " ((λ j, pretty (draws (base + j)%nat)) <$> List.seq 0 numbers_per_chunk)).
  intros s. cbn [String.length]. lia.
Qed.

Lemma write_chunks_fills draws total fuel written base file :
  0 ≤ written ≤ total →
  Z.of_nat (String.length file) = written →
  total - written < Z.of_nat fuel →
  ∃ file', write_chunks fuel draws total written base file = Some file'
           ∧ Z.of_nat (String.length file') = total.
Proof.
  revert written base file. induction fuel as [|fuel IH];
    intros written base file Hw Hf Hfuel; [lia|].
  cbn [write_chunks]. destruct (written <? total) eqn:Hlt.
  2:{ exists file. split; [done|]. apply Z.ltb_ge in Hlt. lia. }
  apply Z.ltb_lt in Hlt. cbv zeta.
  pose proof (chunk_text_nonempty draws base) as Hne.
  set (data := chunk_text draws base) in *.
  set (m := Z.min (1024 * 1024) (total - written)).
  assert (1 ≤ m) by (unfold m; lia).
  assert (m ≤ total - written) by (unfold m; lia).
  set (data' := if Z.of_nat (String.length data) >? m
                then take_chars (Z.to_nat m) data else data).
  assert (1 ≤ Z.of_nat (String.length data') ≤ total - written) as Hd.
  { unfold data'. destruct (Z.of_nat (String.length data) >? m) eqn:Hgt.
    - rewrite take_chars_length. apply Z.gtb_lt in Hgt. lia.
    - rewrite Z.gtb_ltb in Hgt. apply Z.ltb_ge in Hgt. lia. }
  apply IH; [lia| |lia].
  rewrite length_app_string. lia.
Qed.

(** X19.  [create_random_file] raises the ValueError for a size that is not
    positive and writes nothing; for a positive size the file it writes has
    exactly [size_mb * 1024 * 1024] bytes, whatever numbers are drawn
    (the loop ends within that many iterations). *)
Theorem X19_random_file_has_the_size_asked_for fuel size_mb draws :
  (size_mb ≤ 0 →
     create_random_file fuel size_mb draws
     = Some (inl (ValueError "size_mb must be a positive integer")))
  ∧ (0 < size_mb → size_mb * 1024 * 1024 < Z.of_nat fuel →
       ∃ file, create_random_file fuel size_mb draws = Some (inr file)
               ∧ Z.of_nat (String.length file) = size_mb * 1024 * 1024).
Proof.
  unfold create_random_file. split.
  - intros H. by rewrite (proj2 (Z.leb_le _ _) H).
  - intros H Hfuel. rewrite (proj2 (Z.leb_gt _ _) H).
    destruct (write_chunks_fills draws (size_mb * 1024 * 1024) fuel 0 O EmptyString)
      as (file & -> & Hl); [lia|done|lia|].
    by exists file.
Qed.

Lemma X19_random_file_has_the_size_asked_for_witness :
  create_random_file 0 0 (λ _, 7)
  = Some (inl (ValueError "size_mb must be a positive integer"))
  ∧ ∃ file, create_random_file (Z.to_nat 1048577) 1 (λ _, 7) = Some (inr file)
            ∧ Z.of_nat (String.length file) = 1048576.
Proof.
  destruct (X19_random_file_has_the_size_asked_for 0 0 (λ _, 7)) as [H _].
  destruct (X19_random_file_has_the_size_asked_for (Z.to_nat 1048577) 1 (λ _, 7))
    as [_ H'].
  split; [apply H; lia|]. apply H'; lia.
Defined.

Lemma all_chars_app p (s t : string) :
  all_chars p (s +:+ t) = all_chars p s && all_chars p t.
Proof.
  induction s as [|c s IH]; [done|].
  rewrite app_string_cons. simpl. by rewrite IH, andb_assoc.
Qed.

Lemma all_chars_take p n s :
  all_chars p s = true → all_chars p (take_chars n s) = true.
Proof.
  revert s. induction n as [|n IH]; intros [|c s]; simpl; try done.
  intros [Hc Hs]%andb_true_iff. by rewrite Hc, IH.
Qed.

Lemma all_chars_join p sep parts :
  all_chars p sep = true → Forall (λ s, all_chars p s = true) parts →
  all_chars p (PyStr.join sep parts) = true.
Proof.
  intros Hsep. induction 1 as [|s [|s' parts] Hs Hall IH]; [done|done|].
  change (PyStr.join sep (s :: s' :: parts))
    with (s +:+ sep +:+ PyStr.join sep (s' :: parts)).
  by rewrite !all_chars_app, Hs, Hsep, IH.
Qed.

Lemma digit_text d : 0 ≤ d ≤ 9 → all_chars data_char (pretty d) = true.
Proof.
  intros Hd. assert (∃ n : nat, d = Z.of_nat n ∧ (n < 10)%nat) as (n & -> & Hn).
  { exists (Z.to_nat d). lia. }
  do 10 (destruct n as [|n]; [by vm_compute|]). lia.
Qed.

Lemma chunk_text_chars draws base :
  (∀ i, 0 ≤ draws i ≤ 9) → all_chars data_char (chunk_text draws base) = true.
Proof.
  intros Hd. unfold chunk_text. rewrite all_chars_app.
  rewrite all_chars_join; [done|done|].
  apply Forall_fmap, Forall_forall. intros j _. apply digit_text, Hd.
Qed.

Lemma write_chunks_chars draws total fuel written base file file' :
  (∀ i, 0 ≤ draws i ≤ 9) →
  all_chars data_char file = true →
  write_chunks fuel draws total written base file = Some file' →
  all_chars data_char file' = true.
Proof.
  intros Hd. revert written base file.
  induction fuel as [|fuel IH]; intros written base file Hf H; [done|].
  cbn [write_chunks] in H. destruct (written <? total); [|by injection H as <-].
  cbv zeta in H. eapply IH; [|exact H].
  rewrite all_chars_app, Hf. simpl.
  case_match; [apply all_chars_take|]; by apply chunk_text_chars.
Qed.

(** X20.  When every number drawn is between 0 and 9, as
    [random.randint(0, 9)] makes them, the file that [create_random_file]
    writes holds nothing but digits, spaces and newlines. *)
Theorem X20_random_file_is_digits fuel size_mb draws file :
  (∀ i, 0 ≤ draws i ≤ 9) →
  create_random_file fuel size_mb draws = Some (inr file) →
  all_chars data_char file = true.
Proof.
  intros Hd. unfold create_random_file. destruct (size_mb <=? 0); [done|].
  destruct (write_chunks _ _ _ _ _ _) as [f|] eqn:H; [|done].
  intros [= <-]. exact (write_chunks_chars _ _ _ _ _ EmptyString _ Hd eq_refl H).
Qed.

Lemma X20_random_file_is_digits_witness :
  ∃ file, create_random_file (Z.to_nat 1048577) 1 (λ _, 7) = Some (inr file)
          ∧ all_chars data_char file = true.
Proof.
  destruct (write_chunks_fills (λ _, 7) (1 * 1024 * 1024) (Z.to_nat 1048577)
              0 O EmptyString) as (file & Hf & _); [lia|done|lia|].
  assert (create_random_file (Z.to_nat 1048577) 1 (λ _, 7) = Some (inr file)) as H.
  { unfold create_random_file. simpl (1 <=? 0). cbv iota. by rewrite Hf. }
  exists file. split; [exact H|].
  apply (X20_random_file_is_digits (Z.to_nat 1048577) 1 (λ _, 7) file); [|exact H].
  intros i. lia.
Defined.

(** * Properties of gui_app.py *)

(** ** The size column *)

Lemma round_half_even_near num den :
  0 < den → 0 ≤ num →
  let t := gui_app.round_half_even num den in
  2 * Z.abs (num - t * den) ≤ den ∧ num / den ≤ t ≤ num / den + 1.
Proof.
  intros Hden Hnum. unfold gui_app.round_half_even. cbv zeta.
  pose proof (Z.div_mod num den ltac:(lia)) as Hdm.
  pose proof (Z.mod_pos_bound num den Hden) as Hm.
  set (q := num / den) in *. set (r := num mod den) in *.
  destruct (2 * r <? den) eqn:H1; [apply Z.ltb_lt in H1; split; [|lia]; nia|].
  apply Z.ltb_ge in H1.
  destruct (den <? 2 * r) eqn:H2; [apply Z.ltb_lt in H2; split; [|lia]; nia|].
  apply Z.ltb_ge in H2.
  destruct (Z.even q); (split; [|lia]); nia.
Qed.

Lemma format_units_step unit units num den :
  1024 * den ≤ num →
  gui_app.format_units (unit :: units) num den = gui_app.format_units units num (den * 1024).
Proof. intros H. simpl. by rewrite (proj2 (Z.ltb_ge _ _) H). Qed.

Lemma format_units_here unit units num den :
  num < 1024 * den → unit ≠ "B" →
  gui_app.format_units (unit :: units) num den = gui_app.fixed1 num den +:+ " " +:+ unit.
Proof.
  intros H Hu. simpl. rewrite (proj2 (Z.ltb_lt _ _) H).
  by rewrite bool_decide_eq_false_2.
Qed.

(** X21.  [format_file_size] shows a size below 1024 as the number of bytes,
    and a size from [1024 ^ k] up to [1024 ^ (k + 1)], for the units KB, MB,
    GB and TB, in that unit with one decimal: the number of tenths shown is
    the nearest to the size (at most a twentieth of the unit away), between
    1.0 and 1024.0. *)
Theorem X21_size_in_the_largest_unit size_bytes :
  (size_bytes < 1024 →
     gui_app.format_file_size size_bytes = pretty size_bytes +:+ " B")
  ∧ (∀ k unit, ["KB"; "MB"; "GB"; "TB"] !! k = Some unit →
       1024 ^ (Z.of_nat k + 1) ≤ size_bytes < 1024 ^ (Z.of_nat k + 2) →
       ∃ tenths,
         gui_app.format_file_size size_bytes
         = pretty (tenths / 10) +:+ "." +:+ pretty (tenths mod 10) +:+ " " +:+ unit
         ∧ 2 * Z.abs (10 * size_bytes - tenths * 1024 ^ (Z.of_nat k + 1))
           ≤ 1024 ^ (Z.of_nat k + 1)
         ∧ 10 ≤ tenths ≤ 10240).
Proof.
  split.
  - intros H. unfold gui_app.format_file_size.
    destruct (size_bytes =? 0) eqn:H0; [by apply Z.eqb_eq in H0 as ->|].
    simpl. rewrite (proj2 (Z.ltb_lt _ _)) by lia. by rewrite Z.quot_1_r.
  - intros k unit Hk Hn.
    assert (∃ den, den = 1024 ^ (Z.of_nat k + 1) ∧ 0 < den
              ∧ gui_app.format_file_size size_bytes
                = gui_app.fixed1 size_bytes den +:+ " " +:+ unit) as (den & Hden & Hpos & ->).
    { unfold gui_app.format_file_size.
      assert (0 < 1024 ^ (Z.of_nat k + 1)) by (apply Z.pow_pos_nonneg; lia).
      rewrite (proj2 (Z.eqb_neq _ _)) by lia.
      destruct k as [|[|[|[|k]]]]; [..|done]; injection Hk as <-;
        (eexists; split; [reflexivity|]; split; [done|]);
        repeat (rewrite format_units_step by lia);
        rewrite format_units_here by (done || lia); reflexivity. }
    unfold gui_app.fixed1. cbv zeta.
    destruct (round_half_even_near (10 * size_bytes) den) as [Hnear Hq]; [lia..|].
    cbv zeta in Hnear, Hq.
    eexists. split; [rewrite <- !app_string_assoc; reflexivity|]. rewrite <- Hden.
    split; [exact Hnear|].
    assert (10 ≤ 10 * size_bytes / den).
    { apply Z.div_le_lower_bound; lia. }
    assert (10 * size_bytes / den < 10240).
    { apply Z.div_lt_upper_bound; [lia|].
      replace (1024 ^ (Z.of_nat k + 2)) with (1024 * den) in Hn; [lia|].
      rewrite Hden. replace (Z.of_nat k + 2) with (Z.succ (Z.of_nat k + 1)) by lia.
      rewrite Z.pow_succ_r by lia. lia. }
    lia.
Qed.

Lemma X21_size_in_the_largest_unit_witness :
  gui_app.format_file_size 1000 = "1000 B"
  ∧ ∃ tenths,
      gui_app.format_file_size 1048575
      = pretty (tenths / 10) +:+ "." +:+ pretty (tenths mod 10) +:+ " KB"
      ∧ 10 ≤ tenths ≤ 10240.
Proof.
  destruct (X21_size_in_the_largest_unit 1000) as [H _].
  destruct (X21_size_in_the_largest_unit 1048575) as [_ H'].
  split; [apply H; lia|].
  destruct (H' O "KB") as (tenths & Ht & _ & Hr); [reflexivity|simpl; lia|].
  by exists tenths.
Defined.

(** ** The preview of the details *)

Lemma take_chars_all n s : (String.length s ≤ n)%nat → take_chars n s = s.
Proof.
  revert s. induction n as [|n IH]; intros [|c s]; simpl; intros H; try done; [lia|].
  rewrite IH; [done|lia].
Qed.

Lemma take_chars_bytes_hex n l :
  take_chars (2 + 3 * n) (gui_app.bytes_hex l) = gui_app.bytes_hex (take (S n) l).
Proof.
  revert l. induction n as [|n IH]; intros [|x [|y l]]; try reflexivity.
  specialize (IH (y :: l)).
  replace (2 + 3 * S n)%nat with (3 + (2 + 3 * n))%nat by lia.
  change (gui_app.bytes_hex (x :: y :: l))
    with (Hashlib.hex 2 (Hashlib.byte_val x) EmptyString +:+ " "
          +:+ gui_app.bytes_hex (y :: l)).
  change (gui_app.bytes_hex (take (S (S n)) (x :: y :: l)))
    with (Hashlib.hex 2 (Hashlib.byte_val x) EmptyString +:+ " "
          +:+ gui_app.bytes_hex (take (S n) (y :: l))).
  rewrite <- IH. reflexivity.
Qed.

(** X22.  The preview of the details panel is the hexadecimal text of the
    first 43 bytes of the file: the 128 characters it is cut to hold no more
    of the 64 bytes taken. *)
Theorem X22_preview_shows_43_bytes row file_data :
  row !! "file_data" = Some (VBlob file_data) →
  gui_app.preview_hex row = inr (gui_app.bytes_hex (take 43 file_data)).
Proof.
  intros H. unfold gui_app.preview_hex. rewrite H. f_equal.
  change 128%nat with (2 + 3 * 42)%nat.
  case_bool_decide as Hb; [by subst|].
  rewrite take_chars_bytes_hex, take_take. reflexivity.
Qed.

Lemma X22_preview_shows_43_bytes_witness :
  gui_app.preview_hex (full_dict 1 (Stored "abc.txt" "text/plain" 3 abc "00"))
  = inr "61 62 63".
Proof.
  apply (X22_preview_shows_43_bytes
           (full_dict 1 (Stored "abc.txt" "text/plain" 3 abc "00")) abc).
  reflexivity.
Defined.

(** ** Switching the engine *)

Lemma missing_keys_engine data v :
  missing_keys (<["engine" := v]> data) = missing_keys data.
Proof.
  unfold missing_keys, required_keys, dict_get.
  rewrite !filter_cons, !filter_nil. by rewrite !lookup_insert_ne by done.
Qed.

Lemma lower_lower s : PyStr.lower (PyStr.lower s) = PyStr.lower s.
Proof.
  induction s as [|c s IH]; [done|]. simpl. rewrite IH. f_equal.
  unfold PyStr.lower_char.
  destruct ((65 <=? N_of_ascii c)%N && (N_of_ascii c <=? 90)%N) eqn:H.
  - apply andb_true_iff in H as [H1 H2].
    apply N.leb_le in H1. apply N.leb_le in H2.
    rewrite N_ascii_embedding by lia.
    by rewrite (proj2 (N.leb_gt (N_of_ascii c + 32) 90)), andb_false_r by lia.
  - by rewrite H.
Qed.

Lemma switch_needs_default (data : gmap string pyval) :
  negb (bool_decide (is_Some (data !! "database")))
  || negb (truthy (dict_get data "database"))
  = negb (truthy (dict_get data "database")).
Proof.
  unfold dict_get. destruct (data !! "database") as [v|]; [|done].
  by rewrite bool_decide_eq_true_2 by eauto.
Qed.

(** X23.  What [_switch_database] writes before it reconnects: the engine
    asked for, in lower case, beside every other key of the old
    configuration (of none, when there was no file).  For sqlite a missing or
    falsy database becomes file_storage.db, so that the validation of
    [_load_params] accepts what was written; for mysql nothing is filled in,
    and the validation rejects the new file when a required key is
    missing. *)
Theorem X23_switch_rewrites_the_configuration path engine w data :
  disk w !! path = Some (Object data) ∨ (disk w !! path = None ∧ data = ∅) →
  ∃ data', let w' := with_config path (Object data') w in
    gui_app._switch_database_write path engine w = Return tt w'
    ∧ data' !! "engine" = Some (PStr (PyStr.lower engine))
    ∧ (∀ k, k ≠ "engine" → k ≠ "database" → data' !! k = data !! k)
    ∧ (PyStr.lower engine = "sqlite" →
         _load_params path w' = Return data' w'
         ∧ (truthy (dict_get data "database") = true →
              data' !! "database" = data !! "database")
         ∧ (truthy (dict_get data "database") = false →
              data' !! "database" = Some (PStr "file_storage.db")))
    ∧ (PyStr.lower engine = "mysql" →
         data' !! "database" = data !! "database"
         ∧ (missing_keys data ≠ [] →
              _load_params path w'
              = Raise (ValueError (missing_message (missing_keys data))) w')).
Proof.
  intros Hfound.
  unfold gui_app._switch_database_write.
  assert (match disk w !! path with
          | Some (Object d) => d = data
          | None => data = ∅
          | _ => False
          end) as Hd by (destruct Hfound as [->| [-> ->]]; done).
  assert (∀ data' : gmap string pyval,
            disk (with_config path (Object data') w) !! path = Some (Object data'))
    as Hdisk by (intros; apply lookup_insert_eq).
  assert (∀ data' : gmap string pyval,
            data' !! "engine" = Some (PStr (PyStr.lower engine)) →
            engine_name data' = PyStr.lower engine) as Hname.
  { intros data' He. unfold engine_name, dict_get_default. rewrite He. simpl.
    apply lower_lower. }
  set (data0 := <["engine" := PStr (PyStr.lower engine)]> data).
  assert (dict_get data0 "database" = dict_get data "database") as Hget.
  { unfold dict_get, data0. by rewrite lookup_insert_ne. }
  assert (match disk w !! path with
          | Some Garbled => inl JSONDecodeError
          | Some NotAnObject => inl TypeError
          | _ =>
              inr (if bool_decide (PyStr.lower engine = "sqlite")
                   then if negb (bool_decide (is_Some (data0 !! "database")))
                           || negb (truthy (dict_get data0 "database"))
                        then <["database" := PStr "file_storage.db"]> data0
                        else data0
                   else data0)
          end = (gui_app._switch_database_config engine (disk w !! path))) as <-.
  { unfold gui_app._switch_database_config.
    destruct (disk w !! path) as [[| |d]|]; try done; by subst. }
  destruct (disk w !! path) as [[| |d]|]; try done; clear Hd Hfound.
  all: rewrite switch_needs_default, Hget.
  all: case_bool_decide as Hs.
  all: try destruct (truthy (dict_get data "database")) eqn:Ht; simpl negb; cbv iota.
  all: eexists; split; [reflexivity|]; cbv zeta.
  all: split; [by unfold data0; rewrite ?lookup_insert_ne, ?lookup_insert_eq by done|].
  all: split;
    [by intros k ? ?; unfold data0; rewrite ?lookup_insert_ne by done|].
  all: split; intros He; try congruence.
  all: try (split; [|split; intros; unfold data0;
                     by rewrite ?lookup_insert_eq, ?lookup_insert_ne by done]).
  all: try (erewrite _load_params_sqlite;
            [|apply Hdisk
             |rewrite Hname;
              [done|by unfold data0; rewrite ?lookup_insert_ne, ?lookup_insert_eq by done]]).
  all: try (unfold dict_get at 1;
            rewrite ?lookup_insert_eq, ?lookup_insert_ne by done; simpl;
            fold (dict_get data "database"); rewrite <- ?Hget, ?Hget, ?Ht; done).
  all: try (split; [by unfold data0; rewrite lookup_insert_ne|]; intros Hm;
            erewrite _load_params_mysql;
            [|apply Hdisk
             |rewrite Hname; [done|by unfold data0; rewrite lookup_insert_eq]];
            unfold data0; rewrite missing_keys_engine;
            by rewrite bool_decide_eq_false_2).
  all: by rewrite Hget, Ht.
Qed.

Lemma X23_switch_rewrites_the_configuration_witness :
  ∃ data',
    gui_app._switch_database_write CONFIG_PATH "SQLite" (fresh mysql_config true)
    = Return tt (with_config CONFIG_PATH (Object data') (fresh mysql_config true))
    ∧ data' !! "engine" = Some (PStr "sqlite")
    ∧ data' !! "database" = Some (PStr "storage")
    ∧ _load_params CONFIG_PATH
        (with_config CONFIG_PATH (Object data') (fresh mysql_config true))
      = Return data' (with_config CONFIG_PATH (Object data') (fresh mysql_config true)).
Proof.
  destruct (X23_switch_rewrites_the_configuration CONFIG_PATH "SQLite"
              (fresh mysql_config true) mysql_config (or_introl eq_refl))
    as (data' & Hw & He & _ & Hs & _).
  destruct (Hs eq_refl) as (Hl & Hk & _).
  exists data'. split; [exact Hw|]. split; [exact He|]. split; [|exact Hl].
  rewrite Hk; reflexivity.
Defined.

(** ** Running a method of the window *)

Lemma handler_bind_Done {A B} (m : gui_app.Handler A) (k : A → gui_app.Handler B)
    self w a self' w' :
  m self w = gui_app.Done a self' w' → (m ≫= k) self w = k a self' w'.
Proof. intros H. unfold mbind, gui_app.Handler_bind. by rewrite H. Qed.

Lemma handler_bind_Failed {A B} (m : gui_app.Handler A) (k : A → gui_app.Handler B)
    self w e self' w' :
  m self w = gui_app.Failed e self' w' → (m ≫= k) self w = gui_app.Failed e self' w'.
Proof. intros H. unfold mbind, gui_app.Handler_bind. by rewrite H. Qed.

Lemma lift_Return {A} (m : M A) self w a w' :
  m w = Return a w' → gui_app.lift m self w = gui_app.Done a self w'.
Proof. intros H. unfold gui_app.lift. by rewrite H. Qed.

Lemma lift_Raise {A} (m : M A) self w e w' :
  m w = Raise e w' → gui_app.lift m self w = gui_app.Failed e self w'.
Proof. intros H. unfold gui_app.lift. by rewrite H. Qed.

Lemma attempt_Done {A} (body : gui_app.Handler A) h self w a self' w' :
  body self w = gui_app.Done a self' w' →
  gui_app.attempt body h self w = gui_app.Done a self' w'.
Proof. intros H. unfold gui_app.attempt. by rewrite H. Qed.

Lemma attempt_Failed {A} (body : gui_app.Handler A) h self w e self' w' :
  body self w = gui_app.Failed e self' w' →
  gui_app.attempt body h self w = h e self' w'.
Proof. intros H. unfold gui_app.attempt. by rewrite H. Qed.

(** ** The text of a number read back *)

Lemma pretty_N_char_digit d :
  (d < 10)%N →
  gui_app.is_digit (pretty_N_char d) = true
  ∧ Z.of_N (N_of_ascii (pretty_N_char d)) - 48 = Z.of_N d.
Proof.
  intros H.
  assert (d = 0 ∨ d = 1 ∨ d = 2 ∨ d = 3 ∨ d = 4 ∨ d = 5 ∨ d = 6 ∨ d = 7
          ∨ d = 8 ∨ d = 9)%N as Hd by lia.
  repeat destruct Hd as [->|Hd]; try subst d; by vm_compute.
Qed.

Lemma digits_value_pretty x :
  (0 < x)%N →
  ∃ m, ∀ s acc b,
    gui_app.digits_value acc b (pretty_N_go x s)
    = gui_app.digits_value (acc * m + Z.of_N x) true s.
Proof.
  induction (N.lt_wf_0 x) as [x _ IH]. intros Hx.
  destruct (pretty_N_char_digit (x `mod` 10)%N) as [Hd Hv];
    [by apply N.mod_lt|].
  assert (Z.of_N x = 10 * Z.of_N (x `div` 10)%N + Z.of_N (x `mod` 10)%N) as Hx10.
  { pose proof (N.div_mod x 10 ltac:(done)). lia. }
  destruct (decide (x `div` 10 = 0)%N) as [H0|H0].
  - exists 10. intros s acc b. rewrite pretty_N_go_step, H0, pretty_N_go_0 by done.
    simpl. rewrite Hd, Hv. f_equal. rewrite H0 in Hx10. lia.
  - destruct (IH (x `div` 10)%N) as [m Hm];
      [by apply N.div_lt|by apply N.neq_0_lt_0|].
    exists (10 * m). intros s acc b. rewrite pretty_N_go_step, Hm by done.
    simpl. rewrite Hd, Hv. f_equal. lia.
Qed.

Lemma pretty_N_go_digits x s :
  all_chars gui_app.is_digit s = true →
  all_chars gui_app.is_digit (pretty_N_go x s) = true.
Proof.
  revert s. induction (N.lt_wf_0 x) as [x _ IH]. intros s Hs.
  destruct (decide (x = 0)%N) as [->|Hx]; [by rewrite pretty_N_go_0|].
  rewrite pretty_N_go_step by lia. apply IH; [apply N.div_lt; lia|].
  simpl. rewrite Hs, andb_true_r.
  by apply pretty_N_char_digit, N.mod_lt.
Qed.

Lemma digit_no_space c : gui_app.is_digit c = true → gui_app.is_space c = false.
Proof.
  destruct c as [[] [] [] [] [] [] [] []]; by vm_compute.
Qed.

Lemma strip_digits s :
  all_chars gui_app.is_digit s = true →
  gui_app.lstrip s = s ∧ gui_app.rstrip s = s.
Proof.
  intros H. split.
  - destruct s as [|c s]; [done|]. simpl in *.
    apply andb_true_iff in H as [H _]. by rewrite digit_no_space.
  - induction s as [|c s IH]; [done|]. simpl in *.
    apply andb_true_iff in H as [Hc H]. by rewrite IH, digit_no_space.
Qed.

Lemma rstrip_cons c s :
  gui_app.is_space c = false →
  gui_app.rstrip (String c s) = String c (gui_app.rstrip s).
Proof. intros H. simpl. by rewrite H. Qed.

Lemma py_int_digits s :
  all_chars gui_app.is_digit s = true →
  gui_app.py_int s = gui_app.digits_value 0 false s.
Proof.
  intros H. unfold gui_app.py_int.
  destruct (strip_digits s H) as [-> ->].
  destruct s as [|c s]; [done|]. simpl in H. apply andb_true_iff in H as [H _].
  destruct c as [[] [] [] [] [] [] [] []]; try done; by vm_compute in H.
Qed.

Lemma py_int_pretty (z : Z) : gui_app.py_int (pretty z) = Some z.
Proof.
  destruct z as [|p|p]; [done|..].
  - change (pretty (Z.pos p)) with (pretty_N_go (N.pos p) EmptyString).
    rewrite py_int_digits by (by apply pretty_N_go_digits).
    destruct (digits_value_pretty (N.pos p)) as [m ->]; [lia|]. simpl. f_equal; lia.
  - change (pretty (Z.neg p)) with ("-" +:+ pretty_N_go (N.pos p) EmptyString).
    pose proof (pretty_N_go_digits (N.pos p) EmptyString eq_refl) as Hd.
    destruct (strip_digits _ Hd) as [_ Hr].
    change ("-" +:+ pretty_N_go (N.pos p) EmptyString)
      with (String "-" (pretty_N_go (N.pos p) EmptyString)).
    unfold gui_app.py_int. simpl gui_app.lstrip.
    rewrite rstrip_cons, Hr by done. simpl.
    destruct (digits_value_pretty (N.pos p)) as [m ->]; [lia|]. simpl. f_equal; lia.
Qed.

(** ** The list *)

Lemma show_row_listed id r self w :
  pretty id ∉ gui_app.iid <$> gui_app.tree self →
  gui_app.show_row (meta_dict id r) self w
  = gui_app.Done tt
      (gui_app.set_tree (gui_app.tree self ++ [gui_app.listed id r]) self) w.
Proof.
  intros Hnew. unfold gui_app.show_row, gui_app.item.
  destruct (meta_dict_fields id r) as (_ & _ & _ & -> & -> & -> & ->).
  assert (meta_dict id r !! "id" = Some (VInt id)) as -> by done.
  unfold gui_app.tree_insert, mbind, gui_app.Handler_bind, mret, gui_app.Handler_ret,
    gui_app.get.
  cbn [gui_app.iid]. unfold gui_app.sql_str at 2.
  rewrite bool_decide_eq_false_2 by done.
  unfold gui_app.modify, gui_app.listed, gui_app.sql_str.
  by case_bool_decide.
Qed.

Lemma for_each_listed l self w :
  NoDup (l.*1) →
  (∀ kr, kr ∈ l → pretty kr.1 ∉ gui_app.iid <$> gui_app.tree self) →
  gui_app.for_each ((λ kr, meta_dict kr.1 kr.2) <$> l) gui_app.show_row self w
  = gui_app.Done tt
      (gui_app.set_tree
         (gui_app.tree self ++ ((λ kr, gui_app.listed kr.1 kr.2) <$> l)) self) w.
Proof.
  revert self. induction l as [|[id r] l IH]; intros self Hnd Hnew.
  - simpl. rewrite app_nil_r. by destruct self.
  - apply NoDup_cons in Hnd as [Hid Hnd].
    rewrite !fmap_cons. cbn [gui_app.for_each].
    erewrite handler_bind_Done
      by (apply show_row_listed, (Hnew (id, r)); left).
    rewrite IH; [|done|].
    + cbn [gui_app.tree gui_app.set_tree]. rewrite <- app_assoc. by destruct self.
    + intros [id' r'] Hin. cbn [gui_app.tree gui_app.set_tree].
      rewrite fmap_app, elem_of_app. intros [Hold|Hthis].
      * by apply (Hnew (id', r')); [right|].
      * apply list_elem_of_singleton in Hthis. simpl in Hthis.
        apply (inj pretty) in Hthis as ->.
        apply Hid, list_elem_of_fmap. by exists (id, r').
Qed.

Lemma length_newest_first m : length (Engine.newest_first m) = size m.
Proof. by rewrite newest_first_perm, length_map_to_list. Qed.

Lemma _get_file_count_ok self d k w t :
  gui_app.db self = Some d →
  usable d k → server_up w = true → files_table w = Some t →
  ∃ sql, gui_app._get_file_count self w
         = gui_app.Done (size (rows t)) self (after sql (Some t) w).
Proof.
  intros Hdb Hu Hup Ht.
  destruct (get_all_files_ok d k w t Hu Hup Ht) as (sql & _ & H).
  exists sql. unfold gui_app._get_file_count.
  unfold mbind at 1, gui_app.Handler_bind at 1, gui_app.get. rewrite Hdb.
  erewrite attempt_Done; [reflexivity|].
  erewrite handler_bind_Done by (by apply lift_Return).
  by rewrite length_fmap, length_newest_first.
Qed.

Lemma _update_status_bar_ok self d k w t :
  gui_app.db self = Some d →
  usable d k → server_up w = true → files_table w = Some t →
  ∃ sql, gui_app._update_status_bar self w
         = gui_app.Done tt
             (gui_app.set_status_label (gui_app.status_text d (size (rows t))) self)
             (after sql (Some t) w).
Proof.
  intros Hdb Hu Hup Ht.
  destruct (_get_file_count_ok self d k w t Hdb Hu Hup Ht) as (sql & H).
  exists sql. unfold gui_app._update_status_bar.
  unfold mbind at 1, gui_app.Handler_bind at 1, gui_app.get. rewrite Hdb.
  erewrite handler_bind_Done by exact H. reflexivity.
Qed.

(** Two worlds with the same table behind the same connection. *)
Lemma refresh_files_ok self d k w t :
  gui_app.db self = Some d →
  usable d k → server_up w = true → files_table w = Some t →
  ∃ sql sql',
    gui_app.refresh_files self w
    = gui_app.Done tt
        (gui_app.set_status_label (gui_app.status_text d (size (rows t)))
           (gui_app.set_tree (gui_app.listing (rows t)) self))
        (after sql' (Some t) (after sql (Some t) w)).
Proof.
  intros Hdb Hu Hup Ht.
  destruct (get_all_files_ok d k w t Hu Hup Ht) as (sql & _ & H).
  destruct (_update_status_bar_ok
              (gui_app.set_tree (gui_app.listing (rows t)) self) d k
              (after sql (Some t) w) t Hdb Hu Hup eq_refl) as (sql' & Hs).
  exists sql, sql'. unfold gui_app.refresh_files.
  unfold mbind at 1, gui_app.Handler_bind at 1, gui_app.get. rewrite Hdb.
  unfold mbind at 1, gui_app.Handler_bind at 1, gui_app.modify.
  erewrite handler_bind_Done.
  2:{ apply attempt_Done. erewrite handler_bind_Done by (by apply lift_Return).
      reflexivity. }
  cbv iota beta.
  erewrite handler_bind_Done.
  2:{ apply for_each_listed; [apply newest_first_NoDup|].
      intros kr _. cbn [gui_app.tree gui_app.set_tree]. rewrite fmap_nil.
      apply not_elem_of_nil. }
  cbn [gui_app.tree gui_app.set_tree app].
  rewrite <- Hs. by destruct self.
Qed.

(** X24.  [refresh_files] makes the list show the table: on a window
    connected to an available store the list afterwards has one line for
    every stored row, newest first, the status bar names the engine and the
    number of rows, no box is shown and the table is as before. *)
Theorem X24_list_shows_the_table self d w :
  gui_app.db self = Some d → constructed d → available w →
  ∃ self' w',
    gui_app.refresh_files self w = gui_app.Done tt self' w'
    ∧ gui_app.tree self' = gui_app.listing (table_rows w)
    ∧ length (gui_app.tree self') = size (table_rows w)
    ∧ gui_app.status_label self' = gui_app.status_text d (size (table_rows w))
    ∧ gui_app.boxes self' = gui_app.boxes self
    ∧ table_rows w' = table_rows w
    ∧ available w'.
Proof.
  intros Hdb [k Hu]%constructed_usable [Hup [t Ht]].
  destruct (refresh_files_ok self d k w t Hdb Hu Hup Ht) as (sql & sql' & H).
  do 2 eexists. split; [exact H|].
  unfold table_rows. rewrite Ht. cbn.
  repeat split; try done; try (by eexists).
  all: unfold gui_app.listing; by rewrite length_fmap, length_newest_first.
Qed.

Lemma X24_list_shows_the_table_witness :
  ∃ self' w',
    gui_app.refresh_files
      (gui_app.set_db (Some sqlite_store) (gui_app.blank CONFIG_PATH))
      (with_abc sqlite_store (opened sqlite_config))
    = gui_app.Done tt self' w'
    ∧ length (gui_app.tree self') = 1%nat
    ∧ gui_app.status_label self' = gui_app.status_text sqlite_store 1.
Proof.
  destruct (X24_list_shows_the_table
              (gui_app.set_db (Some sqlite_store) (gui_app.blank CONFIG_PATH))
              sqlite_store (with_abc sqlite_store (opened sqlite_config))
              eq_refl sqlite_store_constructed with_abc_available)
    as (self' & w' & H & _ & Hlen & Hst & _).
  assert (size (table_rows (with_abc sqlite_store (opened sqlite_config))) = 1%nat)
    as Hsize.
  { vm_cast_no_check (@eq_refl nat 1%nat). }
  exists self', w'. split; [exact H|]. by rewrite Hlen, Hst, Hsize.
Defined.

(** X25.  A line of the list names its row: after [refresh_files] every
    line carries the id of a stored row, no two lines carry the same [iid],
    and [_get_selected_file_id] on a selection that starts with the line
    returns that id from the [iid] alone, without a box and without the
    fallback. *)
Theorem X25_line_names_its_row self d w self' w' it :
  gui_app.db self = Some d → constructed d → available w →
  gui_app.refresh_files self w = gui_app.Done tt self' w' →
  it ∈ gui_app.tree self' →
  NoDup (gui_app.iid <$> gui_app.tree self')
  ∧ ∃ id r,
      table_rows w !! id = Some r
      ∧ gui_app.col_id it = VInt id
      ∧ ∀ tree_set_id rest s w2,
          gui_app._get_selected_file_id tree_set_id (it :: rest) s w2
          = gui_app.Done (Some id) s w2.
Proof.
  intros Hdb [k Hu]%constructed_usable [Hup [t Ht]] H Hin.
  destruct (refresh_files_ok self d k w t Hdb Hu Hup Ht) as (sql & sql' & H').
  rewrite H' in H. injection H as <- <-.
  cbn [gui_app.tree gui_app.set_tree gui_app.set_status_label] in *.
  unfold table_rows. rewrite Ht. split.
  - unfold gui_app.listing. rewrite <- list_fmap_compose.
    apply NoDup_fmap_2_strong; [|apply NoDup_fmap_1 with (f := fst), newest_first_NoDup].
    intros [i r] [i' r'] Hi Hi' Heq. simpl in Heq. apply (inj pretty) in Heq as ->.
    apply newest_first_lookup in Hi, Hi'. congruence.
  - apply list_elem_of_fmap in Hin as ([id r] & -> & Hin).
    apply newest_first_lookup in Hin. exists id, r.
    split; [done|]. split; [done|].
    intros tsi rest s w2. unfold gui_app._get_selected_file_id.
    cbn [gui_app.iid gui_app.listed fst]. by rewrite py_int_pretty.
Qed.

Lemma X25_line_names_its_row_witness :
  ∃ self' w',
    gui_app.refresh_files
      (gui_app.set_db (Some sqlite_store) (gui_app.blank CONFIG_PATH))
      (with_abc sqlite_store (opened sqlite_config))
    = gui_app.Done tt self' w'
    ∧ ∀ it, it ∈ gui_app.tree self' →
        ∃ id, gui_app._get_selected_file_id (λ _, None) [it] self' w'
              = gui_app.Done (Some id) self' w'.
Proof.
  destruct (gui_app.refresh_files
              (gui_app.set_db (Some sqlite_store) (gui_app.blank CONFIG_PATH))
              (with_abc sqlite_store (opened sqlite_config)))
    as [[] self' w'|e self' w'] eqn:H.
  - exists self', w'. split; [done|]. intros it Hin.
    destruct (X25_line_names_its_row
                (gui_app.set_db (Some sqlite_store) (gui_app.blank CONFIG_PATH))
                sqlite_store (with_abc sqlite_store (opened sqlite_config))
                self' w' it eq_refl sqlite_store_constructed with_abc_available
                H Hin) as (_ & id & r & _ & _ & Hsel).
    exists id. apply Hsel.
  - exfalso.
    assert (match gui_app.refresh_files
                    (gui_app.set_db (Some sqlite_store) (gui_app.blank CONFIG_PATH))
                    (with_abc sqlite_store (opened sqlite_config))
            with gui_app.Done _ _ _ => true | gui_app.Failed _ _ _ => false end
            = true) as Hc.
    { vm_cast_no_check (@eq_refl bool true). }
    rewrite H in Hc. discriminate Hc.
Defined.

(** ** The actions *)

Lemma listing_insert m id r :
  (∀ k, is_Some (m !! k) → k < id) →
  gui_app.listing (<[id := r]> m) = gui_app.listed id r :: gui_app.listing m.
Proof. intros H. unfold gui_app.listing. by rewrite newest_first_insert. Qed.

(** X26.  [add_file] stores the file chosen and lists it: without a
    connection it only shows the box No database, and a cancelled dialog
    changes nothing; for a file that exists and can be read, on an available
    store, the table gains one row under an id that was free, with the
    metadata that [compute_file_metadata] of sql_app.py computes for the
    file, the list is the old listing with the line of the new row on top,
    the status bar counts one file more and the box File added is shown. *)
Theorem X26_add_file_stores_and_lists self w chosen :
  (gui_app.db self = None →
     gui_app.add_file chosen self w
     = gui_app.Done tt
         (gui_app.show (gui_app.Box gui_app.showerror "No database"
                          (gui_app.Says "Database connection not available.")) self) w)
  ∧ (is_Some (gui_app.db self) → gui_app.file_path chosen = EmptyString →
       gui_app.add_file chosen self w = gui_app.Done tt self w)
  ∧ (∀ d contents,
       gui_app.db self = Some d → constructed d → available w →
       gui_app.file_path chosen ≠ EmptyString →
       gui_app.path_exists chosen = true →
       gui_app.read_bytes chosen = inr contents →
       let '(f, m, n, dta, h) :=
         compute_file_metadata (gui_app.path_name chosen) (gui_app.guessed chosen)
           contents in
       ∃ self' w' id,
         gui_app.add_file chosen self w = gui_app.Done tt self' w'
         ∧ table_rows w !! id = None
         ∧ table_rows w' = <[id := Stored f m n dta h]> (table_rows w)
         ∧ gui_app.tree self'
           = gui_app.listed id (Stored f m n dta h) :: gui_app.listing (table_rows w)
         ∧ gui_app.status_label self'
           = gui_app.status_text d (S (size (table_rows w)))
         ∧ gui_app.last_box self' = Some (gui_app.showinfo, "File added")).
Proof.
  split; [|split].
  - intros Hdb. unfold gui_app.add_file.
    unfold mbind, gui_app.Handler_bind, gui_app.get. by rewrite Hdb.
  - intros [d Hdb] Hp. unfold gui_app.add_file.
    unfold mbind, gui_app.Handler_bind, gui_app.get. rewrite Hdb.
    by rewrite bool_decide_eq_true_2.
  - intros d contents Hdb [k Hu]%constructed_usable [Hup [t Ht]] Hp He Hr.
    unfold compute_file_metadata.
    set (m := match gui_app.guessed chosen with
              | Some m => if bool_decide (m = EmptyString)
                          then "application/octet-stream" else m
              | None => "application/octet-stream"
              end).
    set (r := Stored (gui_app.path_name chosen) m (Z.of_nat (length contents))
                contents (Hashlib.sha256_hexdigest contents)).
    destruct (insert_file_ok d k (gui_app.path_name chosen) m
                (Z.of_nat (length contents)) contents
                (Hashlib.sha256_hexdigest contents) w t Hu Hup Ht) as (sql & _ & Hi).
    fold r in Hi.
    set (t1 := Table (<[Engine.next_id t := r]> (rows t)) (Engine.next_id t) (freed t))
      in *.
    set (box := gui_app.Box gui_app.showinfo "File added"
                  (gui_app.Says
                     ("File added to database successfully." +:+ gui_app.nl +:+ gui_app.nl
                      +:+ "ID: " +:+ pretty (Engine.next_id t) +:+ gui_app.nl
                      +:+ "Filename: " +:+ gui_app.path_name chosen +:+ gui_app.nl
                      +:+ "Size: "
                      +:+ gui_app.format_file_size (Z.of_nat (length contents))
                      +:+ gui_app.nl))).
    destruct (refresh_files_ok (gui_app.show box self) d k (after sql (Some t1) w) t1
                Hdb Hu Hup eq_refl) as (sql1 & sql2 & Hrf).
    do 3 eexists. split.
    { unfold gui_app.add_file.
      unfold mbind at 1, gui_app.Handler_bind at 1, gui_app.get. rewrite Hdb.
      rewrite bool_decide_eq_false_2 by done. rewrite He. cbn [negb].
      apply attempt_Done. rewrite Hr.
      unfold mbind at 1, gui_app.Handler_bind at 1, mret, gui_app.Handler_ret.
      cbv zeta. erewrite handler_bind_Done by (apply lift_Return; exact Hi).
      unfold mbind at 1, gui_app.Handler_bind at 1, gui_app.messagebox, gui_app.modify.
      exact Hrf. }
    unfold table_rows. rewrite Ht. cbn.
    split; [apply next_id_free|]. split; [done|].
    split; [apply listing_insert, next_id_above|].
    split; [|done]. f_equal.
    rewrite map_size_insert_None by apply next_id_free. done.
Qed.

Lemma X26_add_file_stores_and_lists_witness :
  ∃ self' w' id,
    gui_app.add_file
      {| gui_app.file_path := "/home/u/abc.txt"; gui_app.path_str := "/home/u/abc.txt";
         gui_app.path_exists := true; gui_app.read_bytes := inr abc;
         gui_app.path_name := "abc.txt"; gui_app.guessed := Some "text/plain" |}
      (gui_app.set_db (Some sqlite_store) (gui_app.blank CONFIG_PATH))
      (opened sqlite_config)
    = gui_app.Done tt self' w'
    ∧ table_rows w'
      = <[id := Stored "abc.txt" "text/plain" 3 abc (Hashlib.sha256_hexdigest abc)]>
          (table_rows (opened sqlite_config))
    ∧ gui_app.last_box self' = Some (gui_app.showinfo, "File added").
Proof.
  destruct (X26_add_file_stores_and_lists
              (gui_app.set_db (Some sqlite_store) (gui_app.blank CONFIG_PATH))
              (opened sqlite_config)
              {| gui_app.file_path := "/home/u/abc.txt";
                 gui_app.path_str := "/home/u/abc.txt";
                 gui_app.path_exists := true; gui_app.read_bytes := inr abc;
                 gui_app.path_name := "abc.txt";
                 gui_app.guessed := Some "text/plain" |}) as (_ & _ & H).
  destruct (H sqlite_store abc eq_refl sqlite_store_constructed
              opened_sqlite_available ltac:(done) eq_refl eq_refl)
    as (self' & w' & id & Ha & _ & Ht & _ & _ & Hb).
  exists self', w', id. split; [exact Ha|]. split; [exact Ht|exact Hb].
Defined.

(** The table after [delete_file] with compaction. *)
Lemma delete_file_rows d k x w t :
  usable d k → server_up w = true → files_table w = Some t →
  ∃ w' t',
    delete_file d x true w = Return (bool_decide (is_Some (rows t !! x))) w'
    ∧ server_up w' = true ∧ files_table w' = Some t'
    ∧ rows t' = delete x (rows t).
Proof.
  intros Hu Hup Ht. rewrite (delete_file_ok d k x true w t Hu Hup Ht). cbv zeta.
  destruct (rows t !! x) as [r|] eqn:Hx.
  - rewrite (bool_decide_eq_true_2 (is_Some _)) by (by eexists).
    destruct (true && bool_decide (k = Engine.SqliteConnection));
      do 2 eexists; (split; [reflexivity|]); by repeat split.
  - rewrite (bool_decide_eq_false_2 (is_Some _)) by (by intros [? ?]).
    do 2 eexists. split; [reflexivity|]. repeat split; [done..|].
    by rewrite delete_id.
Qed.

(** X27.  [delete_selected] removes the row of the selected line and
    nothing else: without a connection it only shows the box No database; a
    question answered with no leaves window and world as they are; answered
    with yes, on an available store, the row under the id of the line is
    gone from the table, the list shows the rows that are left, and the box
    says File deleted, or Delete failed where no row had that id. *)
Theorem X27_delete_selected_removes_the_row tree_set_id self w it rest id :
  gui_app.iid it = pretty id →
  (gui_app.db self = None →
     ∀ confirmed,
       gui_app.delete_selected tree_set_id (it :: rest) confirmed self w
       = gui_app.Done tt
           (gui_app.show (gui_app.Box gui_app.showerror "No database"
                            (gui_app.Says "Database connection not available.")) self) w)
  ∧ (is_Some (gui_app.db self) →
       gui_app.delete_selected tree_set_id (it :: rest) false self w
       = gui_app.Done tt self w)
  ∧ (∀ d, gui_app.db self = Some d → constructed d → available w →
       ∃ self' w',
         gui_app.delete_selected tree_set_id (it :: rest) true self w
         = gui_app.Done tt self' w'
         ∧ table_rows w' = delete id (table_rows w)
         ∧ gui_app.tree self' = gui_app.listing (delete id (table_rows w))
         ∧ gui_app.last_box self'
           = Some (if bool_decide (is_Some (table_rows w !! id))
                   then (gui_app.showinfo, "File deleted")
                   else (gui_app.showwarning, "Delete failed"))).
Proof.
  intros Hiid.
  assert (∀ s w2, gui_app._get_selected_file_id tree_set_id (it :: rest) s w2
                  = gui_app.Done (Some id) s w2) as Hsel.
  { intros s w2. unfold gui_app._get_selected_file_id. by rewrite Hiid, py_int_pretty. }
  split; [|split].
  - intros Hdb confirmed. unfold gui_app.delete_selected.
    unfold mbind, gui_app.Handler_bind, gui_app.get. by rewrite Hdb.
  - intros [d Hdb]. unfold gui_app.delete_selected.
    unfold mbind at 1, gui_app.Handler_bind at 1, gui_app.get. rewrite Hdb.
    by erewrite handler_bind_Done by apply Hsel.
  - intros d Hdb [k Hu]%constructed_usable [Hup [t Ht]].
    destruct (delete_file_rows d k id w t Hu Hup Ht)
      as (w1 & t1 & Hd & Hup1 & Ht1 & Hrows).
    unfold table_rows. rewrite Ht.
    unfold gui_app.delete_selected.
    unfold mbind at 1, gui_app.Handler_bind at 1, gui_app.get. rewrite Hdb.
    erewrite handler_bind_Done by apply Hsel. cbn [negb].
    destruct (rows t !! id) as [r|] eqn:Hx.
    + rewrite (bool_decide_eq_true_2 (is_Some _)) in * by (by eexists).
      erewrite handler_bind_Done.
      2:{ apply attempt_Done. erewrite handler_bind_Done by (apply lift_Return, Hd).
          reflexivity. }
      cbv iota.
      destruct (refresh_files_ok self d k w1 t1 Hdb Hu Hup1 Ht1) as (s1 & s2 & Hrf).
      erewrite handler_bind_Done by exact Hrf.
      destruct (bool_decide (engine d = "sqlite"));
        do 2 eexists; (split; [reflexivity|]); cbn; by rewrite Hrows.
    + rewrite (bool_decide_eq_false_2 (is_Some _)) in * by (by intros [? ?]).
      set (box := gui_app.Box gui_app.showwarning "Delete failed"
                    (gui_app.Says
                       ("File with ID " +:+ pretty id
                        +:+ " was not found in the database." +:+ gui_app.nl
                        +:+ gui_app.nl +:+ "It may have already been deleted."))).
      destruct (refresh_files_ok (gui_app.show box self) d k w1 t1 Hdb Hu Hup1 Ht1)
        as (s1 & s2 & Hrf).
      erewrite handler_bind_Done.
      2:{ apply attempt_Done. erewrite handler_bind_Done by (apply lift_Return, Hd).
          cbn [negb].
          unfold mbind at 1, gui_app.Handler_bind at 1, gui_app.messagebox,
            gui_app.modify.
          erewrite handler_bind_Done by exact Hrf. reflexivity. }
      cbv iota. do 2 eexists. split; [reflexivity|]. cbn. by rewrite Hrows.
Qed.

Lemma X27_delete_selected_removes_the_row_witness :
  ∃ self' w',
    gui_app.delete_selected (λ _, None)
      [gui_app.listed 1 (Stored "abc.txt" "text/plain" 3 abc
                           (Hashlib.sha256_hexdigest abc))] true
      (gui_app.set_db (Some sqlite_store) (gui_app.blank CONFIG_PATH))
      (with_abc sqlite_store (opened sqlite_config))
    = gui_app.Done tt self' w'
    ∧ table_rows w' = delete 1 (table_rows (with_abc sqlite_store (opened sqlite_config)))
    ∧ gui_app.last_box self' = Some (gui_app.showinfo, "File deleted").
Proof.
  destruct (X27_delete_selected_removes_the_row (λ _, None)
              (gui_app.set_db (Some sqlite_store) (gui_app.blank CONFIG_PATH))
              (with_abc sqlite_store (opened sqlite_config))
              (gui_app.listed 1 (Stored "abc.txt" "text/plain" 3 abc
                                   (Hashlib.sha256_hexdigest abc)))
              [] 1 eq_refl) as (_ & _ & H).
  destruct (H sqlite_store eq_refl sqlite_store_constructed with_abc_available)
    as (self' & w' & Hd & Ht & _ & Hb).
  exists self', w'. split; [exact Hd|]. split; [exact Ht|].
  rewrite Hb. reflexivity.
Defined.

Lemma item_Some row k v self w :
  row !! k = Some v → gui_app.item row k self w = gui_app.Done v self w.
Proof. intros H. unfold gui_app.item. by rewrite H. Qed.

Lemma export_row_fields x r :
  let row := row_dict (Engine.project ["filename"; "file_data"; "sha256"] x r) in
  row !! "filename" = Some (VText (st_filename r))
  ∧ row !! "file_data" = Some (VBlob (st_file_data r))
  ∧ row !! "sha256" = Some (VText (st_sha256 r))
  ∧ size row = 3%nat.
Proof. by repeat split. Qed.

(** X28.  [export_selected] saves the stored bytes and checks them: without
    a connection it only shows the box No database; on an available store,
    for a line whose row is still there, a cancelled dialog saves nothing
    and shows no box, and a path that can be written receives exactly the
    stored [file_data], with the box Export complete when the stored digest
    is the digest of these bytes and the warning of a mismatch otherwise;
    where the row is gone the box says Not found.  The table is not
    touched. *)
Theorem X28_export_selected_saves_the_bytes tree_set_id self w it rest id target :
  gui_app.iid it = pretty id →
  (gui_app.db self = None →
     gui_app.export_selected tree_set_id (it :: rest) target self w
     = gui_app.Done tt
         (gui_app.show (gui_app.Box gui_app.showerror "No database"
                          (gui_app.Says "Database connection not available.")) self) w)
  ∧ (∀ d, gui_app.db self = Some d → constructed d → available w →
       ∃ self' w',
         gui_app.export_selected tree_set_id (it :: rest) target self w
         = gui_app.Done tt self' w'
         ∧ table_rows w' = table_rows w
         ∧ match table_rows w !! id with
           | None =>
               gui_app.saved self' = gui_app.saved self
               ∧ gui_app.last_box self' = Some (gui_app.showerror, "Not found")
           | Some r =>
               if bool_decide (gui_app.save_path target = EmptyString)
               then self' = self
               else
                 gui_app.open_error target = None →
                 gui_app.saved self'
                 = <[gui_app.out_path target := st_file_data r]> (gui_app.saved self)
                 ∧ gui_app.last_box self'
                   = Some (if bool_decide (Hashlib.sha256_hexdigest (st_file_data r)
                                           = st_sha256 r)
                           then (gui_app.showinfo, "Export complete")
                           else (gui_app.showwarning,
                                 "Export complete (hash mismatch)"))
           end).
Proof.
  intros Hiid.
  assert (∀ s w2, gui_app._get_selected_file_id tree_set_id (it :: rest) s w2
                  = gui_app.Done (Some id) s w2) as Hsel.
  { intros s w2. unfold gui_app._get_selected_file_id. by rewrite Hiid, py_int_pretty. }
  split.
  - intros Hdb. unfold gui_app.export_selected.
    unfold mbind, gui_app.Handler_bind, gui_app.get. by rewrite Hdb.
  - intros d Hdb [k Hu]%constructed_usable [Hup [t Ht]].
    destruct (get_file_for_export_ok d k id w t Hu Hup Ht) as (sql & _ & Hg).
    unfold table_rows. rewrite Ht.
    unfold gui_app.export_selected.
    unfold mbind at 1, gui_app.Handler_bind at 1, gui_app.get. rewrite Hdb.
    erewrite handler_bind_Done by apply Hsel. cbv iota.
    erewrite handler_bind_Done.
    2:{ apply attempt_Done. erewrite handler_bind_Done by (apply lift_Return, Hg).
        reflexivity. }
    cbv iota. destruct (rows t !! id) as [r|] eqn:Hx; cbn [fmap option_fmap option_map].
    2:{ do 2 eexists. split; [reflexivity|]. by repeat split. }
    destruct (export_row_fields id r) as (Hf & Hd & Hs & Hsize). cbv zeta in *.
    rewrite bool_decide_eq_false_2 by (rewrite Hsize; done).
    erewrite handler_bind_Done by apply (item_Some _ _ _ _ _ Hf).
    destruct (bool_decide (gui_app.save_path target = EmptyString)).
    { do 2 eexists. split; [reflexivity|]. by split. }
    destruct (gui_app.open_error target) as [e|] eqn:Ho.
    { unfold mbind, gui_app.Handler_bind, gui_app.attempt, gui_app.fail,
        gui_app.messagebox, gui_app.modify, mret, gui_app.Handler_ret.
      do 2 eexists. split; [reflexivity|]. by split. }
    erewrite handler_bind_Done.
    2:{ apply attempt_Done.
        unfold mbind at 1, gui_app.Handler_bind at 1, gui_app.modify at 1.
        erewrite handler_bind_Done by apply (item_Some _ _ _ _ _ Hd).
        reflexivity. }
    cbv iota.
    erewrite handler_bind_Done by apply (item_Some _ _ _ _ _ Hs).
    unfold gui_app.messagebox, gui_app.modify.
    destruct (bool_decide (Hashlib.sha256_hexdigest (st_file_data r) = st_sha256 r)).
    all: do 2 eexists; (split; [reflexivity|]); split; [done|]; intros _; cbn.
    all: split; [|done].
    all: by rewrite insert_insert_eq.
Qed.

Lemma X28_export_selected_saves_the_bytes_witness :
  ∃ self' w',
    gui_app.export_selected (λ _, None)
      [gui_app.listed 1 (Stored "abc.txt" "text/plain" 3 abc
                           (Hashlib.sha256_hexdigest abc))]
      {| gui_app.save_path := "/home/u/copy.txt"; gui_app.out_path := "/home/u/copy.txt";
         gui_app.open_error := None |}
      (gui_app.set_db (Some sqlite_store) (gui_app.blank CONFIG_PATH))
      (with_abc sqlite_store (opened sqlite_config))
    = gui_app.Done tt self' w'
    ∧ gui_app.saved self' !! "/home/u/copy.txt" = Some abc.
Proof.
  destruct (X28_export_selected_saves_the_bytes (λ _, None)
              (gui_app.set_db (Some sqlite_store) (gui_app.blank CONFIG_PATH))
              (with_abc sqlite_store (opened sqlite_config))
              (gui_app.listed 1 (Stored "abc.txt" "text/plain" 3 abc
                                   (Hashlib.sha256_hexdigest abc)))
              [] 1
              {| gui_app.save_path := "/home/u/copy.txt";
                 gui_app.out_path := "/home/u/copy.txt";
                 gui_app.open_error := None |} eq_refl) as (_ & H).
  destruct (H sqlite_store eq_refl sqlite_store_constructed with_abc_available)
    as (self' & w' & He & _ & Hm).
  assert (table_rows (with_abc sqlite_store (opened sqlite_config)) !! 1
          = Some (Stored "abc.txt" "text/plain" 3 abc (Hashlib.sha256_hexdigest abc)))
    as Hrow.
  { vm_cast_no_check
      (@eq_refl _ (Some (Stored "abc.txt" "text/plain" 3 abc
                           (Hashlib.sha256_hexdigest abc)))). }
  rewrite Hrow in Hm.
  rewrite (bool_decide_eq_false_2 (_ = EmptyString)) in Hm by done.
  destruct (Hm eq_refl) as [Hs _].
  exists self', w'. split; [exact He|].
  rewrite Hs. apply lookup_insert_eq.
Defined.

(** ** Starting the window *)

Lemma _get_current_engine_total self w :
  ∃ e, gui_app._get_current_engine self w = gui_app.Done e self w.
Proof.
  unfold gui_app._get_current_engine, gui_app.attempt, mbind, gui_app.Handler_bind,
    gui_app.get, gui_app.lift, mret, gui_app.Handler_ret.
  destruct (disk w !! gui_app.db_param_path self) as [[| |data]|]; by eexists.
Qed.

Lemma _get_current_engine_object self w data :
  disk w !! gui_app.db_param_path self = Some (Object data) →
  gui_app._get_current_engine self w = gui_app.Done (engine_name data) self w.
Proof.
  intros H.
  unfold gui_app._get_current_engine, gui_app.attempt, mbind, gui_app.Handler_bind,
    gui_app.get, gui_app.lift. by rewrite H.
Qed.

(** X29.  How the window comes up.  Where [Database] can be constructed
    from the configuration file, the window is connected to that object,
    its title and its combo box name the engine of the object, the list
    shows the table, the status bar counts its rows and no box is shown.
    Where the construction raises, the window still comes up: with the box
    Database error about that exception, without a connection, with the
    plain title, an empty list, and an empty status bar. *)
Theorem X29_window_comes_up path w :
  match __init__ (Some path) w with
  | Return d w1 =>
      ∃ self' w',
        gui_app.__init__ (gui_app.blank path) w = gui_app.Done tt self' w'
        ∧ gui_app.db self' = Some d
        ∧ gui_app.title self' = "File Storage (" +:+ gui_app.upper (engine d) +:+ ")"
        ∧ gui_app.db_combo self' = engine d
        ∧ gui_app.tree self' = gui_app.listing (table_rows w)
        ∧ gui_app.status_label self' = gui_app.status_text d (size (table_rows w))
        ∧ gui_app.boxes self' = []
        ∧ table_rows w' = table_rows w
  | Raise e w1 =>
      ∃ current,
        gui_app.__init__ (gui_app.blank path) w
        = gui_app.Done tt
            (gui_app.GUI path None "File Storage" current EmptyString [] 
               [gui_app.Box gui_app.showerror "Database error" (gui_app.Quotes e)] ∅)
            w1
  end.
Proof.
  destruct (__init__ (Some path) w) as [d w1|e w1] eqn:Hi.
  - destruct (__init___inv _ _ _ _ Hi) as (data & _ & Hdisk & _ & _ & He & _ & _).
    destruct (__init___world _ _ _ _ Hi) as (k & sql & Hu & Hup & _ & ->).
    simpl in Hdisk.
    set (t1 := default empty_table (files_table w)).
    set (self1 := gui_app.set_title
                    ("File Storage (" +:+ gui_app.upper (engine d) +:+ ")")
                    (gui_app.set_db (Some d) (gui_app.blank path))).
    destruct (refresh_files_ok (gui_app.set_db_combo (engine d) self1) d k
                (after sql (Some t1) w) t1 eq_refl Hu Hup eq_refl)
      as (s1 & s2 & Hrf).
    do 2 eexists. split.
    { unfold gui_app.__init__.
      erewrite handler_bind_Done.
      2:{ unfold gui_app._load_database. apply attempt_Done.
          unfold mbind at 1, gui_app.Handler_bind at 1, gui_app.get.
          erewrite handler_bind_Done by (apply lift_Return, Hi). reflexivity. }
      unfold mbind at 1, gui_app.Handler_bind at 1, gui_app.get, gui_app.modify,
        gui_app.set_db at 1, gui_app.db at 1.
      unfold mbind at 1, gui_app.Handler_bind at 1.
      unfold gui_app._build_widgets.
      erewrite handler_bind_Done.
      2:{ erewrite handler_bind_Done.
          2:{ apply (_get_current_engine_object _ _ data). exact Hdisk. }
          reflexivity. }
      rewrite <- He. exact Hrf. }
    assert (rows t1 = table_rows w) as <-.
    { unfold t1, table_rows. by destruct (files_table w). }
    by repeat split.
  - destruct (_get_current_engine_total
                (gui_app.set_db None
                   (gui_app.show (gui_app.Box gui_app.showerror "Database error"
                                    (gui_app.Quotes e)) (gui_app.blank path))) w1)
      as [current Hc].
    exists current. unfold gui_app.__init__.
    erewrite handler_bind_Done.
    2:{ unfold gui_app._load_database.
        erewrite attempt_Failed.
        2:{ unfold mbind at 1, gui_app.Handler_bind at 1, gui_app.get.
            erewrite handler_bind_Failed by (apply lift_Raise, Hi). reflexivity. }
        reflexivity. }
    unfold mbind at 1, gui_app.Handler_bind at 1, gui_app.get.
    unfold mbind at 1, gui_app.Handler_bind at 1, mret at 1, gui_app.Handler_ret at 1.
    cbn [gui_app.db gui_app.set_db].
    unfold gui_app._build_widgets.
    erewrite handler_bind_Done.
    2:{ erewrite handler_bind_Done by exact Hc. reflexivity. }
    reflexivity.
Qed.

(** ** The status bar *)

Lemma keeps_ret {A} d (a : A) : gui_app.keeps_status d (mret a).
Proof. intros self w Hdb. split; [done|by left]. Qed.

Lemma keeps_fail {A} d e : gui_app.keeps_status d (@gui_app.fail A e).
Proof. intros self w Hdb. split; [done|by left]. Qed.

Lemma keeps_lift {A} d (m : M A) : gui_app.keeps_status d (gui_app.lift m).
Proof.
  intros self w Hdb. unfold gui_app.lift. destruct (m w); (split; [done|by left]).
Qed.

Lemma keeps_modify d f :
  (∀ s, gui_app.db (f s) = gui_app.db s
        ∧ gui_app.status_label (f s) = gui_app.status_label s) →
  gui_app.keeps_status d (gui_app.modify f).
Proof.
  intros Hf self w Hdb. destruct (Hf self) as [H1 H2]. cbn.
  split; [congruence|by left].
Qed.

Lemma keeps_messagebox d k title m :
  gui_app.keeps_status d (gui_app.messagebox k title m).
Proof. by apply keeps_modify. Qed.

Lemma keeps_bind {A B} d (m : gui_app.Handler A) (k : A → gui_app.Handler B) :
  gui_app.keeps_status d m → (∀ a, gui_app.keeps_status d (k a)) →
  gui_app.keeps_status d (m ≫= k).
Proof.
  intros Hm Hk self w Hdb. specialize (Hm self w Hdb).
  unfold mbind, gui_app.Handler_bind.
  destruct (m self w) as [a s1 w1|e s1 w1]; cbn in Hm; [|done].
  destruct Hm as [Hdb1 Hs1]. destruct (Hk a s1 w1 Hdb1) as [Hdb2 Hs2].
  split; [done|]. destruct Hs2 as [->|?]; [done|by right].
Qed.

Lemma keeps_attempt {A} d (body : gui_app.Handler A) h :
  gui_app.keeps_status d body → (∀ e, gui_app.keeps_status d (h e)) →
  gui_app.keeps_status d (gui_app.attempt body h).
Proof.
  intros Hm Hk self w Hdb. specialize (Hm self w Hdb).
  unfold gui_app.attempt.
  destruct (body self w) as [a s1 w1|e s1 w1]; cbn in Hm; [done|].
  destruct Hm as [Hdb1 Hs1]. destruct (Hk e s1 w1 Hdb1) as [Hdb2 Hs2].
  split; [done|]. destruct Hs2 as [->|?]; [done|by right].
Qed.

Lemma keeps_get {A} d (k : gui_app.FileStorageGUI → gui_app.Handler A) :
  (∀ s, gui_app.db s = Some d → gui_app.keeps_status d (k s)) →
  gui_app.keeps_status d (gui_app.get ≫= k).
Proof. intros Hk self w Hdb. by apply Hk. Qed.

Lemma keeps_for_each {A} d (l : list A) body :
  (∀ x, gui_app.keeps_status d (body x)) →
  gui_app.keeps_status d (gui_app.for_each l body).
Proof.
  intros Hb. induction l as [|x l IH]; [apply keeps_ret|].
  apply keeps_bind; [apply Hb|done].
Qed.

Lemma keeps_item d row k : gui_app.keeps_status d (gui_app.item row k).
Proof.
  unfold gui_app.item. destruct (row !! k); [apply keeps_ret|apply keeps_fail].
Qed.

Ltac keeps :=
  repeat match goal with
  | |- gui_app.keeps_status _ (mret _) => apply keeps_ret
  | |- gui_app.keeps_status _ (gui_app.fail _) => apply keeps_fail
  | |- gui_app.keeps_status _ (gui_app.lift _) => apply keeps_lift
  | |- gui_app.keeps_status _ (gui_app.messagebox _ _ _) => apply keeps_messagebox
  | |- gui_app.keeps_status _ (gui_app.item _ _) => apply keeps_item
  | |- gui_app.keeps_status _ (gui_app.modify _) => by apply keeps_modify
  | |- gui_app.keeps_status _ (gui_app.get ≫= _) => apply keeps_get; intros ? ?
  | |- gui_app.keeps_status _ (_ ≫= _) => apply keeps_bind; [|intros ?]
  | |- gui_app.keeps_status _ (gui_app.attempt _ _) => apply keeps_attempt; [|intros ?]
  | |- gui_app.keeps_status _ (gui_app.for_each _ _) => apply keeps_for_each; intros ?
  | H : gui_app.db ?s = Some _
    |- gui_app.keeps_status _ (match gui_app.db ?s with _ => _ end) => rewrite H
  | |- gui_app.keeps_status _ (match ?x with _ => _ end) => destruct x
  | |- gui_app.keeps_status _ (let _ := _ in _) => cbv zeta
  end.

Lemma _get_file_count_done self w :
  ∃ n w', gui_app._get_file_count self w = gui_app.Done n self w'.
Proof.
  unfold gui_app._get_file_count, mbind, gui_app.Handler_bind, gui_app.get,
    gui_app.attempt, gui_app.lift, mret, gui_app.Handler_ret.
  destruct (gui_app.db self) as [d|]; [|by eauto].
  destruct (get_all_files d w); by eauto.
Qed.

Lemma keeps__update_status_bar d : gui_app.keeps_status d gui_app._update_status_bar.
Proof.
  intros self w Hdb.
  destruct (_get_file_count_done self w) as (n & w' & H).
  assert (gui_app._update_status_bar self w
          = gui_app.Done tt
              (gui_app.set_status_label (gui_app.status_text d n) self) w') as ->.
  { unfold gui_app._update_status_bar.
    unfold mbind at 1, gui_app.Handler_bind at 1, gui_app.get. rewrite Hdb. cbv zeta.
    by erewrite handler_bind_Done by exact H. }
  split; [done|]. right. by exists n.
Qed.

Lemma keeps_tree_insert d it : gui_app.keeps_status d (gui_app.tree_insert it).
Proof. unfold gui_app.tree_insert. keeps. Qed.

Lemma keeps_show_row d row : gui_app.keeps_status d (gui_app.show_row row).
Proof. unfold gui_app.show_row. keeps; apply keeps_tree_insert. Qed.

Lemma keeps_refresh_files d : gui_app.keeps_status d gui_app.refresh_files.
Proof.
  unfold gui_app.refresh_files. keeps;
    first [apply keeps_show_row | apply keeps__update_status_bar].
Qed.

Lemma keeps__get_selected_file_id d tree_set_id selection :
  gui_app.keeps_status d (gui_app._get_selected_file_id tree_set_id selection).
Proof. unfold gui_app._get_selected_file_id. keeps. Qed.

Lemma keeps_add_file d chosen : gui_app.keeps_status d (gui_app.add_file chosen).
Proof. unfold gui_app.add_file. keeps; apply keeps_refresh_files. Qed.

Lemma keeps_delete_selected d tree_set_id selection confirmed :
  gui_app.keeps_status d (gui_app.delete_selected tree_set_id selection confirmed).
Proof.
  unfold gui_app.delete_selected.
  keeps; first [apply keeps__get_selected_file_id | apply keeps_refresh_files].
Qed.

Lemma keeps_export_selected d tree_set_id selection target :
  gui_app.keeps_status d (gui_app.export_selected tree_set_id selection target).
Proof.
  unfold gui_app.export_selected. keeps; apply keeps__get_selected_file_id.
Qed.

(** A method that starts by looking for the connection. *)
Lemma shows_by_connection {A} (h : gui_app.Handler A) :
  (∀ self w, gui_app.db self = None →
             gui_app.status_label (gui_app.window (h self w))
             = gui_app.status_label self) →
  (∀ d, gui_app.keeps_status d h) →
  gui_app.shows_status h.
Proof.
  intros Hnone Hsome self w. destruct (gui_app.db self) as [d|] eqn:Hdb.
  - destruct (Hsome d self w Hdb) as [_ [H|[n H]]]; [by left|right; eauto].
  - left. by apply Hnone.
Qed.

Lemma shows_bind {A B} (m : gui_app.Handler A) (k : A → gui_app.Handler B) :
  gui_app.shows_status m → (∀ a, gui_app.shows_status (k a)) →
  gui_app.shows_status (m ≫= k).
Proof.
  intros Hm Hk self w. specialize (Hm self w).
  unfold mbind, gui_app.Handler_bind.
  destruct (m self w) as [a s1 w1|e s1 w1]; cbn in Hm; [|done].
  destruct (Hk a s1 w1) as [->|?]; [done|by right].
Qed.

Lemma shows_refresh_files : gui_app.shows_status gui_app.refresh_files.
Proof.
  apply shows_by_connection; [|apply keeps_refresh_files].
  intros self w Hdb. unfold gui_app.refresh_files, mbind, gui_app.Handler_bind,
    gui_app.get. by rewrite Hdb.
Qed.

Lemma shows_add_file chosen : gui_app.shows_status (gui_app.add_file chosen).
Proof.
  apply shows_by_connection; [|intros; apply keeps_add_file].
  intros self w Hdb. unfold gui_app.add_file, mbind, gui_app.Handler_bind,
    gui_app.get. by rewrite Hdb.
Qed.

Lemma shows_delete_selected tree_set_id selection confirmed :
  gui_app.shows_status (gui_app.delete_selected tree_set_id selection confirmed).
Proof.
  apply shows_by_connection; [|intros; apply keeps_delete_selected].
  intros self w Hdb. unfold gui_app.delete_selected, mbind, gui_app.Handler_bind,
    gui_app.get. by rewrite Hdb.
Qed.

Lemma shows_export_selected tree_set_id selection target :
  gui_app.shows_status (gui_app.export_selected tree_set_id selection target).
Proof.
  apply shows_by_connection; [|intros; apply keeps_export_selected].
  intros self w Hdb. unfold gui_app.export_selected, mbind, gui_app.Handler_bind,
    gui_app.get. by rewrite Hdb.
Qed.

Lemma shows__load_database : gui_app.shows_status gui_app._load_database.
Proof.
  intros self w. left.
  unfold gui_app._load_database, gui_app.attempt, mbind, gui_app.Handler_bind,
    gui_app.get, gui_app.lift, gui_app.messagebox, gui_app.modify.
  by destruct (__init__ _ w).
Qed.

Lemma shows___init__ : gui_app.shows_status gui_app.__init__.
Proof.
  unfold gui_app.__init__.
  apply shows_bind; [apply shows__load_database|intros ?].
  apply shows_bind; [by left|intros s].
  apply shows_bind; [by destruct (gui_app.db s); left|intros ?].
  apply shows_bind; [|intros ?; apply shows_refresh_files].
  intros self w. left. unfold gui_app._build_widgets.
  destruct (_get_current_engine_total self w) as [e He].
  by erewrite handler_bind_Done by exact He.
Qed.

Lemma status_text_not_plain d n :
  gui_app.status_text d n ≠ "No database connection".
Proof.
  intros H.
  assert (all_chars (λ c, (N_of_ascii c <? 128)%N) (gui_app.status_text d n) = true)
    as Hc by (by rewrite H).
  unfold gui_app.status_text in Hc. rewrite !all_chars_app in Hc.
  apply andb_true_iff in Hc as [_ Hc]. apply andb_true_iff in Hc as [Hc _].
  by vm_compute in Hc.
Qed.

(** X30.  The status bar never reads No database connection: none of
    [refresh_files], [add_file], [delete_selected], [export_selected] and
    [__init__], run on any window in any world, puts that text there.  Each
    of them leaves the status bar as it was or writes the engine and the
    number of files; [_update_status_bar] is only reached with a
    connection. *)
Theorem X30_status_bar_never_reports_no_connection self w :
  gui_app.status_label self ≠ "No database connection" →
  gui_app.status_label (gui_app.window (gui_app.refresh_files self w))
  ≠ "No database connection"
  ∧ (∀ chosen,
       gui_app.status_label (gui_app.window (gui_app.add_file chosen self w))
       ≠ "No database connection")
  ∧ (∀ tree_set_id selection confirmed,
       gui_app.status_label
         (gui_app.window
            (gui_app.delete_selected tree_set_id selection confirmed self w))
       ≠ "No database connection")
  ∧ (∀ tree_set_id selection target,
       gui_app.status_label
         (gui_app.window
            (gui_app.export_selected tree_set_id selection target self w))
       ≠ "No database connection")
  ∧ gui_app.status_label (gui_app.window (gui_app.__init__ self w))
    ≠ "No database connection".
Proof.
  intros Hself.
  assert (∀ A (h : gui_app.Handler A), gui_app.shows_status h →
            gui_app.status_label (gui_app.window (h self w))
            ≠ "No database connection") as Hshow.
  { intros A h Hh. destruct (Hh self w) as [->|(d & n & ->)];
      [done|apply status_text_not_plain]. }
  repeat split; intros; apply Hshow.
  - apply shows_refresh_files.
  - apply shows_add_file.
  - apply shows_delete_selected.
  - apply shows_export_selected.
  - apply shows___init__.
Qed.

Lemma X30_status_bar_never_reports_no_connection_witness :
  gui_app.status_label
    (gui_app.window
       (gui_app.__init__ (gui_app.blank CONFIG_PATH) (fresh sqlite_config false)))
  ≠ "No database connection".
Proof.
  destruct (X30_status_bar_never_reports_no_connection
              (gui_app.blank CONFIG_PATH) (fresh sqlite_config false))
    as (_ & _ & _ & _ & H); [done|exact H].
Defined.
